(** * KubeTestLauncher: a shallow embedding of the test-run orchestrator

    The development follows the layout of the repository:
    - [Py], [json]     the fragment of the Python runtime the code relies on
                       (text operations, exceptions, values, the [json]
                       module);
    - [config]         [config.py], the language registry;
    - [Rt]             the effects of a run: clock, uuid source, file system,
                       answers of the cluster, and the record of what was
                       called;
    - [k8s_client]     [k8s_client.py], class [K8sClient];
    - [utils]          [utils.py], configuration validation and result parsing;
    - [runner_service] [runner_service.py], [RunnerService.run_tests];
    - [app]            [app.py], the routes in front of the service;
    - [Spec]           the vocabulary of the statements;
    - [Scenario]       concrete worlds and runs;
    and then the facts, the claims about the service, and further
    properties of the client, of [utils.py] and of the routes.

    Python text is represented by its UTF-8 encoding in a Rocq [string].
    Every text operation the sources use (concatenation, comparison,
    searching for an ASCII marker and slicing from where it was found,
    splitting at ['-']) commutes with that encoding.  The interpreter is
    CPython 3.11. *)

From Stdlib Require Import String Ascii List ZArith NArith Lia Bool Arith DecimalString.
Import ListNotations.
Open Scope string_scope.
Set Warnings "-register-all,-abstract-large-number".

(* ------------------------------------------------------------------------- *)
(** * The Python runtime fragment *)
(* ------------------------------------------------------------------------- *)

Module Py.

(** ** Text *)

(** The double-quote character.  Literals that contain it are written with
    an apostrophe in its place and passed through [py]. *)
Definition dq : ascii := "034"%char.

Definition py_char (c : ascii) : ascii :=
  if Ascii.eqb c "'"%char then dq else c.

Fixpoint py (s : string) : string :=
  match s with
  | EmptyString => EmptyString
  | String c r => String (py_char c) (py r)
  end.

(** [s[n:]] and [s[:n]] for a non-negative [n]. *)
Fixpoint drop (n : nat) (s : string) : string :=
  match n, s with
  | O, _ => s
  | S _, EmptyString => EmptyString
  | S k, String _ r => drop k r
  end.

Fixpoint take (n : nat) (s : string) : string :=
  match n, s with
  | O, _ => EmptyString
  | S _, EmptyString => EmptyString
  | S k, String c r => String c (take k r)
  end.

(** [s.find(sub)]: the lowest index where [sub] occurs, or [-1]. *)
Definition find (s sub : string) : Z :=
  match index 0 sub s with
  | Some i => Z.of_nat i
  | None => (-1)%Z
  end.

(** [s[i:]], with Python's reading of a negative start. *)
Definition slice_from (s : string) (i : Z) : string :=
  if (i <? 0)%Z
  then drop (Z.to_nat (Z.max 0 (Z.of_nat (String.length s) + i))) s
  else drop (Z.to_nat i) s.

(** [c in s] for a one-character [c]. *)
Fixpoint contains_char (c : ascii) (s : string) : bool :=
  match s with
  | EmptyString => false
  | String d r => Ascii.eqb c d || contains_char c r
  end.

(** [s.split(c)[0]]: the text before the first [c] (all of [s] without one). *)
Fixpoint split_head (c : ascii) (s : string) : string :=
  match s with
  | EmptyString => EmptyString
  | String d r => if Ascii.eqb c d then EmptyString else String d (split_head c r)
  end.

(** [str(n)] for an integer. *)
Definition str_of_Z (z : Z) : string := NilZero.string_of_int (Z.to_int z).
Definition str_of_nat (n : nat) : string := NilZero.string_of_uint (Nat.to_uint n).

(** [chr(cp)] in UTF-8 (a lone surrogate is written like any other
    three-byte code point). *)
Definition utf8 (cp : N) : string :=
  let b (n : N) := ascii_of_N n in
  (if cp <? 128 then String (b cp) ""
   else if cp <? 2048 then
     String (b (192 + cp / 64)) (String (b (128 + cp mod 64)) "")
   else if cp <? 65536 then
     String (b (224 + cp / 4096))
       (String (b (128 + (cp / 64) mod 64)) (String (b (128 + cp mod 64)) ""))
   else
     String (b (240 + cp / 262144))
       (String (b (128 + (cp / 4096) mod 64))
          (String (b (128 + (cp / 64) mod 64))
             (String (b (128 + cp mod 64)) ""))))%N.

(** The code points of a text.  [need] continuation bytes are still due
    for the code point begun in [pending]. *)
Fixpoint code_points_from (pending : N) (need : nat) (s : string) : list N :=
  match s with
  | EmptyString => []
  | String c r =>
      let n := N_of_ascii c in
      match need with
      | O =>
          if (n <? 192)%N then n :: code_points_from 0 0 r
          else if (n <? 224)%N then code_points_from (n - 192) 1 r
          else if (n <? 240)%N then code_points_from (n - 224) 2 r
          else code_points_from (n - 240) 3 r
      | S k =>
          let p := (pending * 64 + n mod 64)%N in
          match k with
          | O => p :: code_points_from 0 0 r
          | S _ => code_points_from p k r
          end
      end
  end.

Definition code_points (s : string) : list N := code_points_from 0 0 s.

Definition hex_digit (n : N) : ascii :=
  ascii_of_N (if n <? 10 then 48 + n else 87 + n)%N.

(** [n] in hexadecimal, on [width] digits. *)
Fixpoint hex (width : nat) (n : N) : string :=
  match width with
  | O => EmptyString
  | S k => hex k (n / 16) ++ String (hex_digit (n mod 16)) ""
  end.

(** ** The interpreter

    What the code depends on in the interpreter that runs it: how many
    levels of calls the stack has room for when the [json] decoder is
    entered, the limit on the length of an integer that is read from text,
    the text that stands for a float, and the characters beyond ASCII that
    count as printable. *)
Record Interp := {
  nesting_room : nat;
  int_max_str_digits : nat;       (* sys.get_int_max_str_digits(); 0: no limit *)
  float_repr : string -> string;  (* of the float that a lexeme denotes, as
                                     json.dumps writes it *)
  isprintable : N -> bool         (* str.isprintable, of a code point from
                                     128 on *)
}.

(** The stack has room for at least this many levels where the decoder is
    entered: an interpreter that has come as far as calling it is not at
    the very end of its stack. *)
Definition SPARE_LEVELS : nat := 8.

Definition levels (ip : Interp) : nat := SPARE_LEVELS + nesting_room ip.

(** [repr(s)] for a text. *)
Definition repr_cp (ip : Interp) (quote : ascii) (cp : N) : string :=
  (if (cp =? N_of_ascii quote) || (cp =? 92) then
     String "\" (String (ascii_of_N cp) "")
   else if cp =? 9 then "\t"
   else if cp =? 10 then "\n"
   else if cp =? 13 then "\r"
   else if (cp <? 32) || (cp =? 127) then "\x" ++ hex 2 cp
   else if cp <? 127 then String (ascii_of_N cp) ""
   else if isprintable ip cp then utf8 cp
   else if cp <? 256 then "\x" ++ hex 2 cp
   else if cp <? 65536 then "\u" ++ hex 4 cp
   else "\U" ++ hex 8 cp)%N.

Definition repr (ip : Interp) (s : string) : string :=
  let quote :=
    if contains_char "'" s && negb (contains_char dq s) then dq else "'"%char in
  String quote
    (fold_right (fun cp t => repr_cp ip quote cp ++ t) (String quote "")
       (code_points s)).

(** ** Exceptions

    Every class below derives from [Exception]; [JSONDecodeError] and
    [UnicodeDecodeError] derive from [ValueError].  [exn_str] is what
    [str(e)] yields. *)

Inductive exn_class :=
| ValueError
| JSONDecodeError
| UnicodeDecodeError
| RecursionError
| KeyError
| FileNotFoundError
| IsADirectoryError
| ApiException
| OtherError.

Record exn := Exn { exn_cls : exn_class; exn_str : string }.

Definition is_ApiException (e : exn) : bool :=
  match exn_cls e with ApiException => true | _ => false end.

Definition is_JSONDecodeError (e : exn) : bool :=
  match exn_cls e with JSONDecodeError => true | _ => false end.

Inductive result (A : Type) :=
| Ok (a : A)
| Raise (e : exn).
Arguments Ok {A} a.
Arguments Raise {A} e.

(** ** Values

    The objects that [json.loads] produces and that the service returns.
    A [dict] keeps its keys in insertion order.  A float is carried as the
    text it was read from. *)

Inductive obj :=
| PyNone
| PyBool (b : bool)
| PyInt (n : Z)
| PyFloat (lexeme : string)
| PyStr (s : string)
| PyList (l : list obj)
| PyDict (d : list (string * obj)).

Definition dict := list (string * obj).

Fixpoint dict_get {V : Type} (d : list (string * V)) (k : string) : option V :=
  match d with
  | [] => None
  | (k', v) :: r => if String.eqb k k' then Some v else dict_get r k
  end.

(** [k in d] *)
Definition dict_has {V : Type} (d : list (string * V)) (k : string) : bool :=
  match dict_get d k with Some _ => true | None => false end.

(** [d[k] = v]: an existing key keeps its place. *)
Fixpoint dict_set {V : Type} (d : list (string * V)) (k : string) (v : V)
  : list (string * V) :=
  match d with
  | [] => [(k, v)]
  | (k', v') :: r =>
      if String.eqb k k' then (k', v) :: r else (k', v') :: dict_set r k v
  end.

(** [dict(pairs)] *)
Definition dict_of_pairs {V : Type} (pairs : list (string * V)) : list (string * V) :=
  fold_left (fun d kv => dict_set d (fst kv) (snd kv)) pairs [].

Definition keys {V : Type} (d : list (string * V)) : list string := map fst d.

(** [o[k]] read defensively: the entry of a dict, nothing otherwise. *)
Definition item (o : obj) (k : string) : option obj :=
  match o with
  | PyDict d => dict_get d k
  | _ => None
  end.

End Py.

(* ------------------------------------------------------------------------- *)
(** * The [json] module

    [loads] follows CPython's [json.decoder] with its C scanner: the
    grammar, the places where white space is skipped, the end-of-document
    check, the texts and positions of the errors, and the two limits of the
    interpreter: a document nested deeper than the stack has room for
    raises [RecursionError], and an integer of more digits than
    [int_max_str_digits] raises [ValueError].  Positions are counted in
    characters, as Python does, from the UTF-8 text.

    The recursion of the definitions below is bounded, besides, by the
    length of the document; that bound is never reached
    ([raw_decode_never_starves]). *)
(* ------------------------------------------------------------------------- *)

Module json.
Import Py.

Definition is_ws (c : ascii) : bool :=
  Ascii.eqb c " " || Ascii.eqb c "009" || Ascii.eqb c "010" || Ascii.eqb c "013".

Fixpoint skip_ws (s : string) : string :=
  match s with
  | EmptyString => EmptyString
  | String c r => if is_ws c then skip_ws r else s
  end.

Definition is_digit (c : ascii) : bool :=
  (48 <=? N_of_ascii c)%N && (N_of_ascii c <=? 57)%N.

Fixpoint span_digits (s : string) : string * string :=
  match s with
  | EmptyString => (EmptyString, EmptyString)
  | String c r =>
      if is_digit c
      then let '(ds, r') := span_digits r in (String c ds, r')
      else (EmptyString, s)
  end.

Fixpoint Z_of_digits (acc : Z) (s : string) : Z :=
  match s with
  | EmptyString => acc
  | String c r => Z_of_digits (10 * acc + (Z.of_N (N_of_ascii c) - 48))%Z r
  end.

Definition hex_val (c : ascii) : option N :=
  let n := N_of_ascii c in
  if ((48 <=? n) && (n <=? 57))%N then Some (n - 48)%N
  else if ((97 <=? n) && (n <=? 102))%N then Some (n - 87)%N
  else if ((65 <=? n) && (n <=? 70))%N then Some (n - 55)%N
  else None.

Definition hex4 (a b c d : ascii) : option N :=
  match hex_val a, hex_val b, hex_val c, hex_val d with
  | Some x, Some y, Some z, Some w => Some (((x * 16 + y) * 16 + z) * 16 + w)%N
  | _, _, _, _ => None
  end.

Definition is_high_surrogate (c : N) : bool := (55296 <=? c)%N && (c <=? 56319)%N.
Definition is_low_surrogate (c : N) : bool := (56320 <=? c)%N && (c <=? 57343)%N.
Definition join_surrogates (hi lo : N) : N :=
  (65536 + ((hi - 55296) * 1024 + (lo - 56320)))%N.

(** The outcome of scanning: a value and the text after it; a decoding
    error with the number of bytes from the offending position to the end;
    another exception; or the report that the bound on the recursion was
    reached. *)
Inductive scan (A : Type) :=
| Scanned (a : A) (rest : string)
| Bad (msg : string) (rem : nat)
| Failed (e : exn)
| Starved.
Arguments Scanned {A} a rest.
Arguments Bad {A} msg rem.
Arguments Failed {A} e.
Arguments Starved {A}.

Definition backslash_escape (c : ascii) : option ascii :=
  if Ascii.eqb c dq then Some dq
  else if Ascii.eqb c "\" then Some "\"%char
  else if Ascii.eqb c "/" then Some "/"%char
  else if Ascii.eqb c "b" then Some "008"%char
  else if Ascii.eqb c "f" then Some "012"%char
  else if Ascii.eqb c "n" then Some "010"%char
  else if Ascii.eqb c "r" then Some "013"%char
  else if Ascii.eqb c "t" then Some "009"%char
  else None.

(** [scanstring], entered after the opening quote; [begin] locates that
    quote and [acc] is the text decoded so far. *)
Fixpoint scanstring (begin : nat) (acc : string) (s : string) : scan string :=
  match s with
  | EmptyString => Bad "Unterminated string starting at" begin
  | String c r =>
      if Ascii.eqb c dq then Scanned acc r
      else if Ascii.eqb c "\" then
        match r with
        | EmptyString => Bad "Unterminated string starting at" begin
        | String e r1 =>
            if Ascii.eqb e "u" then
              match r1 with
              | String h1 (String h2 (String h3 (String h4 r2))) =>
                  match r2 with
                  | EmptyString => Bad "Invalid \uXXXX escape" (String.length r)
                  | String _ _ =>
                      match hex4 h1 h2 h3 h4 with
                      | None => Bad "Invalid \uXXXX escape" (String.length r)
                      | Some cp =>
                          match r2 with
                          | String b1 (String b2 (String g1 (String g2
                              (String g3 (String g4 r3)))) as after_bs) =>
                              if is_high_surrogate cp && Ascii.eqb b1 "\"
                                 && Ascii.eqb b2 "u"
                                 && negb (String.eqb r3 "")
                              then
                                match hex4 g1 g2 g3 g4 with
                                | None =>
                                    Bad "Invalid \uXXXX escape" (String.length after_bs)
                                | Some cp2 =>
                                    if is_low_surrogate cp2
                                    then scanstring begin
                                           (acc ++ utf8 (join_surrogates cp cp2)) r3
                                    else scanstring begin (acc ++ utf8 cp) r2
                                end
                              else scanstring begin (acc ++ utf8 cp) r2
                          | _ => scanstring begin (acc ++ utf8 cp) r2
                          end
                      end
                  end
              | _ => Bad "Invalid \uXXXX escape" (String.length r)
              end
            else
              match backslash_escape e with
              | Some d => scanstring begin (acc ++ String d "") r1
              | None => Bad "Invalid \escape" (String.length s)
              end
        end
      else if (N_of_ascii c <=? 31)%N then
        Bad "Invalid control character at" (String.length s)
      else scanstring begin (acc ++ String c "") r
  end.

(** The number pattern of the decoder: an optional minus sign, then a
    single zero or a non-zero digit followed by digits; then, optionally, a
    dot with at least one digit; then, optionally, an exponent letter, an
    optional sign and at least one digit.  The result tells whether a
    fraction or an exponent was there, and gives the text of the number and
    the text after it. *)
Definition match_number (s : string) : option (bool * string * string) :=
  let '(sign, s1) :=
    match s with
    | String c r => if Ascii.eqb c "-" then ("-", r) else ("", s)
    | EmptyString => ("", s)
    end in
  match s1 with
  | String c r =>
      if is_digit c then
        let '(int_part, r1) :=
          if Ascii.eqb c "0" then (String c "", r)
          else let '(ds, r') := span_digits r in (String c ds, r') in
        let '(frac, r2) :=
          match r1 with
          | String d t =>
              if Ascii.eqb d "." then
                match span_digits t with
                | (EmptyString, _) => ("", r1)
                | (fd, t') => (String d fd, t')
                end
              else ("", r1)
          | EmptyString => ("", r1)
          end in
        let '(exp, r3) :=
          match r2 with
          | String d t =>
              if Ascii.eqb d "e" || Ascii.eqb d "E" then
                let '(sg, t1) :=
                  match t with
                  | String g u =>
                      if Ascii.eqb g "-" || Ascii.eqb g "+"
                      then (String g "", u) else ("", t)
                  | EmptyString => ("", t)
                  end in
                match span_digits t1 with
                | (EmptyString, _) => ("", r2)
                | (ed, t') => (String d (sg ++ ed), t')
                end
              else ("", r2)
          | EmptyString => ("", r2)
          end in
        Some (negb (String.eqb frac "" && String.eqb exp ""),
              sign ++ int_part ++ frac ++ exp, r3)
      else None
  | EmptyString => None
  end.

(** [int(numstr)] for an optional minus sign and digits.  Above 640
    digits the limit of the interpreter applies. *)
Definition int_of_text (ip : Interp) (numstr : string) : result obj :=
  let '(negative, digits) :=
    match numstr with
    | String c r => if Ascii.eqb c "-" then (true, r) else (false, numstr)
    | EmptyString => (false, numstr)
    end in
  let n := String.length digits in
  if ((640 <? n) && (0 <? int_max_str_digits ip)
      && (int_max_str_digits ip <? n))%nat
  then Raise (Exn ValueError
                ("Exceeds the limit (" ++ str_of_nat (int_max_str_digits ip)
                 ++ " digits) for integer string conversion: value has "
                 ++ str_of_nat n
                 ++ " digits; use sys.set_int_max_str_digits() to increase the limit"))
  else Ok (PyInt (if negative then - Z_of_digits 0 digits
                  else Z_of_digits 0 digits)%Z).

Definition literal (word : string) (v : obj) (s : string) : option (obj * string) :=
  if prefix word s then Some (v, drop (String.length word) s) else None.

(** An error that the scanner reports where it finds it is built there,
    by a call of [JSONDecodeError]: that takes three levels of the stack,
    and with fewer than three left the call raises [RecursionError]. *)
Definition raise_errmsg {A} (room : nat) (msg : string) (rem : nat) : scan A :=
  match room with
  | 0 | 2 =>
      Failed (Exn RecursionError
                "maximum recursion depth exceeded while calling a Python object")
  | 1 => Failed (Exn RecursionError "maximum recursion depth exceeded")
  | _ => Bad msg rem
  end.

Definition too_deep {A} (what : string) : scan A :=
  Failed (Exn RecursionError
            ("maximum recursion depth exceeded while decoding a JSON " ++ what
             ++ " from a unicode string")).

Section Decoder.
Variable ip : Interp.

(** [scan_once] with the array and object loops of [JSONArray] and
    [JSONObject]; the loops are entered where the first item or key is
    expected.  [room] is the number of levels that the stack has room for;
    an object or an array takes one.  That a value is missing is reported
    to [raw_decode], which builds the error. *)
Fixpoint scan_once (fuel : nat) (room : nat) (s : string) {struct fuel} : scan obj :=
  match fuel with
  | O => Starved
  | S n =>
      match s with
      | EmptyString => Bad "Expecting value" 0
      | String c r =>
          if Ascii.eqb c dq then
            match scanstring (String.length s) "" r with
            | Scanned t rest => Scanned (PyStr t) rest
            | Bad m k => raise_errmsg room m k
            | Failed e => Failed e
            | Starved => Starved
            end
          else if Ascii.eqb c "{" then
            match room with
            | O => too_deep "object"
            | S inner =>
                let r' := skip_ws r in
                match r' with
                | String d body =>
                    if Ascii.eqb d "}" then Scanned (PyDict []) body
                    else if Ascii.eqb d dq then object_loop n inner [] r'
                    else raise_errmsg inner
                           "Expecting property name enclosed in double quotes"
                           (String.length r')
                | EmptyString =>
                    raise_errmsg inner
                      "Expecting property name enclosed in double quotes" 0
                end
            end
          else if Ascii.eqb c "[" then
            match room with
            | O => too_deep "array"
            | S inner =>
                let r' := skip_ws r in
                match r' with
                | String d body =>
                    if Ascii.eqb d "]" then Scanned (PyList []) body
                    else array_loop n inner [] r'
                | EmptyString => array_loop n inner [] r'
                end
            end
          else
            match literal "null" PyNone s with
            | Some (v, rest) => Scanned v rest
            | None =>
            match literal "true" (PyBool true) s with
            | Some (v, rest) => Scanned v rest
            | None =>
            match literal "false" (PyBool false) s with
            | Some (v, rest) => Scanned v rest
            | None =>
            match match_number s with
            | Some (true, numstr, rest) => Scanned (PyFloat numstr) rest
            | Some (false, numstr, rest) =>
                match int_of_text ip numstr with
                | Ok v => Scanned v rest
                | Raise e => Failed e
                end
            | None =>
            match literal "NaN" (PyFloat "NaN") s with
            | Some (v, rest) => Scanned v rest
            | None =>
            match literal "Infinity" (PyFloat "Infinity") s with
            | Some (v, rest) => Scanned v rest
            | None =>
            match literal "-Infinity" (PyFloat "-Infinity") s with
            | Some (v, rest) => Scanned v rest
            | None => Bad "Expecting value" (String.length s)
            end end end end end end end
      end
  end

with array_loop (fuel : nat) (room : nat) (acc : list obj) (s : string)
  {struct fuel} : scan obj :=
  match fuel with
  | O => Starved
  | S n =>
      match scan_once n room s with
      | Scanned v rest =>
          let rest' := skip_ws rest in
          match rest' with
          | String d after =>
              if Ascii.eqb d "]" then Scanned (PyList (acc ++ [v])) after
              else if Ascii.eqb d ","
              then array_loop n room (acc ++ [v]) (skip_ws after)
              else raise_errmsg room "Expecting ',' delimiter" (String.length rest')
          | EmptyString => raise_errmsg room "Expecting ',' delimiter" 0
          end
      | Bad m k => Bad m k
      | Failed e => Failed e
      | Starved => Starved
      end
  end

with object_loop (fuel : nat) (room : nat) (acc : list (string * obj)) (s : string)
  {struct fuel} : scan obj :=
  match fuel with
  | O => Starved
  | S n =>
      match s with
      | String q r =>
          if Ascii.eqb q dq then
            match scanstring (String.length s) "" r with
            | Scanned key rest =>
                let rest' := skip_ws rest in
                match rest' with
                | String d after =>
                    if Ascii.eqb d ":" then
                      match scan_once n room (skip_ws after) with
                      | Scanned v rest2 =>
                          let rest2' := skip_ws rest2 in
                          match rest2' with
                          | String e after2 =>
                              if Ascii.eqb e "}" then
                                Scanned (PyDict (dict_of_pairs (acc ++ [(key, v)])))
                                        after2
                              else if Ascii.eqb e "," then
                                object_loop n room (acc ++ [(key, v)])
                                  (skip_ws after2)
                              else raise_errmsg room "Expecting ',' delimiter"
                                     (String.length rest2')
                          | EmptyString =>
                              raise_errmsg room "Expecting ',' delimiter" 0
                          end
                      | Bad m k => Bad m k
                      | Failed e => Failed e
                      | Starved => Starved
                      end
                    else raise_errmsg room "Expecting ':' delimiter"
                           (String.length rest')
                | EmptyString => raise_errmsg room "Expecting ':' delimiter" 0
                end
            | Bad m k => raise_errmsg room m k
            | Failed e => Failed e
            | Starved => Starved
            end
          else raise_errmsg room
                 "Expecting property name enclosed in double quotes"
                 (String.length s)
      | EmptyString =>
          raise_errmsg room "Expecting property name enclosed in double quotes" 0
      end
  end.

(** The bound on the recursion that is used for a document. *)
Definition depth_bound (doc : string) : nat := 2 * String.length doc + 2.

(** [JSONDecoder.raw_decode]: a value at the start of [doc]. *)
Definition raw_decode (doc : string) : scan obj :=
  scan_once (depth_bound doc) (levels ip) (skip_ws doc).

End Decoder.

(** Line, column and character index of the position [bytes] bytes into
    [doc], as [JSONDecodeError] reports them. *)
Definition is_continuation (c : ascii) : bool :=
  (128 <=? N_of_ascii c)%N && (N_of_ascii c <? 192)%N.

Fixpoint locate (bytes : nat) (doc : string) (line col chars : nat)
  : nat * nat * nat :=
  match bytes, doc with
  | S k, String c r =>
      if is_continuation c then locate k r line col chars
      else if Ascii.eqb c "010" then locate k r (S line) 1 (S chars)
      else locate k r line (S col) (S chars)
  | _, _ => (line, col, chars)
  end.

Definition errmsg (msg doc : string) (rem : nat) : string :=
  let '(line, col, chars) := locate (String.length doc - rem) doc 1 1 0 in
  msg ++ ": line " ++ str_of_nat line ++ " column " ++ str_of_nat col
      ++ " (char " ++ str_of_nat chars ++ ")".

(** The byte order mark, U+FEFF. *)
Definition BOM : string := String "239" (String "187" (String "191" "")).

(** [json.loads(doc)] *)
Definition loads (ip : Interp) (doc : string) : result obj :=
  if prefix BOM doc then
    Raise (Exn JSONDecodeError
             (errmsg "Unexpected UTF-8 BOM (decode using utf-8-sig)" doc
                (String.length doc)))
  else
    match raw_decode ip doc with
    | Scanned v rest =>
        match skip_ws rest with
        | EmptyString => Ok v
        | String _ _ as extra =>
            Raise (Exn JSONDecodeError
                     (errmsg "Extra data" doc (String.length extra)))
        end
    | Bad m rem => Raise (Exn JSONDecodeError (errmsg m doc rem))
    | Failed e => Raise e
    | Starved => Raise (Exn RecursionError "maximum recursion depth exceeded")
    end.

(** A scan that did not run out of its bound and, when it found a value,
    left less text than it was given. *)
Definition consumes (r : scan obj) (s : string) : Prop :=
  r <> Starved
  /\ forall v rest, r = Scanned v rest -> String.length rest < String.length s.

(** ** [json.dumps] with the default options

    Separators [", "] and [": "], [ensure_ascii] on: every character outside
    the printable ASCII range is written as a [\u] escape (a pair of them
    above the basic plane).  A float is written as the interpreter writes
    it ([float_repr]).  The values of type [obj] stand for the values that
    [json.dumps] writes; for one that it refuses (nested deeper than the
    stack has room for, or with an integer beyond the limit of the
    interpreter) [dumps] gives the text that would be written without
    those limits. *)

Definition u_escape (cp : N) : string :=
  "\u" ++ String (hex_digit (cp / 4096 mod 16))
            (String (hex_digit (cp / 256 mod 16))
               (String (hex_digit (cp / 16 mod 16))
                  (String (hex_digit (cp mod 16)) ""))).

Definition escape_cp (cp : N) : string :=
  (if cp =? 34 then String "\" (String dq "")
   else if cp =? 92 then "\\"
   else if cp =? 10 then "\n"
   else if cp =? 13 then "\r"
   else if cp =? 9 then "\t"
   else if cp =? 12 then "\f"
   else if cp =? 8 then "\b"
   else if (32 <=? cp) && (cp <=? 126) then String (ascii_of_N cp) ""
   else if cp <? 65536 then u_escape cp
   else u_escape (55296 + (cp - 65536) / 1024)
        ++ u_escape (56320 + (cp - 65536) mod 1024))%N.

(** Reads the UTF-8 text one code point at a time; [need] continuation
    bytes are still due for the code point begun in [pending]. *)
Fixpoint escape_text (pending : N) (need : nat) (s : string) : string :=
  match s with
  | EmptyString => EmptyString
  | String c r =>
      let n := N_of_ascii c in
      match need with
      | O =>
          if (n <? 192)%N then escape_cp n ++ escape_text 0 0 r
          else if (n <? 224)%N then escape_text (n - 192) 1 r
          else if (n <? 240)%N then escape_text (n - 224) 2 r
          else escape_text (n - 240) 3 r
      | S k =>
          let p := (pending * 64 + n mod 64)%N in
          match k with
          | O => escape_cp p ++ escape_text 0 0 r
          | S _ => escape_text p k r
          end
      end
  end.

Definition encode_basestring_ascii (s : string) : string :=
  String dq (escape_text 0 0 s ++ String dq "").

Fixpoint dumps (ip : Interp) (o : obj) : string :=
  match o with
  | PyNone => "null"
  | PyBool true => "true"
  | PyBool false => "false"
  | PyInt n => str_of_Z n
  | PyFloat lexeme => float_repr ip lexeme
  | PyStr s => encode_basestring_ascii s
  | PyList l =>
      "[" ++ (fix items (l : list obj) : string :=
                match l with
                | [] => ""
                | [x] => dumps ip x
                | x :: r => dumps ip x ++ ", " ++ items r
                end) l ++ "]"
  | PyDict d =>
      "{" ++ (fix pairs (d : list (string * obj)) : string :=
                match d with
                | [] => ""
                | [(k, v)] => encode_basestring_ascii k ++ ": " ++ dumps ip v
                | (k, v) :: r =>
                    encode_basestring_ascii k ++ ": " ++ dumps ip v ++ ", "
                    ++ pairs r
                end) d ++ "}"
  end.

End json.

(* ------------------------------------------------------------------------- *)
(** * config.py *)
(* ------------------------------------------------------------------------- *)

Module config.
Import Py.

(** One entry of the language table. *)
Record LangConfig := {
  image : string;
  file_extension : string;
  timeout : Z
}.

Definition registry := list (string * LangConfig).

Definition SUPPORTED_LANGUAGES : registry :=
  [("python", {| image := "exercism/python-test-runner:latest";
                 file_extension := "py";
                 timeout := 60 |})].

Definition DEFAULT_NAMESPACE : string := "exercism-test-runners".
Definition DEFAULT_TIMEOUT : Z := 120.
Definition CLEANUP_COMPLETED_JOBS : bool := true.
Definition CLEANUP_FAILED_JOBS : bool := true.
Definition JOB_TTL_SECONDS : Z := 300.
Definition API_RATE_LIMIT : Z := 100.

End config.

(* ------------------------------------------------------------------------- *)
(** * The effects of a run

    A computation of the service is a function of a [State]; it ends with a
    value or with a raised exception, and in both cases with the state it
    left behind.  What lies outside the program is a [World]: the
    interpreter, the uuid source, the answers of the cluster and the time
    its requests take, and what the operating system does with paths that
    are not readable files.

    The state also keeps two records of what happened, which the program
    cannot read: [calls], the invocations of the client's methods in the
    way a test double counts them, and [requests], what was sent to the
    cluster.  Both are newest first.  The answer of the cluster to a
    request may depend on how many requests came before it. *)
(* ------------------------------------------------------------------------- *)

Module Rt.
Import Py.

(** ** What the cluster is sent *)

Record V1EnvVar := { env_name : string; env_value : string }.
Record V1VolumeMount := { mount_name : string; mount_path : string }.
Record V1Volume := { volume_name : string; config_map_name : string }.

Record V1Container := {
  container_name : string;
  container_image : string;
  container_command : list string;
  container_env : list V1EnvVar;
  container_volume_mounts : list V1VolumeMount
}.

Record V1Job := {
  api_version : string;
  kind : string;
  metadata_name : string;
  template_labels : list (string * string);
  containers : list V1Container;
  restart_policy : string;
  job_volumes : list V1Volume;
  backoff_limit : Z;
  ttl_seconds_after_finished : Z;
  active_deadline_seconds : Z
}.

Record V1JobStatus := { succeeded : option Z; failed : option Z }.

Inductive request :=
| list_namespace
| create_namespaced_config_map (namespace name : string) (data : list (string * string))
| create_namespaced_job (namespace : string) (body : V1Job)
| read_namespaced_job_status (name namespace : string)
| list_namespaced_pod (namespace label_selector : string)
| read_namespaced_pod_log (name namespace : string)
| delete_namespaced_config_map (name namespace : string).

(** ** What the service asks of its client *)

Inductive call :=
| create_config_map_call (name : string) (data : list (string * string))
| create_job_call (name image : string) (command : list string)
    (volume_mounts : list V1VolumeMount) (volumes : list V1Volume)
    (timeout_seconds : Z)
| wait_for_job_completion_call (job_name : string)
| delete_config_map_call (name : string).

(** What a method handed back: nothing, a name, or the pair of
    [wait_for_job_completion]. *)
Inductive retval :=
| RNone
| RStr (s : string)
| RPair (success : bool) (logs : string).

Inductive event :=
| Called (c : call)
| Returned (c : call) (v : retval)
| Raised (c : call) (e : exn)
| DeadlineElapsed (job_name : string).

(** ** The world *)

Inductive config_outcome := Loaded | ConfigException | ConfigCrash (e : exn).

Record World := {
  interp : Interp;
  uuid4 : nat -> string;
  latency : nat -> positive;
  environ : string -> option string;
  load_incluster_config : config_outcome;
  load_kube_config : config_outcome;
  on_list_namespace : nat -> result unit;
  on_create_namespaced_config_map :
    nat -> string -> string -> list (string * string) -> result unit;
  on_create_namespaced_job : nat -> string -> V1Job -> result unit;
  on_read_namespaced_job_status : nat -> string -> string -> result V1JobStatus;
  on_list_namespaced_pod : nat -> string -> string -> result (list string);
  on_read_namespaced_pod_log : nat -> string -> string -> result string;
  on_delete_namespaced_config_map : nat -> string -> string -> result unit;
  secure_filename : string -> string;               (* werkzeug's *)
  mkdtemp : list (string * string) -> string;       (* a new directory *)
  decode : string -> string + string;
    (* the text that the bytes of a file stand for in the encoding of the
       locale, or the message of the UnicodeDecodeError *)
  open_error : string -> exn;
    (* what [open] raises for a path that is no readable file: an OSError
       such as FileNotFoundError or IsADirectoryError *)
  present : string -> bool
    (* os.path.exists, for a path that is no readable file *)
}.

(** The answer of the cluster to its [n]-th request. *)
Definition answer_type (r : request) : Type :=
  match r with
  | read_namespaced_job_status _ _ => V1JobStatus
  | list_namespaced_pod _ _ => list string
  | read_namespaced_pod_log _ _ => string
  | _ => unit
  end.

Definition answer (w : World) (n : nat) (r : request) : result (answer_type r) :=
  match r with
  | list_namespace => on_list_namespace w n
  | create_namespaced_config_map ns name data =>
      on_create_namespaced_config_map w n ns name data
  | create_namespaced_job ns body => on_create_namespaced_job w n ns body
  | read_namespaced_job_status name ns => on_read_namespaced_job_status w n name ns
  | list_namespaced_pod ns sel => on_list_namespaced_pod w n ns sel
  | read_namespaced_pod_log name ns => on_read_namespaced_pod_log w n name ns
  | delete_namespaced_config_map name ns =>
      on_delete_namespaced_config_map w n name ns
  end.

(** ** The state *)

(** Clock ticks in a second. *)
Definition HZ : Z := 1000.

Record State := {
  now : Z;                          (* the clock, in ticks *)
  drawn : nat;                      (* uuids drawn so far *)
  files : list (string * string);   (* the bytes of the readable files, by path *)
  requests : list request;
  calls : list event
}.

Definition M (A : Type) : Type := State -> result A * State.

Definition ret {A} (a : A) : M A := fun s => (Ok a, s).
Definition raise {A} (e : exn) : M A := fun s => (Raise e, s).

Definition bind {A B} (m : M A) (k : A -> M B) : M B :=
  fun s =>
    match m s with
    | (Ok a, s') => k a s'
    | (Raise e, s') => (Raise e, s')
    end.

(** [try: m  except Exception as e: h e] *)
Definition try_except {A} (m : M A) (h : exn -> M A) : M A :=
  fun s =>
    match m s with
    | (Ok a, s') => (Ok a, s')
    | (Raise e, s') => h e s'
    end.

Declare Scope py_scope.
Delimit Scope py_scope with py.
Notation "x <- m ;; k" := (bind m (fun x => k))
  (at level 61, m at next level, right associativity) : py_scope.
Notation "' pat <- m ;; k" := (bind m (fun x => match x with pat => k end))
  (at level 61, pat pattern, m at next level, right associativity) : py_scope.
Notation "m ;; k" := (bind m (fun _ => k))
  (at level 61, right associativity) : py_scope.
Open Scope py_scope.

Definition note (ev : event) : M unit :=
  fun s => (Ok tt, {| now := now s; drawn := drawn s; files := files s;
                      requests := requests s; calls := ev :: calls s |}).

(** A method of the client as its caller sees it: the invocation is
    recorded on entry, and what it handed back or raised on exit. *)
Definition method {A} (c : call) (repr : A -> retval) (body : M A) : M A :=
  note (Called c) ;;
  try_except (a <- body ;; note (Returned c (repr a)) ;; ret a)
             (fun e => note (Raised c e) ;; raise e).

(** [str(uuid.uuid4())[:8]] *)
Definition short_uuid (w : World) : M string :=
  fun s => (Ok (take 8 (uuid4 w (drawn s))),
            {| now := now s; drawn := S (drawn s); files := files s;
               requests := requests s; calls := calls s |}).

(** One request to the cluster: it takes the time the world says (never
    none), and the answer is a value or an exception. *)
Definition send (w : World) (r : request) : M (answer_type r) :=
  fun s =>
    let n := List.length (requests s) in
    (answer w n r,
     {| now := now s + Z.pos (latency w n); drawn := drawn s; files := files s;
        requests := r :: requests s; calls := calls s |}).

(** [time.time()], in ticks. *)
Definition time_time : M Z := fun s => (Ok (now s), s).

(** [time.sleep(seconds)] *)
Definition time_sleep (seconds : Z) : M unit :=
  fun s =>
    if (seconds <? 0)%Z
    then (Raise (Exn ValueError "sleep length must be non-negative"), s)
    else (Ok tt, {| now := now s + seconds * HZ; drawn := drawn s;
                    files := files s; requests := requests s;
                    calls := calls s |}).

(** Reading in text mode translates every line end, be it a carriage
    return, a line feed or the two in a row, into a line feed. *)
Fixpoint universal_newlines (s : string) : string :=
  match s with
  | EmptyString => EmptyString
  | String c r =>
      if Ascii.eqb c "013" then
        String "010"
          (match r with
           | String d r' =>
               if Ascii.eqb d "010" then universal_newlines r'
               else universal_newlines r
           | EmptyString => EmptyString
           end)
      else String c (universal_newlines r)
  end.

(** [open(path, 'r').read()] *)
Definition open_read (w : World) (path : string) : M string :=
  fun s =>
    match dict_get (files s) path with
    | Some bytes =>
        match decode w bytes with
        | inl text => (Ok (universal_newlines text), s)
        | inr msg => (Raise (Exn UnicodeDecodeError msg), s)
        end
    | None => (Raise (open_error w path), s)
    end.

(** [os.path.exists(path)] *)
Definition path_exists (w : World) (path : string) : M bool :=
  fun s => (Ok (dict_has (files s) path || present w path), s).

(** Writing a file. *)
Definition write_file (path content : string) : M unit :=
  fun s => (Ok tt, {| now := now s; drawn := drawn s;
                      files := dict_set (files s) path content;
                      requests := requests s; calls := calls s |}).

End Rt.

(* ------------------------------------------------------------------------- *)
(** * k8s_client.py *)
(* ------------------------------------------------------------------------- *)

Module k8s_client.
Import Py Rt.

(** The attributes of a [K8sClient] that its methods read. *)
Record K8sClient := { mock_mode : bool; namespace : string }.

Definition TIMEOUT_LOGS : string := "Timeout waiting for job completion".

Definition MOCK_LOGS_WITH_TESTS : string :=
  Eval cbv in
    py "{'status': 'pass', 'tests': [{'name': 'test_hello_world', 'status': 'pass'}]}".

Definition MOCK_LOGS_PLAIN : string :=
  Eval cbv in py "{'status': 'pass', 'message': 'All tests passed'}".

(** [s.lower()] on the ASCII letters. *)
Definition lower_char (c : ascii) : ascii :=
  let n := N_of_ascii c in
  if ((65 <=? n) && (n <=? 90))%N then ascii_of_N (n + 32) else c.

Fixpoint lower (s : string) : string :=
  match s with
  | EmptyString => EmptyString
  | String c r => String (lower_char c) (lower r)
  end.

(** [os.environ.get(name, default)] *)
Definition environ_get (w : World) (name default : string) : string :=
  match environ w name with Some v => v | None => default end.

Section Methods.
Variable w : World.

(** [_test_connection] *)
Definition _test_connection (self : K8sClient) : M bool :=
  send w list_namespace ;; ret true.

(** [__init__] *)
Definition connect (ns : string) : M K8sClient :=
  try_except
    (_test_connection {| mock_mode := false; namespace := ns |} ;;
     ret {| mock_mode := false; namespace := ns |})
    (fun _ => ret {| mock_mode := true; namespace := ns |}).

Definition init (mock_mode_arg : bool) : M K8sClient :=
  let mock :=
    mock_mode_arg
    || existsb (String.eqb (lower (environ_get w "K8S_MOCK_MODE" "")))
         ["true"; "1"; "yes"] in
  let fallback := {| mock_mode := true; namespace := "mock-namespace" |} in
  if mock then ret fallback
  else
    match load_incluster_config w with
    | Loaded => connect (environ_get w "K8S_NAMESPACE" "default")
    | ConfigCrash e => raise e
    | ConfigException =>
        match load_kube_config w with
        | Loaded => connect (environ_get w "K8S_NAMESPACE" "default")
        | ConfigCrash e => raise e
        | ConfigException => ret fallback
        end
    end.

(** [is_connected] *)
Definition is_connected (self : K8sClient) : M bool :=
  if mock_mode self then ret false
  else try_except (_test_connection self ;; ret true) (fun _ => ret false).

(** [create_job] *)
Definition create_job (self : K8sClient) (name image : string)
    (command : list string) (env_vars : option (list (string * string)))
    (volume_mounts : option (list V1VolumeMount))
    (volumes : option (list V1Volume)) (timeout_seconds : Z) : M string :=
  method (create_job_call name image command
            (match volume_mounts with Some l => l | None => [] end)
            (match volumes with Some l => l | None => [] end) timeout_seconds)
    RStr
    (suffix <- short_uuid w ;;
     let job_name := name ++ "-" ++ suffix in
     if mock_mode self then ret job_name
     else
       let container :=
         {| container_name := "test-runner";
            container_image := image;
            container_command := command;
            container_env :=
              map (fun kv => {| env_name := fst kv; env_value := snd kv |})
                  (match env_vars with Some d => d | None => [] end);
            container_volume_mounts :=
              match volume_mounts with Some l => l | None => [] end |} in
       let job :=
         {| api_version := "batch/v1";
            kind := "Job";
            metadata_name := job_name;
            template_labels := [("app", job_name)];
            containers := [container];
            restart_policy := "Never";
            job_volumes := match volumes with Some l => l | None => [] end;
            backoff_limit := 0;
            ttl_seconds_after_finished := 300;
            active_deadline_seconds := timeout_seconds |} in
       send w (create_namespaced_job (namespace self) job) ;;
       ret job_name).

(** [_get_pod_logs_for_job] *)
Definition _get_pod_logs_for_job (self : K8sClient) (job_name : string) : M string :=
  if mock_mode self then ret ("Mock logs for job " ++ job_name)
  else
    try_except
      (items <- send w (list_namespaced_pod (namespace self) ("app=" ++ job_name)) ;;
       match items with
       | [] => ret "No pods found for the job"
       | pod_name :: _ =>
           send w (read_namespaced_pod_log pod_name (namespace self))
       end)
      (fun e =>
         if is_ApiException e
         then ret ("Error retrieving logs: " ++ exn_str e)
         else raise e).

Definition positive_count (n : option Z) : bool :=
  match n with
  | Some k => (k >? 0)%Z
  | None => false
  end.

(** The polling loop of [wait_for_job_completion].  [fuel] bounds the
    number of rounds; [None] reports that the bound was reached. *)
Fixpoint wait_loop (fuel : nat) (self : K8sClient) (job_name : string)
    (start_time timeout_seconds check_interval : Z) : M (option (bool * string)) :=
  t <- time_time ;;
  if (t - start_time <? timeout_seconds * HZ)%Z then
    match fuel with
    | O => ret None
    | S n =>
        job <- send w (read_namespaced_job_status job_name (namespace self)) ;;
        if positive_count (succeeded job) then
          pod_logs <- _get_pod_logs_for_job self job_name ;;
          ret (Some (true, pod_logs))
        else if positive_count (failed job) then
          pod_logs <- _get_pod_logs_for_job self job_name ;;
          ret (Some (false, pod_logs))
        else
          time_sleep check_interval ;;
          wait_loop n self job_name start_time timeout_seconds check_interval
    end
  else
    note (DeadlineElapsed job_name) ;;
    ret (Some (false, TIMEOUT_LOGS)).

(** A round lasts at least the sleep and one tick of the status request,
    so this many rounds reach the deadline. *)
Definition rounds (timeout_seconds check_interval : Z) : nat :=
  Z.to_nat (timeout_seconds * HZ / Z.max 1 (check_interval * HZ + 1)) + 1.

(** [wait_for_job_completion].  The loop never uses up its rounds
    ([polling_ends_within_its_rounds]), so that the last case below is
    never taken. *)
Definition wait_for_job_completion (self : K8sClient) (job_name : string)
    (timeout_seconds check_interval : Z) : M (bool * string) :=
  method (wait_for_job_completion_call job_name) (fun r => RPair (fst r) (snd r))
    (if mock_mode self then
       let language :=
         if contains_char "-" job_name then split_head "-" job_name
         else "unknown" in
       let mock_logs :=
         if String.eqb language "python" then MOCK_LOGS_WITH_TESTS
         else if String.eqb language "javascript" then MOCK_LOGS_WITH_TESTS
         else MOCK_LOGS_PLAIN in
       time_sleep 1 ;;
       ret (true, mock_logs)
     else
       start_time <- time_time ;;
       r <- wait_loop (rounds timeout_seconds check_interval) self job_name
              start_time timeout_seconds check_interval ;;
       match r with
       | Some outcome => ret outcome
       | None => ret (false, TIMEOUT_LOGS)
       end).

(** [create_config_map] *)
Definition create_config_map (self : K8sClient) (name : string)
    (data : list (string * string)) : M string :=
  method (create_config_map_call name data) RStr
    (suffix <- short_uuid w ;;
     let config_map_name := name ++ "-" ++ suffix in
     if mock_mode self then ret config_map_name
     else
       send w (create_namespaced_config_map (namespace self) config_map_name data) ;;
       ret config_map_name).

(** [delete_config_map] *)
Definition delete_config_map (self : K8sClient) (name : string) : M unit :=
  method (delete_config_map_call name) (fun _ => RNone)
    (if mock_mode self then ret tt
     else
       try_except
         (send w (delete_namespaced_config_map name (namespace self)))
         (fun e => if is_ApiException e then ret tt else raise e)).

End Methods.
End k8s_client.

(* ------------------------------------------------------------------------- *)
(** * utils.py *)
(* ------------------------------------------------------------------------- *)

Module utils.
Import Py Rt.

(** [validate_test_config] *)
Definition validate_test_config (config : obj) (language : string) : bool :=
  match config with
  | PyDict [] => false
  | PyDict d =>
      if String.eqb language "python" then
        if negb (dict_has d "version") then false
        else if negb (dict_has d "test_file") && negb (dict_has d "test_files")
        then false
        else true
      else true
  | _ => false
  end.

(** [read_file_content] *)
Definition read_file_content (w : World) (filepath : string) : M string :=
  found <- path_exists w filepath ;;
  if negb found
  then raise (Exn FileNotFoundError ("File not found: " ++ filepath))
  else open_read w filepath.

(** [s.rfind(sub)]: the highest index where [sub] occurs, or [-1]. *)
Fixpoint rfind_from (i : nat) (last : Z) (sub s : string) : Z :=
  let last' := if prefix sub s then Z.of_nat i else last in
  match s with
  | EmptyString => last'
  | String _ r => rfind_from (S i) last' sub r
  end.

Definition rfind (s sub : string) : Z := rfind_from 0 (-1) sub s.

(** [s[a:b]] for a non-negative [a]. *)
Definition slice (s : string) (a b : Z) : string :=
  take (Z.to_nat (b - a)) (drop (Z.to_nat a) s).

(** [parse_test_results] *)
Definition parse_test_results (ip : Interp) (output : string) : obj :=
  let start_idx := find output "{" in
  let end_idx := rfind output "}" in
  if (start_idx >=? 0)%Z && (end_idx >? start_idx)%Z then
    match json.loads ip (slice output start_idx (end_idx + 1)) with
    | Ok results => results
    | Raise e =>
        if is_JSONDecodeError e then
          PyDict [("status", PyStr "error");
                  ("message", PyStr "Failed to parse JSON results");
                  ("raw_output", PyStr output)]
        else
          PyDict [("status", PyStr "error");
                  ("message", PyStr ("Error parsing results: " ++ exn_str e));
                  ("raw_output", PyStr output)]
    end
  else
    PyDict [("status", PyStr "error");
            ("message", PyStr "No JSON results found in output");
            ("raw_output", PyStr output)].

End utils.

(* ------------------------------------------------------------------------- *)
(** * runner_service.py *)
(* ------------------------------------------------------------------------- *)

Module runner_service.
Import Py Rt config.

(** The text at which a structured result is looked for in the logs. *)
Definition MARKER : string := Eval cbv in py "{'status':".

(** The three results that [run_tests] builds itself. *)
Definition no_structured_output (logs : string) : obj :=
  PyDict [("status", PyStr "pass");
          ("message", PyStr "Tests passed but no structured output found");
          ("raw_output", PyStr logs)].

Definition parse_error (e : exn) (logs : string) : obj :=
  PyDict [("status", PyStr "error");
          ("message", PyStr ("Error parsing test results: " ++ exn_str e));
          ("raw_output", PyStr logs)].

Definition execution_failed (logs : string) : obj :=
  PyDict [("status", PyStr "fail");
          ("message", PyStr "Test execution failed");
          ("raw_output", PyStr logs)].

Definition run_error (e : exn) : obj :=
  PyDict [("status", PyStr "error");
          ("message", PyStr ("Error running tests: " ++ exn_str e))].

(** [json.loads] as a step of a computation. *)
Definition json_loads (ip : Interp) (doc : string) : M obj :=
  fun s => (json.loads ip doc, s).

(** [d[k]] on the language table. *)
Definition lookup (ip : Interp) (table : registry) (language : string)
  : M LangConfig :=
  match dict_get table language with
  | Some c => ret c
  | None => raise (Exn KeyError (repr ip language))
  end.

Section Service.
Variable SUPPORTED_LANGUAGES : registry.
Variable w : World.

(** The part of [run_tests] that reads the outcome of the job. *)
Definition interpret (success : bool) (logs : string) : M obj :=
  if success then
    try_except
      (let results_start := find logs MARKER in
       if (results_start >=? 0)%Z
       then json_loads (interp w) (slice_from logs results_start)
       else ret (no_structured_output logs))
      (fun e => ret (parse_error e logs))
  else ret (execution_failed logs).

(** [RunnerService.run_tests] *)
Definition run_tests (k8s : k8s_client.K8sClient)
    (language code_filepath : string) (test_config : obj) : M obj :=
  if negb (dict_has SUPPORTED_LANGUAGES language)
  then raise (Exn ValueError ("Unsupported language: " ++ language))
  else
    try_except
      (code_content <- open_read w code_filepath ;;
       run_id <- short_uuid w ;;
       lang_config <- lookup (interp w) SUPPORTED_LANGUAGES language ;;
       let container_image := image lang_config in
       let code_filename := "solution." ++ file_extension lang_config in
       let config_filename := "test_config.json" in
       let config_map_data :=
         dict_set (dict_set [] code_filename code_content)
                  config_filename (json.dumps (interp w) test_config) in
       config_map_name <-
         k8s_client.create_config_map w k8s
           (language ++ "-test-" ++ run_id) config_map_data ;;
       let volume :=
         {| volume_name := "test-files"; config_map_name := config_map_name |} in
       let volume_mount :=
         {| mount_name := "test-files"; mount_path := "/mnt/exercise" |} in
       let command :=
         ["sh"; "-c";
          "cd /mnt/exercise && "
          ++ "cp " ++ code_filename ++ " /opt/test-runner/code/" ++ code_filename
          ++ " && "
          ++ "cp " ++ config_filename ++ " /opt/test-runner/config.json && "
          ++ "cd /opt/test-runner && "
          ++ "./bin/run.sh /opt/test-runner/code /opt/test-runner/output"] in
       job_name <-
         k8s_client.create_job w k8s (language ++ "-test-" ++ run_id)
           container_image command None (Some [volume_mount]) (Some [volume]) 120 ;;
       ' (success, logs) <- k8s_client.wait_for_job_completion w k8s job_name 300 5 ;;
       try_except (k8s_client.delete_config_map w k8s config_map_name)
                  (fun _ => ret tt) ;;
       interpret success logs)
      (fun e => ret (run_error e)).

End Service.
End runner_service.

(* ------------------------------------------------------------------------- *)
(** * app.py

    A response is the body given to [jsonify] and the status code.  An
    upload is the name and the bytes that the browser sent.  Of the file
    system only this is modelled: a file can be saved under any path that
    does not end in a slash, and a temporary directory takes its files with
    it when it is left. *)
(* ------------------------------------------------------------------------- *)

Module app.
Import Py Rt config.

Record FileStorage := { filename : string; stream : string }.

(** [request.files], as far as the route reads it. *)
Record Files := {
  code_file : option FileStorage;
  test_config : option FileStorage
}.

Definition response : Type := obj * Z.

Definition jsonify (body : obj) : response := (body, 200%Z).

Definition starts_with_slash (s : string) : bool :=
  match s with
  | String c _ => Ascii.eqb c "/"
  | EmptyString => false
  end.

Fixpoint ends_with_slash (s : string) : bool :=
  match s with
  | EmptyString => false
  | String c EmptyString => Ascii.eqb c "/"
  | String _ r => ends_with_slash r
  end.

(** [os.path.join(a, b)] *)
Definition path_join (a b : string) : string :=
  if starts_with_slash b then b
  else if String.eqb a "" || ends_with_slash a then a ++ b
  else a ++ "/" ++ b.

(** [file.save(dst)] *)
Definition save (w : World) (file : FileStorage) (dst : string) : M unit :=
  if ends_with_slash dst
  then raise (open_error w dst)
  else write_file dst (stream file).

Definition remove_tree (dir : string) (fs : list (string * string))
  : list (string * string) :=
  filter (fun kv => negb (prefix (dir ++ "/") (fst kv))) fs.

(** [with tempfile.TemporaryDirectory() as temp_dir: body] *)
Definition with_temporary_directory {A} (w : World) (body : string -> M A) : M A :=
  fun s =>
    let temp_dir := mkdtemp w (files s) in
    let '(r, s') := body temp_dir s in
    (r, {| now := now s'; drawn := drawn s';
           files := remove_tree temp_dir (files s');
           requests := requests s'; calls := calls s' |}).

Definition supported (table : registry) : obj := PyList (map PyStr (keys table)).

Section Routes.
Variable SUPPORTED_LANGUAGES : registry.
Variable w : World.
Variable k8s_client : k8s_client.K8sClient.

(** The client that the module builds when it is loaded. *)
Definition startup : M k8s_client.K8sClient :=
  let is_mock_mode :=
    existsb (String.eqb (k8s_client.lower
                           (k8s_client.environ_get w "K8S_MOCK_MODE" "true")))
            ["true"; "1"; "yes"] in
  k8s_client.init w is_mock_mode.

(** [index] *)
Definition index : response :=
  jsonify
    (PyDict
       [("name", PyStr "Exercism Test Runner API");
        ("description",
         PyStr "API service for orchestrating Exercism test runners in Kubernetes");
        ("endpoints",
         PyDict
           [("/health",
             PyDict [("method", PyStr "GET");
                     ("description", PyStr "Health check endpoint")]);
            ("/api/{language}-test-runner/start",
             PyDict [("method", PyStr "POST");
                     ("description", PyStr "Run tests for a specific language");
                     ("required_files",
                      PyList [PyStr "code_file"; PyStr "test_config"]);
                     ("supported_languages", supported SUPPORTED_LANGUAGES)])]);
        ("version", PyStr "1.0.0")]).

(** [health_check] *)
Definition health_check : M response :=
  is_connected <- k8s_client.is_connected w k8s_client ;;
  let is_mock := k8s_client.mock_mode k8s_client in
  let health_status :=
    PyDict
      [("status", PyStr "ok");
       ("kubernetes_client",
        PyStr (if is_mock then "ok (mock mode)"
               else if is_connected then "ok" else "error"));
       ("supported_languages", supported SUPPORTED_LANGUAGES);
       ("api_version", PyStr "1.0.0")] in
  if negb is_connected && negb is_mock
  then ret (health_status, 500%Z)
  else ret (jsonify health_status).

(** [run_tests], the route.  Its first test, [if not runner_service], never
    holds: the service is an object that was built when the module was
    loaded. *)
Definition run_tests (language : string) (request_files : Files) : M response :=
  if negb (dict_has SUPPORTED_LANGUAGES language) then
    ret (PyDict [("error", PyStr ("Unsupported language: " ++ language));
                 ("supported_languages", supported SUPPORTED_LANGUAGES)], 400%Z)
  else
    match code_file request_files, test_config request_files with
    | Some code_file, Some test_config_file =>
        with_temporary_directory w (fun temp_dir =>
          let code_filename := secure_filename w (filename code_file) in
          let code_filepath := path_join temp_dir code_filename in
          save w code_file code_filepath ;;
          let test_config_filename :=
            secure_filename w (filename test_config_file) in
          let test_config_filepath := path_join temp_dir test_config_filename in
          save w test_config_file test_config_filepath ;;
          try_except
            (text <- open_read w test_config_filepath ;;
             test_config <- runner_service.json_loads (interp w) text ;;
             if negb (utils.validate_test_config test_config language) then
               ret (PyDict [("error", PyStr "Invalid test configuration")], 400%Z)
             else
               result <- runner_service.run_tests SUPPORTED_LANGUAGES w k8s_client
                           language code_filepath test_config ;;
               ret (jsonify result))
            (fun e =>
               if is_JSONDecodeError e then
                 ret (PyDict [("error", PyStr "Invalid JSON in test configuration")],
                      400%Z)
               else
                 ret (PyDict [("error",
                               PyStr ("Error running tests: " ++ exn_str e))],
                      500%Z)))
    | _, _ =>
        ret (PyDict [("error", PyStr "Missing required files");
                     ("required", PyList [PyStr "code_file"; PyStr "test_config"])],
             400%Z)
    end.

End Routes.
End app.

(* ------------------------------------------------------------------------- *)
(** * The vocabulary of the statements *)
(* ------------------------------------------------------------------------- *)

Module Spec.
Import Py Rt config k8s_client runner_service.

(** The result that [run_tests] draws from the outcome of the job; it
    depends on nothing else ([interpret_eq]). *)
Definition verdict_of (w : World) (success : bool) (logs : string) : obj :=
  if success then
    if (find logs MARKER >=? 0)%Z then
      match json.loads (interp w) (slice_from logs (find logs MARKER)) with
      | Ok v => v
      | Raise e => parse_error e logs
      end
    else no_structured_output logs
  else execution_failed logs.

Definition base_name (language run_id : string) : string :=
  language ++ "-test-" ++ run_id.

Definition data_of (w : World) (lc : LangConfig) (code : string)
    (test_config : obj) : list (string * string) :=
  dict_set (dict_set [] ("solution." ++ file_extension lc) code)
           "test_config.json" (json.dumps (interp w) test_config).

Definition command_of (lc : LangConfig) : list string :=
  ["sh"; "-c";
   "cd /mnt/exercise && "
   ++ "cp " ++ ("solution." ++ file_extension lc) ++ " /opt/test-runner/code/"
   ++ ("solution." ++ file_extension lc) ++ " && "
   ++ "cp " ++ "test_config.json" ++ " /opt/test-runner/config.json && "
   ++ "cd /opt/test-runner && "
   ++ "./bin/run.sh /opt/test-runner/code /opt/test-runner/output"].

Definition stage_call (w : World) (language : string) (lc : LangConfig)
    (code : string) (test_config : obj) (run_id : string) : call :=
  create_config_map_call (base_name language run_id)
    (data_of w lc code test_config).

Definition launch_call (language : string) (lc : LangConfig)
    (run_id bundle : string) : call :=
  create_job_call (base_name language run_id) (image lc) (command_of lc)
    [{| mount_name := "test-files"; mount_path := "/mnt/exercise" |}]
    [{| volume_name := "test-files"; config_map_name := bundle |}] 120.

(** The [n]-th short id of the world. *)
Definition short_id (w : World) (n : nat) : string := take 8 (uuid4 w n).


(** The canned logs of the mock mode, by the first segment of the job name. *)
Definition canned (segment : string) : string :=
  if String.eqb segment "python" then MOCK_LOGS_WITH_TESTS
  else if String.eqb segment "javascript" then MOCK_LOGS_WITH_TESTS
  else MOCK_LOGS_PLAIN.

(** What [wait_for_job_completion] leaves in the record of calls. *)
Definition await_events (job : string) (r : result (bool * string)) : list event -> Prop :=
  fun new =>
    let c := wait_for_job_completion_call job in
    match r with
    | Raise e => new = [Raised c e; Called c]
    | Ok (success, logs) =>
        new = [Returned c (RPair success logs); Called c]
        \/ (new = [Returned c (RPair success logs); DeadlineElapsed job; Called c]
            /\ success = false /\ logs = TIMEOUT_LOGS)
    end.


(** What [delete_config_map] leaves there. *)
Definition reclaim_events (bundle : string) (l : list event) : Prop :=
  let c := delete_config_map_call bundle in
  l = [Returned c RNone; Called c] \/ exists e, l = [Raised c e; Called c].


(** The records of calls that a run of [run_tests] can leave, with the
    result that goes with each.  [n] is the number of uuids drawn before
    the run. *)
Section Shape.
Variable w : World.
Variables (language : string) (lc : LangConfig) (code : string) (test_config : obj).
Variable n : nat.

Let run_id := short_id w n.
Let bundle := base_name language run_id ++ "-" ++ short_id w (S n).
Let job := base_name language run_id ++ "-" ++ short_id w (S (S n)).
Let stage := stage_call w language lc code test_config run_id.
Let launch := launch_call language lc run_id bundle.
Let await := wait_for_job_completion_call job.

Inductive run_shape : obj -> list event -> Prop :=
| stage_raised e :
    run_shape (run_error e) [Raised stage e; Called stage]
| launch_raised e :
    run_shape (run_error e)
      [Raised launch e; Called launch;
       Returned stage (RStr bundle); Called stage]
| await_raised e :
    run_shape (run_error e)
      [Raised await e; Called await;
       Returned launch (RStr job); Called launch;
       Returned stage (RStr bundle); Called stage]
| completed success logs reclaim :
    reclaim_events bundle reclaim ->
    run_shape (verdict_of w success logs)
      (reclaim ++
       [Returned await (RPair success logs); Called await;
        Returned launch (RStr job); Called launch;
        Returned stage (RStr bundle); Called stage])%list
| timed_out reclaim :
    reclaim_events bundle reclaim ->
    run_shape (execution_failed TIMEOUT_LOGS)
      (reclaim ++
       [Returned await (RPair false TIMEOUT_LOGS); DeadlineElapsed job;
        Called await;
        Returned launch (RStr job); Called launch;
        Returned stage (RStr bundle); Called stage])%list.
End Shape.



(** The job is still running at every poll. *)
Definition keeps_running (w : World) : Prop :=
  forall n name ns, exists st,
    on_read_namespaced_job_status w n name ns = Ok st
    /\ positive_count (succeeded st) = false
    /\ positive_count (failed st) = false.

(** The state in which the route leaves its temporary directory [dir]. *)
Definition left_directory (dir : string) (s : State) : State :=
  {| now := now s; drawn := drawn s;
     files := app.remove_tree dir (files s);
     requests := requests s; calls := calls s |}.

(** The state after the two uploads were saved under [code_path] and
    [config_path]. *)
Definition uploads_saved (code_path config_path : string)
    (code config : app.FileStorage) (s : State) : State :=
  {| now := now s; drawn := drawn s;
     files := dict_set (dict_set (files s) code_path (app.stream code))
                       config_path (app.stream config);
     requests := requests s; calls := calls s |}.

(** How often the reclaim of any bundle was requested. *)
Definition is_reclaim (ev : event) : bool :=
  match ev with
  | Called (delete_config_map_call _) => true
  | _ => false
  end.

Definition reclaims (l : list event) : nat := List.length (filter is_reclaim l).

End Spec.

(* ------------------------------------------------------------------------- *)
(** * Concrete runs *)
(* ------------------------------------------------------------------------- *)

Module Scenario.
Import Py Rt config k8s_client runner_service Spec.

Definition uuids (n : nat) : string :=
  match n with
  | 0 => "1b9d6bcd-bbfd-4b2d-9b5d-ab8dfbbd4bed"
  | 1 => "6ec0bd7f-11c0-43da-975e-2a8ad9ebae0b"
  | _ => "3d6f0a52-cf34-4b7a-8c1e-0f4e2d5a9b11"
  end.

(** An interpreter with the settings it starts with.  No text of these
    runs holds a float or a character beyond ASCII. *)
Definition cpython : Interp :=
  {| nesting_room := 900;
     int_max_str_digits := 4300;
     float_repr := fun lexeme => lexeme;
     isprintable := fun _ => true |}.

(** A locale whose encoding is ASCII. *)
Fixpoint first_beyond_ascii (pos : nat) (bytes : string) : option (ascii * nat) :=
  match bytes with
  | EmptyString => None
  | String c r =>
      if (N_of_ascii c <? 128)%N then first_beyond_ascii (S pos) r
      else Some (c, pos)
  end.

Definition ascii_decode (bytes : string) : string + string :=
  match first_beyond_ascii 0 bytes with
  | None => inl bytes
  | Some (c, pos) =>
      inr ("'ascii' codec can't decode byte 0x" ++ hex 2 (N_of_ascii c)
           ++ " in position " ++ str_of_nat pos
           ++ ": ordinal not in range(128)")
  end.

(** The directories of the file system: the root, /tmp and
    /tmp/tmpk3v9x2ab.  A path may name them with slashes at its end. *)
Fixpoint rstrip_slashes (path : string) : string :=
  match path with
  | EmptyString => EmptyString
  | String c r =>
      match rstrip_slashes r with
      | EmptyString => if Ascii.eqb c "/" then EmptyString else String c EmptyString
      | String _ _ as r' => String c r'
      end
  end.

Definition is_directory (path : string) : bool :=
  negb (String.eqb path "")
  && existsb (String.eqb (rstrip_slashes path)) [""; "/tmp"; "/tmp/tmpk3v9x2ab"].

(** What [open] raises for a path that is no file. *)
Definition cannot_open (path : string) : exn :=
  if is_directory path
  then Exn IsADirectoryError ("[Errno 21] Is a directory: " ++ repr cpython path)
  else Exn FileNotFoundError
         ("[Errno 2] No such file or directory: " ++ repr cpython path).

(** A cluster that answers every request of one kind in the same way. *)
Definition cluster (launch : result unit) (status : result V1JobStatus)
    (pods : result (list string)) (log : result string) : World :=
  {| interp := cpython;
     uuid4 := uuids;
     latency := fun _ => 40%positive;
     environ := fun _ => None;
     load_incluster_config := ConfigException;
     load_kube_config := Loaded;
     on_list_namespace := fun _ => Ok tt;
     on_create_namespaced_config_map := fun _ _ _ _ => Ok tt;
     on_create_namespaced_job := fun _ _ _ => launch;
     on_read_namespaced_job_status := fun _ _ _ => status;
     on_list_namespaced_pod := fun _ _ _ => pods;
     on_read_namespaced_pod_log := fun _ _ _ => log;
     on_delete_namespaced_config_map := fun _ _ _ => Ok tt;
     secure_filename := fun name => name;
     mkdtemp := fun _ => "/tmp/tmpk3v9x2ab";
     decode := ascii_decode;
     open_error := cannot_open;
     present := is_directory |}.

Definition running : V1JobStatus := {| succeeded := None; failed := None |}.
Definition job_succeeded : V1JobStatus := {| succeeded := Some 1%Z; failed := None |}.
Definition job_failed : V1JobStatus := {| succeeded := None; failed := Some 1%Z |}.

(** The job never finishes. *)
Definition hangs : World := cluster (Ok tt) (Ok running) (Ok ["pod-1"]) (Ok "").

(** The job succeeds and its pod has written [logs]. *)
Definition succeeds (logs : string) : World :=
  cluster (Ok tt) (Ok job_succeeded) (Ok ["pod-1"]) (Ok logs).

(** The cluster refuses the job. *)
Definition unprocessable : exn :=
  Exn ApiException "(422) Reason: Unprocessable Entity".

Definition rejects_job : World :=
  cluster (Raise unprocessable) (Ok running) (Ok ["pod-1"]) (Ok "").

(** The job fails and its pods cannot be listed. *)
Definition forbidden : exn := Exn ApiException "(403) Reason: Forbidden".

Definition hides_logs : World :=
  cluster (Ok tt) (Ok job_failed) (Raise forbidden) (Ok "").

(** The job succeeds; the reclaim of the bundle breaks the connection. *)
Definition connection_lost : exn := Exn OtherError "Connection aborted.".

Definition loses_connection (logs : string) : World :=
  let w := succeeds logs in
  {| interp := interp w;
     uuid4 := uuid4 w; latency := latency w; environ := environ w;
     load_incluster_config := load_incluster_config w;
     load_kube_config := load_kube_config w;
     on_list_namespace := on_list_namespace w;
     on_create_namespaced_config_map := on_create_namespaced_config_map w;
     on_create_namespaced_job := on_create_namespaced_job w;
     on_read_namespaced_job_status := on_read_namespaced_job_status w;
     on_list_namespaced_pod := on_list_namespaced_pod w;
     on_read_namespaced_pod_log := on_read_namespaced_pod_log w;
     on_delete_namespaced_config_map := fun _ _ _ => Raise connection_lost;
     secure_filename := secure_filename w;
     mkdtemp := mkdtemp w;
     decode := decode w;
     open_error := open_error w;
     present := present w |}.

(** The job fails and its pod has written [logs]. *)
Definition fails (logs : string) : World :=
  cluster (Ok tt) (Ok job_failed) (Ok ["pod-1"]) (Ok logs).

Definition live : K8sClient := {| mock_mode := false; namespace := "default" |}.
Definition mock : K8sClient := {| mock_mode := true; namespace := "mock-namespace" |}.

Definition solution_path : string := "/tmp/tmpk3v9x2ab/solution.py".

Definition start : State :=
  {| now := 0;
     drawn := 0;
     files := [(solution_path, "def hello(): return 1")];
     requests := [];
     calls := [] |}.

Definition test_config : obj :=
  PyDict [("version", PyInt 1); ("test_files", PyList [PyStr "t.py"])].

(** A run of the shipped service for [language] against the world [w]. *)
Definition run (w : World) (k8s : K8sClient) (language : string) : result obj * State :=
  run_tests SUPPORTED_LANGUAGES w k8s language solution_path test_config start.

Definition python_lc : LangConfig :=
  {| image := "exercism/python-test-runner:latest";
     file_extension := "py"; timeout := 60 |}.

Definition the_bundle : string := "python-test-1b9d6bcd-6ec0bd7f".
Definition the_job : string := "python-test-1b9d6bcd-3d6f0a52".

(** Logs with a result that is followed by more text, by a line end only,
    and a result with a status of its own. *)
Definition logs_with_trailer : string :=
  Eval cbv in py "collected 1 item
{'status': 'pass', 'tests': [{'name': 'test_hello', 'status': 'pass'}]}
1 passed in 0.01s".

Definition embedded_doc : string :=
  Eval cbv in py "{'status': 'pass', 'tests': [{'name': 'test_hello', 'status': 'pass'}]}".

(** The same document without its braces. *)
Definition embedded_body : string :=
  Eval cbv in py "'status': 'pass', 'tests': [{'name': 'test_hello', 'status': 'pass'}]".

Definition embedded_result : obj :=
  PyDict [("status", PyStr "pass");
          ("tests", PyList [PyDict [("name", PyStr "test_hello");
                                    ("status", PyStr "pass")]])].

Definition logs_with_line_end : string :=
  Eval cbv in (embedded_doc ++ String "010" "").

Definition logs_skipped : string := Eval cbv in py "{'status': 'skipped'}".



(** Uploads. *)
Definition code_upload : app.FileStorage :=
  {| app.filename := "solution.py"; app.stream := "def hello(): return 1" |}.

Definition config_text : string :=
  Eval cbv in py "{'version': 1, 'test_files': ['t.py']}".

Definition incomplete_text : string := Eval cbv in py "{'version': 1}".

Definition config_upload : app.FileStorage :=
  {| app.filename := "test_config.json"; app.stream := config_text |}.

Definition broken_upload : app.FileStorage :=
  {| app.filename := "test_config.json"; app.stream := "version: 1" |}.


(** A code file with the line ends of another system. *)
Definition crlf_upload : app.FileStorage :=
  {| app.filename := "solution.py";
     app.stream := String.append "def hello():"
                     (String "013" (String "010" "    return 1")) |}.

Definition incomplete_upload : app.FileStorage :=
  {| app.filename := "test_config.json"; app.stream := incomplete_text |}.

(** The state in which that code file has been saved. *)
Definition crlf_path : string := "/tmp/tmpk3v9x2ab/solution.py".

Definition crlf_start : State :=
  {| now := 0; drawn := 0; files := [(crlf_path, app.stream crlf_upload)];
     requests := []; calls := [] |}.

Definition no_files : State :=
  {| now := 0; drawn := 0; files := []; requests := []; calls := [] |}.

End Scenario.

Import Py Rt config k8s_client runner_service Spec.

(* ------------------------------------------------------------------------- *)
(** * Facts about the client and the shape of a run *)
(* ------------------------------------------------------------------------- *)

Section Facts.
Variable w : World.

Lemma interpret_eq success logs s :
  interpret w success logs s = (Ok (verdict_of w success logs), s).
Proof.
  unfold interpret, verdict_of.
  destruct success; [|reflexivity].
  unfold try_except, json_loads, ret.
  destruct (find logs MARKER >=? 0)%Z; [|reflexivity].
  destruct (json.loads _); reflexivity.
Qed.

Lemma create_config_map_run self name data s :
  let c := create_config_map_call name data in
  let bundle := name ++ "-" ++ short_id w (drawn s) in
  exists s', drawn s' = S (drawn s) /\
    ((create_config_map w self name data s = (Ok bundle, s')
      /\ calls s' = Returned c (RStr bundle) :: Called c :: calls s)
     \/ (exists e, create_config_map w self name data s = (Raise e, s')
         /\ calls s' = Raised c e :: Called c :: calls s)).
Proof.
  intros c bundle. unfold create_config_map, method, bind, try_except, note, short_uuid, ret, raise.
  cbn. destruct (mock_mode self).
  - eexists; split; [|left; split; reflexivity]. reflexivity.
  - unfold send. cbn.
    destruct (on_create_namespaced_config_map w _ _ _ _) as [[]|e].
    + eexists; split; [|left; split; reflexivity]. reflexivity.
    + eexists; split; [|right; exists e; split; reflexivity]. reflexivity.
Qed.

Lemma create_job_run self name img cmd env vm vols t s :
  let c := create_job_call name img cmd
             (match vm with Some l => l | None => [] end)
             (match vols with Some l => l | None => [] end) t in
  let job := name ++ "-" ++ short_id w (drawn s) in
  exists s', drawn s' = S (drawn s) /\
    ((create_job w self name img cmd env vm vols t s = (Ok job, s')
      /\ calls s' = Returned c (RStr job) :: Called c :: calls s)
     \/ (exists e, create_job w self name img cmd env vm vols t s = (Raise e, s')
         /\ calls s' = Raised c e :: Called c :: calls s)).
Proof.
  intros c job. unfold create_job, method, bind, try_except, note, short_uuid, ret, raise.
  cbn. destruct (mock_mode self).
  - eexists; split; [|left; split; reflexivity]. reflexivity.
  - unfold send. cbn.
    destruct (on_create_namespaced_job w _ _ _) as [[]|e].
    + eexists; split; [|left; split; reflexivity]. reflexivity.
    + eexists; split; [|right; exists e; split; reflexivity]. reflexivity.
Qed.

Lemma delete_config_map_run self name s :
  let c := delete_config_map_call name in
  exists s', drawn s' = drawn s /\
    ((delete_config_map w self name s = (Ok tt, s')
      /\ calls s' = Returned c RNone :: Called c :: calls s)
     \/ (exists e, delete_config_map w self name s = (Raise e, s')
         /\ calls s' = Raised c e :: Called c :: calls s)).
Proof.
  intros c. unfold delete_config_map, method, bind, try_except, note, ret, raise.
  cbn. destruct (mock_mode self).
  - eexists; split; [|left; split; reflexivity]. reflexivity.
  - unfold send. cbn.
    destruct (on_delete_namespaced_config_map w _ _ _) as [[]|e]; cbn.
    + eexists; split; [|left; split; reflexivity]. reflexivity.
    + destruct (is_ApiException e); cbn.
      * eexists; split; [|left; split; reflexivity]. reflexivity.
      * eexists; split; [|right; exists e; split; reflexivity]. reflexivity.
Qed.

Lemma get_pod_logs_frame self job s r s' :
  _get_pod_logs_for_job w self job s = (r, s') ->
  calls s' = calls s /\ drawn s' = drawn s /\ files s' = files s /\ (now s <= now s')%Z.
Proof.
  unfold _get_pod_logs_for_job, try_except, bind, send, ret, raise.
  destruct (mock_mode self); cbn.
  - intros [= <- <-]. repeat split; lia.
  - destruct (on_list_namespaced_pod w _ _ _) as [[|p l]|e]; cbn.
    + intros [= <- <-]. cbn. repeat split; lia.
    + destruct (on_read_namespaced_pod_log w _ _ _) as [t|e]; cbn.
      * intros [= <- <-]. cbn. repeat split; lia.
      * destruct (is_ApiException e); intros [= <- <-]; cbn; repeat split; lia.
    + destruct (is_ApiException e); intros [= <- <-]; cbn; repeat split; lia.
Qed.

Lemma wait_loop_frame n self job start t ci : forall s r s',
  wait_loop w n self job start t ci s = (r, s') ->
  drawn s' = drawn s /\ files s' = files s /\
  (calls s' = calls s
   \/ (calls s' = DeadlineElapsed job :: calls s /\ r = Ok (Some (false, TIMEOUT_LOGS)))).
Proof.
  induction n as [|n IH]; intros s r s'.
  - cbn. unfold bind, time_time, ret, note.
    destruct (now s - start <? t * HZ)%Z.
    + intros [= <- <-]. auto.
    + cbn. intros [= <- <-]. cbn. auto.
  - cbn.
    destruct (now s - start <? t * HZ)%Z.
    + unfold bind at 1. unfold send at 1. cbn.
      destruct (on_read_namespaced_job_status w _ _ _) as [st|e]; cbn.
      2:{ intros [= <- <-]. cbn. auto. }
      destruct (positive_count (succeeded st)).
      { unfold bind. destruct (_get_pod_logs_for_job _ _ _ _) as [[l|e] s1] eqn:E;
        apply get_pod_logs_frame in E; cbn in E; destruct E as (E1 & E2 & E3 & _);
        intros [= <- <-]; auto. }
      destruct (positive_count (failed st)).
      { unfold bind. destruct (_get_pod_logs_for_job _ _ _ _) as [[l|e] s1] eqn:E;
        apply get_pod_logs_frame in E; cbn in E; destruct E as (E1 & E2 & E3 & _);
        intros [= <- <-]; auto. }
      unfold bind at 1. unfold time_sleep.
      destruct (ci <? 0)%Z.
      { intros [= <- <-]. cbn. auto. }
      intros H. apply IH in H. cbn in H. exact H.
    + unfold bind, note, ret. cbn. intros [= <- <-]. cbn. auto.
Qed.

Lemma wait_for_job_completion_run self job t ci s :
  exists r s' new,
    wait_for_job_completion w self job t ci s = (r, s')
    /\ drawn s' = drawn s /\ calls s' = (new ++ calls s)%list /\ await_events job r new.
Proof.
  unfold wait_for_job_completion, method.
  unfold bind at 1. unfold note at 1. cbn.
  destruct (mock_mode self).
  - unfold try_except, bind, time_sleep, ret, note. cbn.
    eexists. eexists. eexists [_; _]. split; [reflexivity|]. cbn.
    split; [reflexivity|]. split; [reflexivity|]. left; reflexivity.
  - unfold try_except. unfold bind at 1. unfold bind at 1. unfold time_time at 1.
    unfold bind at 1.
    match goal with |- context [wait_loop w ?n self job ?st t ci ?s0] =>
      destruct (wait_loop w n self job st t ci s0) as [[[[b l]|]|e] s1] eqn:E;
      apply wait_loop_frame in E; cbn in E; destruct E as (E1 & E2 & E3) end.
    + unfold ret, bind, note; cbn.
      destruct E3 as [E3|[E3 E4]].
      * eexists. eexists. eexists [_; _]. split; [reflexivity|]. cbn.
        split; [exact E1|]. rewrite E3. split; [reflexivity|]. left; reflexivity.
      * injection E4 as -> ->.
        eexists. eexists. eexists [_; _; _]. split; [reflexivity|]. cbn.
        split; [exact E1|]. rewrite E3. split; [reflexivity|].
        right. split; [reflexivity|split; reflexivity].
    + unfold ret, bind, note; cbn.
      destruct E3 as [E3|[E3 E4]]; [|discriminate].
      eexists. eexists. eexists [_; _]. split; [reflexivity|]. cbn.
      split; [exact E1|]. rewrite E3. split; [reflexivity|]. left; reflexivity.
    + unfold ret, bind, note, raise; cbn.
      destruct E3 as [E3|[E3 E4]]; [|discriminate].
      eexists. eexists. eexists [_; _]. split; [reflexivity|]. cbn.
      split; [exact E1|]. rewrite E3. split; reflexivity.
Qed.

Lemma bind_ok {A B} (m : M A) (k : A -> M B) s a s' :
  m s = (Ok a, s') -> bind m k s = k a s'.
Proof. unfold bind. now intros ->. Qed.

Lemma bind_raise {A B} (m : M A) (k : A -> M B) s e s' :
  m s = (Raise e, s') -> bind m k s = (Raise e, s').
Proof. unfold bind. now intros ->. Qed.

Lemma try_ok {A} (m : M A) h s a s' :
  m s = (Ok a, s') -> try_except m h s = (Ok a, s').
Proof. unfold try_except. now intros ->. Qed.

Lemma try_raise {A} (m : M A) h s e s' :
  m s = (Raise e, s') -> try_except m h s = h e s'.
Proof. unfold try_except. now intros ->. Qed.

Lemma open_read_frame path s r s' : open_read w path s = (r, s') -> s' = s.
Proof.
  unfold open_read. destruct (dict_get (files s) path) as [bytes|].
  - destruct (decode w bytes); intros [= _ <-]; reflexivity.
  - intros [= _ <-]; reflexivity.
Qed.

Lemma run_tests_shape table self language lc path code test_config s :
  dict_get table language = Some lc ->
  open_read w path s = (Ok code, s) ->
  exists v s' new,
    run_tests table w self language path test_config s = (Ok v, s')
    /\ calls s' = (new ++ calls s)%list
    /\ run_shape w language lc code test_config (drawn s) v new.
Proof.
  intros Hreg Hfile.
  unfold run_tests, dict_has. rewrite Hreg. cbn [negb].
  set (s1 := {| now := now s; drawn := S (drawn s); files := files s;
                requests := requests s; calls := calls s |}).
  assert (Hpre : forall k : string -> string -> LangConfig -> M obj,
     (code_content <- open_read w path ;; run_id <- short_uuid w ;;
      lang_config <- lookup (interp w) table language ;;
      k code_content run_id lang_config) s
     = k code (short_id w (drawn s)) lc s1).
  { intros k. unfold bind at 1. rewrite Hfile.
    unfold bind, short_uuid, lookup. rewrite Hreg. reflexivity. }
  unfold try_except at 1.
  rewrite (Hpre (fun code_content run_id lang_config => _)). clear Hpre.
  destruct (create_config_map_run self (language ++ "-test-" ++ short_id w (drawn s))
              (data_of w lc code test_config) s1)
    as (s2 & D2 & [[H2 C2] | (e & H2 & C2)]); fold (data_of w lc code test_config).
  2:{ rewrite (bind_raise _ _ _ _ _ H2).
      eexists. eexists. eexists [_; _]. split; [reflexivity|].
      split; [rewrite C2; reflexivity|]. apply stage_raised. }
  rewrite (bind_ok _ _ _ _ _ H2). cbv beta. cbn [drawn s1] in *.
  match goal with |- context [create_job w self ?nm ?img ?cmd ?env ?vm ?vols ?t] =>
    destruct (create_job_run self nm img cmd env vm vols t s2)
      as (s3 & D3 & [[H3 C3] | (e & H3 & C3)]) end.
  2:{ rewrite (bind_raise _ _ _ _ _ H3).
      eexists. eexists. eexists [_; _; _; _]. split; [reflexivity|].
      split; [rewrite C3, C2; reflexivity|]. apply launch_raised. }
  rewrite (bind_ok _ _ _ _ _ H3). cbv beta. rewrite D2 in *.
  match goal with |- context [wait_for_job_completion w self ?j ?t ?ci] =>
    destruct (wait_for_job_completion_run self j t ci s3)
      as (r & s4 & new4 & H4 & D4 & C4 & E4) end.
  destruct r as [[success logs]|e].
  2:{ rewrite (bind_raise _ _ _ _ _ H4). cbn in E4. subst new4.
      eexists. eexists. eexists [_; _; _; _; _; _]. split; [reflexivity|].
      split; [rewrite C4, C3, C2; reflexivity|]. apply await_raised. }
  rewrite (bind_ok _ _ _ _ _ H4). cbv beta iota.
  match goal with |- context [delete_config_map w self ?b] =>
    destruct (delete_config_map_run self b s4)
      as (s5 & D5 & [[H5 C5] | (e & H5 & C5)]) end.
  - rewrite (bind_ok _ _ s4 tt s5) by (apply try_ok; exact H5).
    rewrite interpret_eq.
    destruct E4 as [-> | (-> & -> & ->)].
    + eexists. eexists. eexists ([_; _] ++ [_; _; _; _; _; _])%list.
      split; [reflexivity|].
      split; [rewrite C5, C4, C3, C2; reflexivity|].
      apply completed. left. reflexivity.
    + eexists. eexists. eexists ([_; _] ++ [_; _; _; _; _; _; _])%list.
      split; [reflexivity|].
      split; [rewrite C5, C4, C3, C2; reflexivity|].
      apply timed_out. left. reflexivity.
  - rewrite (bind_ok _ _ s4 tt s5) by (rewrite (try_raise _ _ _ _ _ H5); reflexivity).
    rewrite interpret_eq.
    destruct E4 as [-> | (-> & -> & ->)].
    + eexists. eexists. eexists ([_; _] ++ [_; _; _; _; _; _])%list.
      split; [reflexivity|].
      split; [rewrite C5, C4, C3, C2; reflexivity|].
      apply completed. right. exists e. reflexivity.
    + eexists. eexists. eexists ([_; _] ++ [_; _; _; _; _; _; _])%list.
      split; [reflexivity|].
      split; [rewrite C5, C4, C3, C2; reflexivity|].
      apply timed_out. right. exists e. reflexivity.
Qed.
End Facts.

(* ------------------------------------------------------------------------- *)
(** * Facts about the decoder *)
(* ------------------------------------------------------------------------- *)

Lemma skip_ws_length s : String.length (json.skip_ws s) <= String.length s.
Proof.
  induction s as [|c s IH]; cbn; [lia|]. destruct (json.is_ws c); cbn; lia.
Qed.

Lemma span_digits_length s : forall ds r,
  json.span_digits s = (ds, r) -> String.length r <= String.length s.
Proof.
  induction s as [|c s IH]; cbn; intros ds r.
  - intros [= <- <-]. cbn. lia.
  - destruct (json.is_digit c).
    + destruct (json.span_digits s) as [ds' r'] eqn:E. intros [= <- <-].
      specialize (IH _ _ eq_refl). lia.
    + intros [= <- <-]. cbn. lia.
Qed.

Lemma drop_length n : forall s, String.length (drop n s) = String.length s - n.
Proof.
  induction n as [|n IH]; intros s; cbn; [lia|].
  destruct s as [|c s]; cbn; [reflexivity|apply IH].
Qed.

Lemma prefix_length a : forall s, prefix a s = true -> String.length a <= String.length s.
Proof.
  induction a as [|c a IH]; intros s; [cbn; lia|].
  destruct s as [|d s]; cbn; [discriminate|]. destruct (ascii_dec c d); [|discriminate].
  intros H. apply IH in H. lia.
Qed.

Lemma literal_shorter word v s v' rest :
  json.literal word v s = Some (v', rest) ->
  0 < String.length word ->
  String.length rest < String.length s.
Proof.
  unfold json.literal. destruct (prefix word s) eqn:P; [|discriminate].
  intros [= <- <-] L. apply prefix_length in P. rewrite drop_length. lia.
Qed.

Lemma match_number_shorter s f numstr rest :
  json.match_number s = Some (f, numstr, rest) ->
  String.length rest < String.length s.
Proof.
  unfold json.match_number.
  destruct (match s with
            | "" => ("", s)
            | String c r => if Ascii.eqb c "-" then ("-", r) else ("", s)
            end) as [sign s1] eqn:E0.
  assert (L0 : String.length s1 <= String.length s).
  { destruct s as [|c r]; [injection E0 as <- <-; lia|].
    destruct (Ascii.eqb c "-"); injection E0 as <- <-; cbn; lia. }
  destruct s1 as [|c r]; [discriminate|]. destruct (json.is_digit c); [|discriminate].
  destruct (if Ascii.eqb c "0" then (String c "", r)
            else let '(ds, r') := json.span_digits r in (String c ds, r'))
    as [int_part r1] eqn:E1.
  assert (L1 : String.length r1 <= String.length r).
  { destruct (Ascii.eqb c "0"); [injection E1 as <- <-; lia|].
    destruct (json.span_digits r) as [ds r'] eqn:D. injection E1 as <- <-.
    exact (span_digits_length _ _ _ D). }
  destruct (match r1 with
            | "" => ("", r1)
            | String d t =>
                if Ascii.eqb d "."
                then let (fd, t') := json.span_digits t in
                     match fd with
                     | "" => ("", r1)
                     | String _ _ => (String d fd, t')
                     end
                else ("", r1)
            end) as [frac r2] eqn:E2.
  assert (L2 : String.length r2 <= String.length r1).
  { destruct r1 as [|d t]; [injection E2 as <- <-; lia|].
    destruct (Ascii.eqb d "."); [|injection E2 as <- <-; lia].
    destruct (json.span_digits t) as [fd t'] eqn:D.
    apply span_digits_length in D.
    destruct fd; injection E2 as <- <-; cbn; lia. }
  destruct (match r2 with
            | "" => ("", r2)
            | String d t =>
                if Ascii.eqb d "e" || Ascii.eqb d "E"
                then let '(sg, t1) :=
                       match t with
                       | "" => ("", t)
                       | String g u =>
                           if Ascii.eqb g "-" || Ascii.eqb g "+"
                           then (String g "", u) else ("", t)
                       end in
                     let (ed, t') := json.span_digits t1 in
                     match ed with
                     | "" => ("", r2)
                     | String _ _ => (String d (sg ++ ed), t')
                     end
                else ("", r2)
            end) as [exp r3] eqn:E3.
  assert (L3 : String.length r3 <= String.length r2).
  { destruct r2 as [|d t]; [injection E3 as <- <-; lia|].
    destruct (Ascii.eqb d "e" || Ascii.eqb d "E"); [|injection E3 as <- <-; lia].
    destruct (match t with
              | "" => ("", t)
              | String g u =>
                  if Ascii.eqb g "-" || Ascii.eqb g "+"
                  then (String g "", u) else ("", t)
              end) as [sg t1] eqn:E4.
    assert (L4 : String.length t1 <= String.length t).
    { destruct t as [|g u]; [injection E4 as <- <-; lia|].
      destruct (Ascii.eqb g "-" || Ascii.eqb g "+"); injection E4 as <- <-; cbn; lia. }
    destruct (json.span_digits t1) as [ed t'] eqn:D.
    apply span_digits_length in D.
    destruct ed; injection E3 as <- <-; cbn; lia. }
  intros [= _ _ <-]. cbn [String.length] in L0; lia.
Qed.

Lemma scanstring_shorter n : forall s b acc t rest,
  String.length s <= n ->
  json.scanstring b acc s = json.Scanned t rest ->
  String.length rest < String.length s.
Proof.
  induction n as [|n IH]; intros s b acc t rest L.
  - destruct s; [discriminate|cbn in L; lia].
  - destruct s as [|c r]; [discriminate|].
    cbn [json.scanstring].
    destruct (Ascii.eqb c dq); [intros [= <- <-]; cbn; lia|].
    cbn in L.
    destruct (Ascii.eqb c "\").
    + destruct r as [|e r1]; [discriminate|].
      destruct (Ascii.eqb e "u").
      * destruct r1 as [|h1 [|h2 [|h3 [|h4 r2]]]]; try discriminate.
        destruct r2 as [|x r2']; [discriminate|].
        destruct (json.hex4 h1 h2 h3 h4) as [cp|]; [|discriminate].
        assert (K : forall acc',
                   json.scanstring b acc' (String x r2') = json.Scanned t rest ->
                   String.length rest
                   < String.length
                       (String c (String e (String h1 (String h2 (String h3
                          (String h4 (String x r2')))))))).
        { intros acc' H. apply IH in H; cbn [String.length] in *; lia. }
        destruct r2' as [|b2 [|g1 [|g2 [|g3 [|g4 r3]]]]]; try (apply K).
        destruct (json.is_high_surrogate cp && Ascii.eqb x "\" && Ascii.eqb b2 "u"
                  && negb (String.eqb r3 "")); [|apply K].
        destruct (json.hex4 g1 g2 g3 g4) as [cp2|]; [|discriminate].
        destruct (json.is_low_surrogate cp2); [|apply K].
        intros H. apply IH in H; cbn [String.length] in *; lia.
      * destruct (json.backslash_escape e); [|discriminate].
        intros H. apply IH in H; cbn [String.length] in *; lia.
    + destruct (N.leb _ 31); [discriminate|].
      intros H. apply IH in H; cbn [String.length] in *; lia.
Qed.

Lemma scanstring_total n : forall s b acc,
  String.length s <= n ->
  json.scanstring b acc s <> json.Starved
  /\ forall e, json.scanstring b acc s <> json.Failed e.
Proof.
  induction n as [|n IH]; intros s b acc L.
  - destruct s; [split; [|intros e]; discriminate|cbn in L; lia].
  - destruct s as [|c r]; [split; [|intros e]; discriminate|].
    cbn [json.scanstring].
    destruct (Ascii.eqb c dq); [split; [|intros e]; discriminate|].
    cbn in L.
    destruct (Ascii.eqb c "\").
    + destruct r as [|e r1]; [split; [|intros e]; discriminate|].
      destruct (Ascii.eqb e "u").
      * destruct r1 as [|h1 [|h2 [|h3 [|h4 r2]]]];
          try (split; [|intros e']; discriminate).
        destruct r2 as [|x r2']; [split; [|intros e']; discriminate|].
        destruct (json.hex4 h1 h2 h3 h4) as [cp|];
          [|split; [|intros e']; discriminate].
        assert (K : forall acc',
                   json.scanstring b acc' (String x r2') <> json.Starved
                   /\ forall e', json.scanstring b acc' (String x r2')
                                 <> json.Failed e').
        { intros acc'. apply IH. cbn [String.length] in *; lia. }
        destruct r2' as [|b2 [|g1 [|g2 [|g3 [|g4 r3]]]]]; try (apply K).
        destruct (json.is_high_surrogate cp && Ascii.eqb x "\" && Ascii.eqb b2 "u"
                  && negb (String.eqb r3 "")); [|apply K].
        destruct (json.hex4 g1 g2 g3 g4) as [cp2|];
          [|split; [|intros e']; discriminate].
        destruct (json.is_low_surrogate cp2); [|apply K].
        apply IH. cbn [String.length] in *; lia.
      * destruct (json.backslash_escape e); [|split; [|intros e']; discriminate].
        apply IH. cbn [String.length] in *; lia.
    + destruct (N.leb _ 31); [split; [|intros e]; discriminate|].
      apply IH. cbn [String.length] in *; lia.
Qed.

Lemma consumes_bad m k s : json.consumes (json.Bad m k) s.
Proof. split; [discriminate|]. intros v rest H. discriminate. Qed.

Lemma consumes_failed e s : json.consumes (json.Failed e) s.
Proof. split; [discriminate|]. intros v rest H. discriminate. Qed.

Lemma consumes_raise_errmsg room m k s :
  json.consumes (json.raise_errmsg room m k) s.
Proof.
  destruct room as [|[|[|room]]]; cbn;
    first [apply consumes_failed | apply consumes_bad].
Qed.

Section DecoderFacts.
Variable ip : Interp.

Lemma scan_fuel n :
  (forall room s, 2 * String.length s < n ->
                  json.consumes (json.scan_once ip n room s) s)
  /\ (forall room acc s, 2 * String.length s + 1 < n ->
                         json.consumes (json.array_loop ip n room acc s) s)
  /\ (forall room acc s, 2 * String.length s + 1 < n ->
                         json.consumes (json.object_loop ip n room acc s) s).
Proof.
  induction n as [|n (IHs & IHa & IHo)].
  - repeat split; intros; lia.
  - split; [|split].
    + intros room s L. cbn [json.scan_once].
      destruct s as [|c r]; [apply consumes_bad|]. cbn [String.length] in L.
      destruct (Ascii.eqb c dq).
      { destruct (json.scanstring _ _ r) as [t rest| | |] eqn:E.
        - split; [discriminate|]. intros v rest' [= <- <-].
          apply (scanstring_shorter (String.length r)) in E; [cbn; lia|lia].
        - apply consumes_raise_errmsg.
        - apply consumes_failed.
        - exfalso. revert E. apply (scanstring_total (String.length r)). lia. }
      destruct (Ascii.eqb c "{").
      { destruct room as [|inner]; [apply consumes_failed|].
        pose proof (skip_ws_length r) as W.
        destruct (json.skip_ws r) as [|d body]; [apply consumes_raise_errmsg|].
        destruct (Ascii.eqb d "}").
        { split; [discriminate|]. intros v rest [= <- <-]. cbn [String.length] in *; lia. }
        destruct (Ascii.eqb d dq); [|apply consumes_raise_errmsg].
        destruct (IHo inner [] (String d body)) as [T Sh]; [cbn [String.length] in *; lia|].
        split; [exact T|]. intros v rest E. apply Sh in E. cbn [String.length] in *; lia. }
      destruct (Ascii.eqb c "[").
      { destruct room as [|inner]; [apply consumes_failed|].
        pose proof (skip_ws_length r) as W.
        assert (A : forall s', String.length s' <= String.length r ->
                               json.consumes (json.array_loop ip n inner [] s')
                                 (String c r)).
        { intros s' Ls. destruct (IHa inner [] s') as [T Sh]; [lia|].
          split; [exact T|]. intros v rest E. apply Sh in E. cbn; lia. }
        destruct (json.skip_ws r) as [|d body] eqn:Er; [apply A; cbn; lia|].
        destruct (Ascii.eqb d "]").
        { split; [discriminate|]. intros v rest [= <- <-]. cbn [String.length] in *; lia. }
        apply A. exact W. }
      repeat match goal with
             | |- json.consumes (match json.literal ?wd ?v ?s with _ => _ end) _ =>
                 let E := fresh "E" in
                 destruct (json.literal wd v s) as [[? ?]|] eqn:E;
                 [split; [discriminate|]; intros ? ? [= <- <-];
                  apply literal_shorter in E; [exact E|cbn; lia]|]
             | |- json.consumes (match json.match_number ?s with _ => _ end) _ =>
                 let E := fresh "E" in
                 destruct (json.match_number s) as [[[[|] ?] ?]|] eqn:E;
                 [apply match_number_shorter in E;
                  split; [discriminate|]; intros ? ? [= <- <-]; exact E
                 |apply match_number_shorter in E;
                  destruct (json.int_of_text ip _);
                  [split; [discriminate|]; intros ? ? [= <- <-]; exact E
                  |apply consumes_failed]
                 |]
             end.
      apply consumes_bad.
    + intros room acc s L. cbn [json.array_loop].
      destruct (IHs room s) as [T Sh]; [lia|].
      destruct (json.scan_once ip n room s) as [v rest| | |];
        [|apply consumes_bad|apply consumes_failed|congruence].
      specialize (Sh _ _ eq_refl).
      pose proof (skip_ws_length rest) as W.
      destruct (json.skip_ws rest) as [|d after]; [apply consumes_raise_errmsg|].
      destruct (Ascii.eqb d "]").
      { split; [discriminate|]. intros v' rest' [= <- <-]. cbn [String.length] in *; lia. }
      destruct (Ascii.eqb d ","); [|apply consumes_raise_errmsg].
      pose proof (skip_ws_length after) as W'.
      destruct (IHa room (acc ++ [v])%list (json.skip_ws after)) as [T' Sh'];
        [cbn [String.length] in *; lia|].
      split; [exact T'|]. intros v' rest' E. apply Sh' in E. cbn [String.length] in *; lia.
    + intros room acc s L. cbn [json.object_loop].
      destruct s as [|q r]; [apply consumes_raise_errmsg|].
      destruct (Ascii.eqb q dq); [|apply consumes_raise_errmsg].
      destruct (json.scanstring _ _ r) as [key rest1| | |] eqn:E.
      2:{ apply consumes_raise_errmsg. }
      2:{ apply consumes_failed. }
      2:{ exfalso. revert E. apply (scanstring_total (String.length r)). lia. }
      apply (scanstring_shorter (String.length r)) in E; [|lia].
      pose proof (skip_ws_length rest1) as W1.
      destruct (json.skip_ws rest1) as [|d after]; [apply consumes_raise_errmsg|].
      destruct (Ascii.eqb d ":"); [|apply consumes_raise_errmsg].
      pose proof (skip_ws_length after) as W2.
      destruct (IHs room (json.skip_ws after)) as [T Sh]; [cbn [String.length] in *; lia|].
      destruct (json.scan_once ip n room _) as [v rest2| | |];
        [|apply consumes_bad|apply consumes_failed|congruence].
      specialize (Sh _ _ eq_refl).
      pose proof (skip_ws_length rest2) as W3.
      destruct (json.skip_ws rest2) as [|e after2]; [apply consumes_raise_errmsg|].
      destruct (Ascii.eqb e "}").
      { split; [discriminate|]. intros v' rest' [= <- <-]. cbn [String.length] in *; lia. }
      destruct (Ascii.eqb e ","); [|apply consumes_raise_errmsg].
      pose proof (skip_ws_length after2) as W4.
      destruct (IHo room (acc ++ [(key, v)])%list (json.skip_ws after2)) as [T' Sh'];
        [cbn [String.length] in *; lia|].
      split; [exact T'|]. intros v' rest' E'. apply Sh' in E'. cbn [String.length] in *; lia.
Qed.

(** The bound on the recursion of the decoder is never reached: what
    [loads] raises, it raises as Python does. *)
Lemma raw_decode_never_starves doc : json.raw_decode ip doc <> json.Starved.
Proof.
  unfold json.raw_decode, json.depth_bound.
  pose proof (skip_ws_length doc) as W.
  destruct (scan_fuel (2 * String.length doc + 2)) as (S & _ & _).
  apply S. lia.
Qed.

End DecoderFacts.

Import Scenario.

(* ------------------------------------------------------------------------- *)
(** * The claims *)
(* ------------------------------------------------------------------------- *)

Lemma new_events_unique {A} (l1 l2 tl : list A) :
  (l1 ++ tl = l2 ++ tl)%list -> l1 = l2.
Proof. apply app_inv_tail. Qed.

Lemma run_tests_unregistered table w k8s language path cfg s :
  dict_has table language = false ->
  run_tests table w k8s language path cfg s
  = (Raise (Exn ValueError ("Unsupported language: " ++ language)), s).
Proof. intros H. unfold run_tests. rewrite H. reflexivity. Qed.

Lemma run_tests_unreadable table w k8s language path cfg s e s1 :
  dict_has table language = true ->
  open_read w path s = (Raise e, s1) ->
  run_tests table w k8s language path cfg s = (Ok (run_error e), s).
Proof.
  intros H F. pose proof (open_read_frame w _ _ _ _ F) as ->.
  unfold run_tests. rewrite H. cbn [negb].
  unfold try_except. rewrite (bind_raise _ _ _ _ _ F). reflexivity.
Qed.

Lemma dict_has_get {V} (d : list (string * V)) k :
  dict_has d k = true -> exists v, dict_get d k = Some v.
Proof. unfold dict_has. destruct (dict_get d k); [eauto|discriminate]. Qed.

(** Every run falls under one of three cases. *)
Lemma run_tests_cases table w k8s language path cfg s :
  (dict_has table language = false
   /\ run_tests table w k8s language path cfg s
      = (Raise (Exn ValueError ("Unsupported language: " ++ language)), s))
  \/ (exists e, run_tests table w k8s language path cfg s = (Ok (run_error e), s))
  \/ (exists lc code v s' new,
        dict_get table language = Some lc
        /\ open_read w path s = (Ok code, s)
        /\ run_tests table w k8s language path cfg s = (Ok v, s')
        /\ calls s' = (new ++ calls s)%list
        /\ run_shape w language lc code cfg (drawn s) v new).
Proof.
  destruct (dict_has table language) eqn:H.
  - right. destruct (dict_has_get _ _ H) as [lc Hlc].
    destruct (open_read w path s) as [[code|e] s1] eqn:F;
      pose proof (open_read_frame w _ _ _ _ F) as ->.
    + right. destruct (run_tests_shape w table k8s language lc path code cfg s Hlc F)
        as (v & s' & new & R & C & S).
      exists lc, code, v, s', new. auto.
    + left. exists e. apply (run_tests_unreadable _ _ _ _ _ _ _ _ _ H F).
  - left. split; [reflexivity|]. apply run_tests_unregistered; assumption.
Qed.

(** In a run that left the events [new], these came from a run of the
    third case. *)
Lemma run_tests_events table w k8s language path cfg s r s' new :
  run_tests table w k8s language path cfg s = (r, s') ->
  calls s' = (new ++ calls s)%list ->
  new = []
  \/ exists lc code v,
       r = Ok v /\ dict_get table language = Some lc
       /\ run_shape w language lc code cfg (drawn s) v new.
Proof.
  intros R C.
  destruct (run_tests_cases table w k8s language path cfg s)
    as [[_ H] | [[e H] | (lc & code & v & s1 & new1 & Hlc & _ & H & C1 & S1)]];
    rewrite H in R; injection R as <- <-.
  - left. apply (new_events_unique _ _ (calls s)). symmetry. exact C.
  - left. apply (new_events_unique _ _ (calls s)). symmetry. exact C.
  - right. exists lc, code, v. split; [reflexivity|]. split; [exact Hlc|].
    rewrite C1 in C. apply new_events_unique in C. subst. exact S1.
Qed.

(** Splits a membership in the events of a run into the events. *)
Ltac in_shape S H :=
  inversion S; subst; clear S;
  repeat match goal with
         | R : reclaim_events _ _ |- _ => destruct R as [-> | [? ->]]
         end;
  cbn in H; intuition (try discriminate).

(** C2.  In every run in which the wait reached its deadline without seeing
    the job end, [run_tests] returns the result with status "fail", the
    message "Test execution failed" and the fixed text "Timeout waiting for
    job completion" as its raw output; it does not return status "error". *)
Theorem deadline_gives_fail table w k8s language path cfg s r s' new job :
  run_tests table w k8s language path cfg s = (r, s') ->
  calls s' = (new ++ calls s)%list ->
  In (DeadlineElapsed job) new ->
  r = Ok (PyDict [("status", PyStr "fail");
                  ("message", PyStr "Test execution failed");
                  ("raw_output", PyStr "Timeout waiting for job completion")]).
Proof.
  intros R C H.
  destruct (run_tests_events _ _ _ _ _ _ _ _ _ _ R C) as [-> | (lc & code & v & -> & _ & S)].
  - destruct H.
  - in_shape S H.
Qed.

Lemma deadline_gives_fail_witness :
  fst (run hangs live "python")
  = Ok (PyDict [("status", PyStr "fail");
                ("message", PyStr "Test execution failed");
                ("raw_output", PyStr "Timeout waiting for job completion")]).
Proof.
  apply (deadline_gives_fail SUPPORTED_LANGUAGES hangs live "python" solution_path
           test_config start _ (snd (run hangs live "python"))
           (calls (snd (run hangs live "python"))) the_job).
  - vm_compute. reflexivity.
  - vm_compute. reflexivity.
  - vm_compute. do 3 right. left. reflexivity.
Defined.

(** C4.  When the language is not a key of the language table, [run_tests]
    raises [ValueError] at once: the state it leaves is the state it found,
    so that no method of the client was called, no request was sent to the
    cluster and nothing was created. *)
Theorem unregistered_language_touches_nothing table w k8s language path cfg s :
  dict_has table language = false ->
  run_tests table w k8s language path cfg s
  = (Raise (Exn ValueError ("Unsupported language: " ++ language)), s).
Proof. apply run_tests_unregistered. Qed.

Lemma unregistered_language_touches_nothing_witness :
  run hangs live "ruby"
  = (Raise (Exn ValueError "Unsupported language: ruby"), start).
Proof.
  apply (unregistered_language_touches_nothing SUPPORTED_LANGUAGES hangs live
           "ruby" solution_path test_config start).
  reflexivity.
Defined.

(** C6.  [validate_test_config config language] is [True] exactly when
    [config] is a dict that is not empty and, for the language "python", has
    the key "version" and one of the keys "test_file" and "test_files"; for
    any other language the first condition is the only one. *)
Theorem validate_test_config_spec config language :
  utils.validate_test_config config language = true
  <-> exists d,
        config = PyDict d /\ d <> []
        /\ (language = "python" ->
            In "version" (keys d)
            /\ (In "test_file" (keys d) \/ In "test_files" (keys d))).
Proof.
  assert (Hin : forall (d : list (string * obj)) k,
             dict_has d k = true <-> In k (keys d)).
  { intros d k. unfold dict_has, keys. induction d as [|[k' v] d IH]; cbn.
    - split; [discriminate|tauto].
    - destruct (String.eqb_spec k k') as [->|Hne].
      + split; auto.
      + rewrite IH. split; [auto|]. intros [E|I]; [congruence|exact I]. }
  unfold utils.validate_test_config.
  destruct config as [|b|n|l|t|l|d];
    try (split; [discriminate | intros (d' & E & _); discriminate]).
  destruct d as [|p d].
  { split; [discriminate|]. intros (d' & E & N & _). injection E as <-. congruence. }
  set (d0 := p :: d).
  destruct (String.eqb_spec language "python") as [->|Hl].
  - destruct (dict_has d0 "version") eqn:Hv; cbn [negb].
    + destruct (dict_has d0 "test_file") eqn:Hf; cbn [negb andb].
      * split; [|reflexivity]. intros _. exists d0.
        split; [reflexivity|]. split; [discriminate|]. intros _.
        split; [apply Hin, Hv|left; apply Hin, Hf].
      * destruct (dict_has d0 "test_files") eqn:Hfs; cbn [negb].
        -- split; [|reflexivity]. intros _. exists d0.
           split; [reflexivity|]. split; [discriminate|]. intros _.
           split; [apply Hin, Hv|right; apply Hin, Hfs].
        -- split; [discriminate|]. intros (d' & E & _ & H).
           injection E as <-. destruct (H eq_refl) as [_ [I|I]];
             apply Hin in I; congruence.
    + split; [discriminate|]. intros (d' & E & _ & H).
      injection E as <-. destruct (H eq_refl) as [I _]. apply Hin in I. congruence.
  - split; [|reflexivity]. intros _. exists d0.
    split; [reflexivity|]. split; [discriminate|]. intros E. contradiction.
Qed.

(** C3.  For a supported language [run_tests] never hands an exception to
    its caller: it returns a result.  When [create_config_map] (staging),
    [create_job] (launch) or [wait_for_job_completion] (the wait, which
    retrieves the output) raises [e], the result is the dict with status
    "error" and the message "Error running tests: " followed by the text of
    [e]. *)
Theorem backend_exceptions_become_error_results table w k8s language path cfg s :
  dict_has table language = true ->
  exists v s' new,
    run_tests table w k8s language path cfg s = (Ok v, s')
    /\ calls s' = (new ++ calls s)%list
    /\ forall c e,
         In (Raised c e) new ->
         (forall name, c <> delete_config_map_call name) ->
         v = PyDict [("status", PyStr "error");
                     ("message", PyStr ("Error running tests: " ++ exn_str e))].
Proof.
  intros H.
  destruct (run_tests_cases table w k8s language path cfg s)
    as [[H' _] | [[e R] | (lc & code & v & s' & new & _ & _ & R & C & S)]].
  - congruence.
  - exists (run_error e), s, []. split; [exact R|]. split; [reflexivity|].
    intros c e' [].
  - exists v, s', new. split; [exact R|]. split; [exact C|].
    intros c e I N.
    inversion S; subst; clear S;
      repeat match goal with
             | R : reclaim_events _ _ |- _ => destruct R as [-> | [? ->]]
             end;
      cbn in I;
      repeat match goal with
             | I : _ \/ _ |- _ => destruct I as [I | I]
             | I : False |- _ => destruct I
             | I : _ = Raised _ _ |- _ =>
                 first [discriminate I
                       | injection I as <- <-; try reflexivity;
                         exfalso; eapply N; reflexivity]
             end.
Qed.

Lemma backend_exceptions_become_error_results_witness :
  exists v s' new,
    run rejects_job live "python" = (Ok v, s')
    /\ calls s' = (new ++ calls start)%list
    /\ forall c e,
         In (Raised c e) new ->
         (forall name, c <> delete_config_map_call name) ->
         v = PyDict [("status", PyStr "error");
                     ("message", PyStr ("Error running tests: " ++ exn_str e))].
Proof.
  apply (backend_exceptions_become_error_results SUPPORTED_LANGUAGES rejects_job
           live "python" solution_path test_config start).
  reflexivity.
Defined.

(** C1 fails in the code: the cluster accepts the bundle and refuses the
    job; [run_tests] returns the "error" result and [delete_config_map] is
    never called, so the bundle stays in the cluster. *)
Theorem failed_launch_leaves_the_bundle :
  let outcome := run rejects_job live "python" in
  fst outcome = Ok (run_error unprocessable)
  /\ In (Returned (stage_call rejects_job "python" python_lc
                     "def hello(): return 1" test_config "1b9d6bcd")
           (RStr the_bundle))
        (calls (snd outcome))
  /\ In (Raised (launch_call "python" python_lc "1b9d6bcd" the_bundle) unprocessable)
        (calls (snd outcome))
  /\ reclaims (calls (snd outcome)) = 0
  /\ requests (snd outcome)
     = [create_namespaced_job "default"
          {| api_version := "batch/v1"; kind := "Job"; metadata_name := the_job;
             template_labels := [("app", the_job)];
             containers :=
               [{| container_name := "test-runner";
                   container_image := "exercism/python-test-runner:latest";
                   container_command := command_of python_lc;
                   container_env := [];
                   container_volume_mounts :=
                     [{| mount_name := "test-files";
                         mount_path := "/mnt/exercise" |}] |}];
             restart_policy := "Never";
             job_volumes := [{| volume_name := "test-files";
                                config_map_name := the_bundle |}];
             backoff_limit := 0; ttl_seconds_after_finished := 300;
             active_deadline_seconds := 120 |};
        create_namespaced_config_map "default" the_bundle
          (data_of rejects_job python_lc "def hello(): return 1" test_config)].
Proof.
  cbv zeta. split; [|split; [|split; [|split]]]; vm_compute.
  - reflexivity.
  - do 2 right. left. reflexivity.
  - left. reflexivity.
  - reflexivity.
  - reflexivity.
Qed.

(** ** The decoder on a document that begins with the marker *)

Lemma prefix_app s1 : forall s2, prefix s1 s2 = true -> exists t, s2 = s1 ++ t.
Proof.
  induction s1 as [|a s1 IH]; intros s2 H.
  - exists s2. reflexivity.
  - destruct s2 as [|b s2]; [discriminate|]. cbn in H.
    destruct (ascii_dec a b) as [->|]; [|discriminate].
    destruct (IH _ H) as [t ->]. exists t. reflexivity.
Qed.

Lemma index_drop sub : forall s i,
  index 0 sub s = Some i -> prefix sub (drop i s) = true.
Proof.
  induction s as [|c s IH]; intros i H.
  - cbn in H. destruct sub; [|discriminate]. injection H as <-. reflexivity.
  - cbn [index] in H. destruct (prefix sub (String c s)) eqn:P.
    + injection H as <-. exact P.
    + destruct (index 0 sub s) as [k|] eqn:E; [|discriminate].
      injection H as <-. cbn. apply IH. reflexivity.
Qed.

Lemma found_marker logs :
  (find logs MARKER >=? 0)%Z = true ->
  exists t, slice_from logs (find logs MARKER) = MARKER ++ t.
Proof.
  unfold find, slice_from. destruct (index 0 MARKER logs) as [i|] eqn:E.
  - intros _. destruct (Z.ltb_spec (Z.of_nat i) 0); [lia|].
    rewrite Nat2Z.id. apply prefix_app, index_drop, E.
  - discriminate.
Qed.

Lemma dict_set_has_same {V} (d : list (string * V)) k v :
  dict_has (dict_set d k v) k = true.
Proof.
  unfold dict_has. induction d as [|[k' v'] d IH]; cbn.
  - rewrite String.eqb_refl. reflexivity.
  - destruct (String.eqb k k') eqn:E; cbn; rewrite E; [reflexivity|exact IH].
Qed.

Lemma dict_set_has_other {V} (d : list (string * V)) k k' v :
  dict_has d k = true -> dict_has (dict_set d k' v) k = true.
Proof.
  unfold dict_has. induction d as [|[k0 v0] d IH]; cbn; [discriminate|].
  destruct (String.eqb k' k0) eqn:E'; cbn; destruct (String.eqb k k0); auto.
Qed.

Lemma dict_of_pairs_has {V} (l : list (string * V)) k :
  In k (keys l) -> dict_has (dict_of_pairs l) k = true.
Proof.
  unfold dict_of_pairs.
  assert (G : forall (l : list (string * V)) d,
             dict_has d k = true \/ In k (keys l) ->
             dict_has (fold_left (fun d kv => dict_set d (fst kv) (snd kv)) l d) k
             = true).
  { clear l. induction l as [|[k' v'] l IH]; intros d [H|H]; cbn in *.
    - exact H.
    - destruct H.
    - apply IH. left. apply dict_set_has_other, H.
    - apply IH. destruct H as [->|H]; [left; apply dict_set_has_same|right; exact H]. }
  intros H. apply G. right. exact H.
Qed.

Lemma raise_errmsg_scanned {A} room m k (v : A) rest :
  json.raise_errmsg room m k <> json.Scanned v rest.
Proof. destruct room as [|[|[|room]]]; discriminate. Qed.

Lemma object_loop_dict ip n : forall room acc s v rest,
  json.object_loop ip n room acc s = json.Scanned v rest ->
  exists more, v = PyDict (dict_of_pairs (acc ++ more)).
Proof.
  induction n as [|n IH]; intros room acc s v rest H; [discriminate|].
  cbn [json.object_loop] in H.
  destruct s as [|q r]; [exfalso; exact (raise_errmsg_scanned _ _ _ _ _ H)|].
  destruct (Ascii.eqb q dq); [|exfalso; exact (raise_errmsg_scanned _ _ _ _ _ H)].
  destruct (json.scanstring _ _ r) as [key rest1| | |]; try discriminate;
    [|exfalso; exact (raise_errmsg_scanned _ _ _ _ _ H)].
  destruct (json.skip_ws rest1) as [|d after];
    [exfalso; exact (raise_errmsg_scanned _ _ _ _ _ H)|].
  destruct (Ascii.eqb d ":"); [|exfalso; exact (raise_errmsg_scanned _ _ _ _ _ H)].
  destruct (json.scan_once ip n room _) as [v0 rest2| | |]; try discriminate.
  destruct (json.skip_ws rest2) as [|e after2];
    [exfalso; exact (raise_errmsg_scanned _ _ _ _ _ H)|].
  destruct (Ascii.eqb e "}").
  - injection H as <- <-. exists [(key, v0)]. reflexivity.
  - destruct (Ascii.eqb e ","); [|exfalso; exact (raise_errmsg_scanned _ _ _ _ _ H)].
    apply IH in H. destruct H as [more ->].
    exists ((key, v0) :: more). rewrite <- app_assoc. reflexivity.
Qed.

(** What a text that begins with a brace scans to is a dict. *)
Lemma brace_scans_to_dict ip n room t v rest :
  json.scan_once ip n room (String "{" t) = json.Scanned v rest ->
  exists d, v = PyDict d.
Proof.
  destruct n as [|n]; [discriminate|].
  cbn [json.scan_once Ascii.eqb Bool.eqb andb dq].
  destruct room as [|inner]; [discriminate|].
  destruct (json.skip_ws t) as [|d body];
    [intros H; exfalso; exact (raise_errmsg_scanned _ _ _ _ _ H)|].
  destruct (Ascii.eqb d "}"); [intros [= <- _]; eauto|].
  destruct (Ascii.eqb d dq);
    [|intros H; exfalso; exact (raise_errmsg_scanned _ _ _ _ _ H)].
  intros H. apply object_loop_dict in H. destruct H as [more ->]. eauto.
Qed.

(** What a text that begins with the marker scans to has the key
    "status". *)
Lemma marker_scans_to_status ip n room t v rest :
  json.scan_once ip n room (MARKER ++ t) = json.Scanned v rest ->
  exists st, item v "status" = Some st.
Proof.
  destruct room as [|inner]; [destruct n; discriminate|].
  destruct n as [|[|n]]; [discriminate|discriminate|].
  cbn -[String.length].
  destruct (json.scan_once ip n inner (json.skip_ws t)) as [v0 rest2| | |];
    try discriminate.
  destruct (json.skip_ws rest2) as [|e after2];
    [intros H; exfalso; exact (raise_errmsg_scanned _ _ _ _ _ H)|].
  destruct (Ascii.eqb e "}").
  - intros [= <- _]. exists v0. reflexivity.
  - destruct (Ascii.eqb e ",");
      [|intros H; exfalso; exact (raise_errmsg_scanned _ _ _ _ _ H)].
    intros E. apply object_loop_dict in E. destruct E as [more ->].
    cbn [item].
    pose proof (dict_of_pairs_has ([("status", v0)] ++ more) "status") as H.
    unfold dict_has in H.
    destruct (dict_get _ "status") as [st|]; [exists st; reflexivity|].
    discriminate H. left. reflexivity.
Qed.

(** What [loads] returns, [raw_decode] has scanned, up to white space. *)
Lemma loads_ok ip doc v :
  json.loads ip doc = Ok v ->
  exists rest, json.raw_decode ip doc = json.Scanned v rest
               /\ json.skip_ws rest = "".
Proof.
  unfold json.loads. destruct (prefix json.BOM doc); [discriminate|].
  destruct (json.raw_decode ip doc) as [v0 rest| | |]; try discriminate.
  destruct (json.skip_ws rest) eqn:W; [|discriminate].
  intros [= <-]. exists rest. auto.
Qed.

(** A text that begins with the marker does not begin with a byte order
    mark. *)
Lemma marker_is_no_bom t : prefix json.BOM (MARKER ++ t) = false.
Proof. reflexivity. Qed.

(** A document that begins with the marker decodes, if it decodes, to a
    dict with the key "status". *)
Lemma marker_doc_has_status ip t v :
  json.loads ip (MARKER ++ t) = Ok v -> exists st, item v "status" = Some st.
Proof.
  intros L. apply loads_ok in L. destruct L as (rest & D & _).
  unfold json.raw_decode in D.
  change (json.skip_ws (MARKER ++ t)) with (MARKER ++ t) in D.
  exact (marker_scans_to_status _ _ _ _ _ _ D).
Qed.

(** ** The results of the three claims about the output *)

(** Reads the outcome of the wait off the events of a run. *)
Lemma run_tests_outcome table w k8s language path cfg s r s' new job success logs :
  run_tests table w k8s language path cfg s = (r, s') ->
  calls s' = (new ++ calls s)%list ->
  In (Returned (wait_for_job_completion_call job) (RPair success logs)) new ->
  r = Ok (verdict_of w success logs).
Proof.
  intros R C H.
  destruct (run_tests_events _ _ _ _ _ _ _ _ _ _ R C) as [-> | (lc & code & v & -> & _ & S)].
  - destruct H.
  - inversion S; subst; clear S;
      repeat match goal with
             | R : reclaim_events _ _ |- _ => destruct R as [-> | [? ->]]
             end;
      cbn in H;
      repeat match goal with
             | H : _ \/ _ |- _ => destruct H as [H | H]
             | H : False |- _ => destruct H
             | H : _ = Returned _ _ |- _ =>
                 first [discriminate H | injection H as <- <- <-; reflexivity
                       | injection H as <- <-; reflexivity]
             end.
Qed.

(** C7, as the code has it.  In every run in which the job succeeded and
    [json.loads] decodes the captured output from the first occurrence of
    the marker to its end (the text is one JSON document, with nothing but
    white space after it, that the interpreter has room for), [run_tests]
    returns what that text decodes to, and so its status and its list of
    tests as they stand. *)
Theorem embedded_result_is_passed_through
    table w k8s language path cfg s r s' new job logs doc :
  run_tests table w k8s language path cfg s = (r, s') ->
  calls s' = (new ++ calls s)%list ->
  In (Returned (wait_for_job_completion_call job) (RPair true logs)) new ->
  (find logs MARKER >=? 0)%Z = true ->
  json.loads (interp w) (slice_from logs (find logs MARKER)) = Ok doc ->
  r = Ok doc.
Proof.
  intros R C H F L.
  rewrite (run_tests_outcome _ _ _ _ _ _ _ _ _ _ _ _ _ R C H).
  unfold verdict_of. rewrite F, L. reflexivity.
Qed.

Lemma embedded_result_is_passed_through_witness :
  fst (run (succeeds logs_with_line_end) live "python") = Ok embedded_result.
Proof.
  apply (embedded_result_is_passed_through SUPPORTED_LANGUAGES
           (succeeds logs_with_line_end) live "python" solution_path test_config
           start _ (snd (run (succeeds logs_with_line_end) live "python"))
           (calls (snd (run (succeeds logs_with_line_end) live "python")))
           the_job logs_with_line_end).
  - vm_compute. reflexivity.
  - vm_compute. reflexivity.
  - vm_compute. do 2 right. left. reflexivity.
  - vm_compute. reflexivity.
  - vm_compute. reflexivity.
Defined.

(** C7, as it was stated, fails when text follows the embedded result: the
    output holds a well-formed result with status "pass" at the marker, and
    the result of the run has status "error". *)
Lemma text_after_the_result_spoils_it :
  logs_with_trailer
  = String.append "collected 1 item"
      (String "010" (String.append embedded_doc
                       (String "010" "1 passed in 0.01s")))
  /\ json.loads cpython embedded_doc = Ok embedded_result
  /\ item embedded_result "status" = Some (PyStr "pass")
  /\ fst (run (succeeds logs_with_trailer) live "python")
     = Ok (PyDict [("status", PyStr "error");
                   ("message",
                    PyStr "Error parsing test results: Extra data: line 2 column 1 (char 72)");
                   ("raw_output", PyStr logs_with_trailer)]).
Proof. split; [|split; [|split]]; vm_compute; reflexivity. Qed.

(** C10, as the code has it.  In every run in which the job succeeded and
    the captured output holds the marker, [run_tests] reads the text from
    the first occurrence of the marker on.  When the decoder finds a JSON
    value at the start of that text and what follows the value is not white
    space only, [run_tests] returns the result with status "error" that
    reports the extra data, with the whole output as raw output; when only
    white space follows, it returns the value. *)
Theorem text_after_the_result_gives_error
    table w k8s language path cfg s r s' new job logs v rest :
  run_tests table w k8s language path cfg s = (r, s') ->
  calls s' = (new ++ calls s)%list ->
  In (Returned (wait_for_job_completion_call job) (RPair true logs)) new ->
  (find logs MARKER >=? 0)%Z = true ->
  json.raw_decode (interp w) (slice_from logs (find logs MARKER))
  = json.Scanned v rest ->
  r = Ok (match json.skip_ws rest with
          | EmptyString => v
          | String _ _ as extra =>
              PyDict
                [("status", PyStr "error");
                 ("message",
                  PyStr ("Error parsing test results: "
                         ++ json.errmsg "Extra data"
                              (slice_from logs (find logs MARKER))
                              (String.length extra)));
                 ("raw_output", PyStr logs)]
          end).
Proof.
  intros R C H F D.
  rewrite (run_tests_outcome _ _ _ _ _ _ _ _ _ _ _ _ _ R C H).
  unfold verdict_of. rewrite F. unfold json.loads.
  destruct (found_marker logs F) as [t Ht]. rewrite Ht in *.
  rewrite marker_is_no_bom, D.
  destruct (json.skip_ws rest); reflexivity.
Qed.

Lemma text_after_the_result_gives_error_witness :
  fst (run (succeeds logs_with_trailer) live "python")
  = Ok (PyDict
          [("status", PyStr "error");
           ("message",
            PyStr "Error parsing test results: Extra data: line 2 column 1 (char 72)");
           ("raw_output", PyStr logs_with_trailer)]).
Proof.
  rewrite (text_after_the_result_gives_error SUPPORTED_LANGUAGES
             (succeeds logs_with_trailer) live "python" solution_path test_config
             start _ (snd (run (succeeds logs_with_trailer) live "python"))
             (calls (snd (run (succeeds logs_with_trailer) live "python")))
             the_job logs_with_trailer embedded_result
             (String "010" "1 passed in 0.01s")).
  - vm_compute. reflexivity.
  - vm_compute. reflexivity.
  - vm_compute. reflexivity.
  - vm_compute. do 2 right. left. reflexivity.
  - vm_compute. reflexivity.
  - vm_compute. reflexivity.
Defined.

(** C10, as it was stated, fails when the text after the result is white
    space: with nothing but a line end after the object, the result of the
    run is the embedded one, with status "pass". *)
Lemma a_line_end_after_the_result_is_accepted :
  logs_with_line_end = String.append embedded_doc (String "010" "")
  /\ json.loads cpython embedded_doc = Ok embedded_result
  /\ fst (run (succeeds logs_with_line_end) live "python")
     = Ok (PyDict [("status", PyStr "pass");
                   ("tests", PyList [PyDict [("name", PyStr "test_hello");
                                             ("status", PyStr "pass")]])]).
Proof. split; [|split]; vm_compute; reflexivity. Qed.

(** C5, as the code has it.  Whenever [run_tests] returns, the result has
    an entry "status".  Its value is "pass", "fail" or "error", unless the
    result is the document that this run has decoded from the output of its
    job, which had succeeded: such a result is passed through as it is, with
    the status, whatever it is, that the output gave it. *)
Theorem result_has_a_status table w k8s language path cfg s v s' new :
  run_tests table w k8s language path cfg s = (Ok v, s') ->
  calls s' = (new ++ calls s)%list ->
  exists st,
    item v "status" = Some st
    /\ (st = PyStr "pass" \/ st = PyStr "fail" \/ st = PyStr "error"
        \/ exists job logs,
             In (Returned (wait_for_job_completion_call job) (RPair true logs)) new
             /\ (find logs MARKER >=? 0)%Z = true
             /\ json.loads (interp w) (slice_from logs (find logs MARKER)) = Ok v).
Proof.
  intros R C.
  destruct (run_tests_cases table w k8s language path cfg s)
    as [[_ H] | [[e H] | (lc & code & v1 & s1 & new1 & _ & _ & H & C1 & S)]];
    rewrite H in R; [discriminate| |]; injection R as <- <-.
  - exists (PyStr "error"). split; [reflexivity|auto].
  - rewrite C1 in C. apply new_events_unique in C. subst new1.
    inversion S; subst; clear S;
      try (exists (PyStr "error"); split; [reflexivity|auto]; fail).
    + unfold verdict_of. destruct success.
      * destruct (find logs MARKER >=? 0)%Z eqn:F.
        -- destruct (json.loads _ _) as [doc|e] eqn:L.
           ++ destruct (found_marker logs F) as [t Ht].
              pose proof L as L'. rewrite Ht in L'.
              destruct (marker_doc_has_status _ _ _ L') as [st Hst].
              exists st. split; [exact Hst|]. do 3 right. eexists. exists logs.
              split; [|auto]. apply in_or_app. right. left. reflexivity.
           ++ exists (PyStr "error"). split; [reflexivity|auto].
        -- exists (PyStr "pass"). split; [reflexivity|auto].
      * exists (PyStr "fail"). split; [reflexivity|auto].
    + exists (PyStr "fail"). split; [reflexivity|auto].
Qed.

Lemma result_has_a_status_witness :
  let outcome := run (succeeds logs_skipped) live "python" in
  fst outcome = Ok (PyDict [("status", PyStr "skipped")])
  /\ exists st,
       item (PyDict [("status", PyStr "skipped")]) "status" = Some st
       /\ (st = PyStr "pass" \/ st = PyStr "fail" \/ st = PyStr "error"
           \/ exists job logs,
                In (Returned (wait_for_job_completion_call job) (RPair true logs))
                   (calls (snd outcome))
                /\ (find logs MARKER >=? 0)%Z = true
                /\ json.loads (interp (succeeds logs_skipped))
                     (slice_from logs (find logs MARKER))
                   = Ok (PyDict [("status", PyStr "skipped")])).
Proof.
  cbv zeta. split; [vm_compute; reflexivity|].
  apply (result_has_a_status SUPPORTED_LANGUAGES (succeeds logs_skipped) live
           "python" solution_path test_config start _
           (snd (run (succeeds logs_skipped) live "python"))).
  - vm_compute. reflexivity.
  - vm_compute. reflexivity.
Defined.

(** C5, as it was stated, fails on the branch that passes a result through:
    the job succeeds, its output is a document whose status is "skipped",
    and that is the status of what [run_tests] returns. *)
Lemma passed_through_status_is_not_checked :
  fst (run (succeeds logs_skipped) live "python")
  = Ok (PyDict [("status", PyStr "skipped")])
  /\ item (PyDict [("status", PyStr "skipped")]) "status" <> Some (PyStr "pass")
  /\ item (PyDict [("status", PyStr "skipped")]) "status" <> Some (PyStr "fail")
  /\ item (PyDict [("status", PyStr "skipped")]) "status" <> Some (PyStr "error").
Proof.
  split; [vm_compute; reflexivity|].
  split; [|split]; cbn; discriminate.
Qed.

(** ** The mock mode *)

Lemma contains_char_app c a b : contains_char c (a ++ String c b) = true.
Proof.
  induction a as [|d a IH]; cbn.
  - rewrite Ascii.eqb_refl. reflexivity.
  - rewrite IH. apply orb_true_r.
Qed.

Lemma split_head_app c a b :
  split_head c (a ++ String c b) = split_head c a.
Proof.
  induction a as [|d a IH]; cbn.
  - rewrite Ascii.eqb_refl. reflexivity.
  - destruct (Ascii.eqb c d); [reflexivity|]. rewrite IH. reflexivity.
Qed.

Lemma string_app_assoc (a b c : string) : (a ++ b) ++ c = a ++ (b ++ c).
Proof. induction a as [|x a IH]; cbn; [reflexivity|]. rewrite IH. reflexivity. Qed.

(** The first segment of a job name is the first segment of the language. *)
Lemma job_name_segment language a b :
  (if contains_char "-" ((language ++ "-test-" ++ a) ++ "-" ++ b)
   then split_head "-" ((language ++ "-test-" ++ a) ++ "-" ++ b)
   else "unknown") = split_head "-" language.
Proof.
  rewrite string_app_assoc.
  change ("-test-" ++ a) with (String "-" ("test-" ++ a)).
  change (String "-" ("test-" ++ a) ++ "-" ++ b)
    with (String "-" (("test-" ++ a) ++ "-" ++ b)).
  rewrite contains_char_app, split_head_app. reflexivity.
Qed.

Section Mock.
Variable w : World.
Variable self : K8sClient.
Hypothesis Hmock : mock_mode self = true.

Lemma create_config_map_mock name data s :
  create_config_map w self name data s
  = (Ok (name ++ "-" ++ short_id w (drawn s)),
     {| now := now s; drawn := S (drawn s); files := files s;
        requests := requests s;
        calls := Returned (create_config_map_call name data)
                   (RStr (name ++ "-" ++ short_id w (drawn s)))
                 :: Called (create_config_map_call name data) :: calls s |}).
Proof.
  unfold create_config_map, method, bind, try_except, note, short_uuid, ret.
  cbn. rewrite Hmock. reflexivity.
Qed.

Lemma create_job_mock name img cmd env vm vols t s :
  create_job w self name img cmd env vm vols t s
  = (Ok (name ++ "-" ++ short_id w (drawn s)),
     {| now := now s; drawn := S (drawn s); files := files s;
        requests := requests s;
        calls := Returned (create_job_call name img cmd
                             (match vm with Some l => l | None => [] end)
                             (match vols with Some l => l | None => [] end) t)
                   (RStr (name ++ "-" ++ short_id w (drawn s)))
                 :: Called (create_job_call name img cmd
                              (match vm with Some l => l | None => [] end)
                              (match vols with Some l => l | None => [] end) t)
                 :: calls s |}).
Proof.
  unfold create_job, method, bind, try_except, note, short_uuid, ret.
  cbn. rewrite Hmock. reflexivity.
Qed.

Lemma wait_for_job_completion_mock job t ci s :
  wait_for_job_completion w self job t ci s
  = (Ok (true, canned (if contains_char "-" job then split_head "-" job
                       else "unknown")),
     {| now := now s + 1 * HZ; drawn := drawn s; files := files s;
        requests := requests s;
        calls := Returned (wait_for_job_completion_call job)
                   (RPair true (canned (if contains_char "-" job
                                        then split_head "-" job else "unknown")))
                 :: Called (wait_for_job_completion_call job) :: calls s |}).
Proof.
  unfold wait_for_job_completion, method, bind, try_except, note, time_sleep, ret.
  cbn. rewrite Hmock. reflexivity.
Qed.

Lemma delete_config_map_mock name s :
  delete_config_map w self name s
  = (Ok tt,
     {| now := now s; drawn := drawn s; files := files s;
        requests := requests s;
        calls := Returned (delete_config_map_call name) RNone
                 :: Called (delete_config_map_call name) :: calls s |}).
Proof.
  unfold delete_config_map, method, bind, try_except, note, ret.
  cbn. rewrite Hmock. reflexivity.
Qed.

(** A run in mock mode, in full. *)
Lemma run_tests_mock table language lc path code cfg s :
  dict_get table language = Some lc ->
  open_read w path s = (Ok code, s) ->
  let run_id := short_id w (drawn s) in
  let bundle := base_name language run_id ++ "-" ++ short_id w (S (drawn s)) in
  let job := base_name language run_id ++ "-" ++ short_id w (S (S (drawn s))) in
  let logs := canned (split_head "-" language) in
  run_tests table w self language path cfg s
  = (Ok (verdict_of w true logs),
     {| now := now s + 1 * HZ; drawn := S (S (S (drawn s))); files := files s;
        requests := requests s;
        calls :=
          [Returned (delete_config_map_call bundle) RNone;
           Called (delete_config_map_call bundle);
           Returned (wait_for_job_completion_call job) (RPair true logs);
           Called (wait_for_job_completion_call job);
           Returned (launch_call language lc run_id bundle) (RStr job);
           Called (launch_call language lc run_id bundle);
           Returned (stage_call w language lc code cfg run_id) (RStr bundle);
           Called (stage_call w language lc code cfg run_id)] ++ calls s |}%list).
Proof.
  intros Hreg Hfile run_id bundle job logs.
  unfold run_tests, dict_has. rewrite Hreg. cbn [negb].
  unfold try_except at 1.
  rewrite (bind_ok _ _ _ _ _ Hfile).
  unfold bind at 1. unfold short_uuid at 1.
  unfold bind at 1. unfold lookup. rewrite Hreg. unfold ret at 1.
  rewrite (bind_ok _ _ _ _ _ (create_config_map_mock _ _ _)). cbv beta.
  rewrite (bind_ok _ _ _ _ _ (create_job_mock _ _ _ _ _ _ _ _)). cbv beta.
  rewrite (bind_ok _ _ _ _ _ (wait_for_job_completion_mock _ _ _ _)). cbv beta iota.
  erewrite (bind_ok _ _ _ tt) by (apply try_ok; apply delete_config_map_mock).
  rewrite interpret_eq. cbn [drawn now files requests calls].
  rewrite job_name_segment. reflexivity.
Qed.
End Mock.

(** C8.  In mock mode, for every language of the table and every readable
    code file, the wait reports success with the canned output that goes
    with the first segment of the language name, no request is sent to the
    cluster, and [run_tests] returns a result with status "pass".  For the
    language "python" the result is the dict with status "pass" and the one
    passed test "test_hello_world". *)
Theorem mock_mode_passes table w k8s language lc path code cfg s :
  mock_mode k8s = true ->
  dict_get table language = Some lc ->
  open_read w path s = (Ok code, s) ->
  exists v s' job,
    run_tests table w k8s language path cfg s = (Ok v, s')
    /\ In (Returned (wait_for_job_completion_call job)
             (RPair true (canned (split_head "-" language)))) (calls s')
    /\ requests s' = requests s
    /\ item v "status" = Some (PyStr "pass")
    /\ (language = "python" ->
        v = PyDict [("status", PyStr "pass");
                    ("tests", PyList [PyDict [("name", PyStr "test_hello_world");
                                              ("status", PyStr "pass")]])]).
Proof.
  intros Hm Hreg Hfile.
  pose proof (run_tests_mock w k8s Hm table language lc path code cfg s Hreg Hfile) as R.
  cbv zeta in R.
  eexists. eexists. eexists. split; [exact R|].
  split; [cbn [calls]; do 2 right; left; reflexivity|].
  split; [reflexivity|].
  split.
  - unfold canned.
    destruct (String.eqb (split_head "-" language) "python");
      [vm_compute; reflexivity|].
    destruct (String.eqb (split_head "-" language) "javascript");
      vm_compute; reflexivity.
  - intros ->. vm_compute. reflexivity.
Qed.

Lemma mock_mode_passes_witness :
  exists v s' job,
    run hangs mock "python" = (Ok v, s')
    /\ In (Returned (wait_for_job_completion_call job)
             (RPair true (canned (split_head "-" "python")))) (calls s')
    /\ requests s' = requests start
    /\ item v "status" = Some (PyStr "pass")
    /\ ("python" = "python" ->
        v = PyDict [("status", PyStr "pass");
                    ("tests", PyList [PyDict [("name", PyStr "test_hello_world");
                                              ("status", PyStr "pass")]])]).
Proof.
  apply (mock_mode_passes SUPPORTED_LANGUAGES hangs mock "python" python_lc
           solution_path "def hello(): return 1" test_config start);
    reflexivity.
Defined.

(** Decides a membership among the events of a shape. *)
Ltac in_events H :=
  cbn in H;
  repeat match goal with
         | H : _ \/ _ |- _ => destruct H as [H | H]
         | H : False |- _ => destruct H
         | H : @eq event _ _ |- _ => first [discriminate H | injection H as; subst]
         end;
  try (split; reflexivity); try reflexivity.

(** C9, as the code has it.  In every run both names have the form
    language-test-runid-suffix: [run_tests] passes the name
    language-test-runid, with the one short id of the request, to
    [create_config_map] and to [create_job], and each of the two appends a
    hyphen and the short id that it draws next.  The job is awaited and the
    bundle is reclaimed under the names so made. *)
Theorem names_share_the_run_id table w k8s language path cfg s r s' new :
  run_tests table w k8s language path cfg s = (r, s') ->
  calls s' = (new ++ calls s)%list ->
  let base := base_name language (short_id w (drawn s)) in
  let bundle := base ++ "-" ++ short_id w (S (drawn s)) in
  let job := base ++ "-" ++ short_id w (S (S (drawn s))) in
  (forall name data v,
      In (Returned (create_config_map_call name data) v) new ->
      name = base /\ v = RStr bundle)
  /\ (forall name img cmd vm vols t v,
         In (Returned (create_job_call name img cmd vm vols t) v) new ->
         name = base /\ v = RStr job)
  /\ (forall j, In (Called (wait_for_job_completion_call j)) new -> j = job)
  /\ (forall b, In (Called (delete_config_map_call b)) new -> b = bundle).
Proof.
  intros R C base bundle job.
  destruct (run_tests_events _ _ _ _ _ _ _ _ _ _ R C) as [-> | (lc & code & v & -> & _ & S)].
  - repeat split; intros; contradiction.
  - split; [|split; [|split]]; intros;
      match goal with H : In _ _ |- _ =>
        inversion S; subst; clear S;
        repeat match goal with
               | R : reclaim_events _ _ |- _ => destruct R as [-> | [? ->]]
               end;
        in_events H
      end.
Qed.

Lemma names_share_the_run_id_witness :
  let new := calls (snd (run hangs mock "python")) in
  let base := base_name "python" (short_id hangs 0) in
  let bundle := base ++ "-" ++ short_id hangs 1 in
  let job := base ++ "-" ++ short_id hangs 2 in
  (forall name data v,
      In (Returned (create_config_map_call name data) v) new ->
      name = base /\ v = RStr bundle)
  /\ (forall name img cmd vm vols t v,
         In (Returned (create_job_call name img cmd vm vols t) v) new ->
         name = base /\ v = RStr job)
  /\ (forall j, In (Called (wait_for_job_completion_call j)) new -> j = job)
  /\ (forall b, In (Called (delete_config_map_call b)) new -> b = bundle).
Proof.
  apply (names_share_the_run_id SUPPORTED_LANGUAGES hangs mock "python"
           solution_path test_config start
           (fst (run hangs mock "python")) (snd (run hangs mock "python"))).
  - vm_compute. reflexivity.
  - vm_compute. reflexivity.
Defined.

(** C9, as it was stated, fails: with the short id 1b9d6bcd of the request,
    the bundle and the job are not named python-test-1b9d6bcd; each name is
    nine characters longer. *)
Lemma names_have_a_second_suffix :
  let events := calls (snd (run hangs mock "python")) in
  In (Returned (stage_call hangs "python" python_lc "def hello(): return 1"
                  test_config "1b9d6bcd") (RStr "python-test-1b9d6bcd-6ec0bd7f"))
     events
  /\ In (Returned (launch_call "python" python_lc "1b9d6bcd"
                     "python-test-1b9d6bcd-6ec0bd7f")
           (RStr "python-test-1b9d6bcd-3d6f0a52")) events
  /\ base_name "python" "1b9d6bcd" = "python-test-1b9d6bcd"
  /\ "python-test-1b9d6bcd-6ec0bd7f" <> base_name "python" "1b9d6bcd"
  /\ "python-test-1b9d6bcd-3d6f0a52" <> base_name "python" "1b9d6bcd"
  /\ String.length "python-test-1b9d6bcd-6ec0bd7f"
     = String.length (base_name "python" "1b9d6bcd") + 9
  /\ String.length "python-test-1b9d6bcd-3d6f0a52"
     = String.length (base_name "python" "1b9d6bcd") + 9.
Proof.
  cbv zeta.
  split; [vm_compute; do 6 right; left; reflexivity|].
  split; [vm_compute; do 4 right; left; reflexivity|].
  split; [reflexivity|].
  split; [vm_compute; discriminate|].
  split; [vm_compute; discriminate|].
  split; reflexivity.
Qed.

(* ------------------------------------------------------------------------- *)
(** * Further properties of [run_tests] *)
(* ------------------------------------------------------------------------- *)

(** X1.  In every run in which [wait_for_job_completion] returned, the four
    methods of the client were called once each and in this order:
    [create_config_map], [create_job], [wait_for_job_completion],
    [delete_config_map]; the reclaim names the bundle that
    [create_config_map] returned. *)
Theorem finished_job_is_reclaimed_once
    table w k8s language path cfg s r s' new job outcome :
  run_tests table w k8s language path cfg s = (r, s') ->
  calls s' = (new ++ calls s)%list ->
  In (Returned (wait_for_job_completion_call job) outcome) new ->
  exists stage launch bundle,
    filter (fun ev => match ev with Called _ => true | _ => false end) new
    = [Called (delete_config_map_call bundle);
       Called (wait_for_job_completion_call job);
       Called launch; Called stage]
    /\ In (Returned stage (RStr bundle)) new
    /\ (exists name data, stage = create_config_map_call name data)
    /\ (exists name img cmd vm vols t, launch = create_job_call name img cmd vm vols t)
    /\ reclaims new = 1.
Proof.
  intros R C H.
  destruct (run_tests_events _ _ _ _ _ _ _ _ _ _ R C) as [-> | (lc & code & v & -> & _ & S)].
  - destruct H.
  - inversion S; subst; clear S;
      repeat match goal with
             | R : reclaim_events _ _ |- _ => destruct R as [-> | [? ->]]
             end;
      cbn in H;
      repeat match goal with
             | H : _ \/ _ |- _ => destruct H as [H | H]
             | H : False |- _ => destruct H
             | H : @eq event _ _ |- _ => first [discriminate H | injection H as; subst]
             end;
      (eexists; eexists; eexists;
       split; [reflexivity|];
       split; [cbn; auto 10|];
       split; [unfold stage_call; eauto|];
       split; [unfold launch_call; eauto 10|reflexivity]).
Qed.

Lemma finished_job_is_reclaimed_once_witness :
  exists stage launch bundle,
    filter (fun ev => match ev with Called _ => true | _ => false end)
           (calls (snd (run (fails "AssertionError") live "python")))
    = [Called (delete_config_map_call bundle);
       Called (wait_for_job_completion_call the_job);
       Called launch; Called stage]
    /\ In (Returned stage (RStr bundle))
          (calls (snd (run (fails "AssertionError") live "python")))
    /\ (exists name data, stage = create_config_map_call name data)
    /\ (exists name img cmd vm vols t, launch = create_job_call name img cmd vm vols t)
    /\ reclaims (calls (snd (run (fails "AssertionError") live "python"))) = 1.
Proof.
  apply (finished_job_is_reclaimed_once SUPPORTED_LANGUAGES (fails "AssertionError")
           live "python" solution_path test_config start
           (fst (run (fails "AssertionError") live "python"))
           (snd (run (fails "AssertionError") live "python"))
           (calls (snd (run (fails "AssertionError") live "python")))
           the_job (RPair false "AssertionError")).
  - vm_compute. reflexivity.
  - vm_compute. reflexivity.
  - vm_compute. do 2 right. left. reflexivity.
Defined.

(** X2.  A reclaim that raises does not change the result: it is the result
    that the outcome of the wait alone determines. *)
Theorem failed_reclaim_keeps_the_result
    table w k8s language path cfg s r s' new bundle e :
  run_tests table w k8s language path cfg s = (r, s') ->
  calls s' = (new ++ calls s)%list ->
  In (Raised (delete_config_map_call bundle) e) new ->
  exists job success logs,
    In (Returned (wait_for_job_completion_call job) (RPair success logs)) new
    /\ r = Ok (verdict_of w success logs).
Proof.
  intros R C H.
  destruct (run_tests_events _ _ _ _ _ _ _ _ _ _ R C) as [-> | (lc & code & v & -> & _ & S)].
  - destruct H.
  - inversion S; subst; clear S;
      repeat match goal with
             | R : reclaim_events _ _ |- _ => destruct R as [-> | [? ->]]
             end;
      cbn in H;
      repeat match goal with
             | H : _ \/ _ |- _ => destruct H as [H | H]
             | H : False |- _ => destruct H
             | H : @eq event _ _ |- _ => first [discriminate H | injection H as; subst]
             end;
      (eexists; eexists; eexists; split; [cbn; auto 10|reflexivity]).
Qed.

Lemma failed_reclaim_keeps_the_result_witness :
  exists job success logs,
    In (Returned (wait_for_job_completion_call job) (RPair success logs))
       (calls (snd (run (loses_connection logs_with_line_end) live "python")))
    /\ fst (run (loses_connection logs_with_line_end) live "python")
       = Ok (verdict_of (loses_connection logs_with_line_end) success logs).
Proof.
  apply (failed_reclaim_keeps_the_result SUPPORTED_LANGUAGES
           (loses_connection logs_with_line_end) live "python" solution_path
           test_config start _
           (snd (run (loses_connection logs_with_line_end) live "python"))
           (calls (snd (run (loses_connection logs_with_line_end) live "python")))
           the_bundle connection_lost).
  - vm_compute. reflexivity.
  - vm_compute. reflexivity.
  - vm_compute. left. reflexivity.
Defined.

(** X3.  When the wait reports that the job did not succeed, the result is
    the dict with status "fail", the message "Test execution failed" and the
    captured output as raw output. *)
Theorem failed_job_gives_fail table w k8s language path cfg s r s' new job logs :
  run_tests table w k8s language path cfg s = (r, s') ->
  calls s' = (new ++ calls s)%list ->
  In (Returned (wait_for_job_completion_call job) (RPair false logs)) new ->
  r = Ok (PyDict [("status", PyStr "fail");
                  ("message", PyStr "Test execution failed");
                  ("raw_output", PyStr logs)]).
Proof.
  intros R C H.
  rewrite (run_tests_outcome _ _ _ _ _ _ _ _ _ _ _ _ _ R C H). reflexivity.
Qed.

Lemma failed_job_gives_fail_witness :
  fst (run (fails "AssertionError") live "python")
  = Ok (PyDict [("status", PyStr "fail");
                ("message", PyStr "Test execution failed");
                ("raw_output", PyStr "AssertionError")]).
Proof.
  apply (failed_job_gives_fail SUPPORTED_LANGUAGES (fails "AssertionError")
           live "python" solution_path test_config start _
           (snd (run (fails "AssertionError") live "python"))
           (calls (snd (run (fails "AssertionError") live "python")))
           the_job).
  - vm_compute. reflexivity.
  - vm_compute. reflexivity.
  - vm_compute. do 2 right. left. reflexivity.
Defined.

(** X4.  When the job succeeded and its output does not hold the marker,
    the result is the dict with status "pass", the message "Tests passed but
    no structured output found" and the output as raw output. *)
Theorem output_without_marker_gives_pass
    table w k8s language path cfg s r s' new job logs :
  run_tests table w k8s language path cfg s = (r, s') ->
  calls s' = (new ++ calls s)%list ->
  In (Returned (wait_for_job_completion_call job) (RPair true logs)) new ->
  index 0 MARKER logs = None ->
  r = Ok (PyDict [("status", PyStr "pass");
                  ("message", PyStr "Tests passed but no structured output found");
                  ("raw_output", PyStr logs)]).
Proof.
  intros R C H N.
  rewrite (run_tests_outcome _ _ _ _ _ _ _ _ _ _ _ _ _ R C H).
  unfold verdict_of, find. rewrite N. reflexivity.
Qed.

Lemma output_without_marker_gives_pass_witness :
  fst (run (succeeds "1 passed in 0.01s") live "python")
  = Ok (PyDict [("status", PyStr "pass");
                ("message", PyStr "Tests passed but no structured output found");
                ("raw_output", PyStr "1 passed in 0.01s")]).
Proof.
  apply (output_without_marker_gives_pass SUPPORTED_LANGUAGES
           (succeeds "1 passed in 0.01s") live "python" solution_path test_config
           start _ (snd (run (succeeds "1 passed in 0.01s") live "python"))
           (calls (snd (run (succeeds "1 passed in 0.01s") live "python")))
           the_job).
  - vm_compute. reflexivity.
  - vm_compute. reflexivity.
  - vm_compute. do 2 right. left. reflexivity.
  - vm_compute. reflexivity.
Defined.

(** X5.  When the job succeeded and decoding the output from the marker on
    raises [e], the result is the dict with status "error", the message
    "Error parsing test results: " followed by the text of [e], and the
    whole output as raw output. *)
Theorem undecodable_output_gives_error
    table w k8s language path cfg s r s' new job logs e :
  run_tests table w k8s language path cfg s = (r, s') ->
  calls s' = (new ++ calls s)%list ->
  In (Returned (wait_for_job_completion_call job) (RPair true logs)) new ->
  (find logs MARKER >=? 0)%Z = true ->
  json.loads (interp w) (slice_from logs (find logs MARKER)) = Raise e ->
  r = Ok (PyDict [("status", PyStr "error");
                  ("message", PyStr ("Error parsing test results: " ++ exn_str e));
                  ("raw_output", PyStr logs)]).
Proof.
  intros R C H F L.
  rewrite (run_tests_outcome _ _ _ _ _ _ _ _ _ _ _ _ _ R C H).
  unfold verdict_of. rewrite F, L. reflexivity.
Qed.

Lemma undecodable_output_gives_error_witness :
  fst (run (succeeds MARKER) live "python")
  = Ok (PyDict [("status", PyStr "error");
                ("message",
                 PyStr ("Error parsing test results: "
                        ++ exn_str (Exn JSONDecodeError
                                      "Expecting value: line 1 column 11 (char 10)")));
                ("raw_output", PyStr MARKER)]).
Proof.
  apply (undecodable_output_gives_error SUPPORTED_LANGUAGES (succeeds MARKER)
           live "python" solution_path test_config start _
           (snd (run (succeeds MARKER) live "python"))
           (calls (snd (run (succeeds MARKER) live "python"))) the_job).
  - vm_compute. reflexivity.
  - vm_compute. reflexivity.
  - vm_compute. do 2 right. left. reflexivity.
  - vm_compute. reflexivity.
  - vm_compute. reflexivity.
Defined.

(** X6.  When reading the code file raises [e], because the file is not
    there, is a directory or does not decode, [run_tests] returns the
    "error" result with the text of [e] and leaves the state as it was: no
    method of the client is called. *)
Theorem unreadable_code_file_gives_error table w k8s language path cfg s e s1 :
  dict_has table language = true ->
  open_read w path s = (Raise e, s1) ->
  run_tests table w k8s language path cfg s
  = (Ok (PyDict [("status", PyStr "error");
                 ("message", PyStr ("Error running tests: " ++ exn_str e))]),
     s).
Proof. intros H F. rewrite (run_tests_unreadable _ _ _ _ _ _ _ _ _ H F). reflexivity. Qed.

Lemma unreadable_code_file_gives_error_witness :
  run_tests SUPPORTED_LANGUAGES hangs live "python" "/tmp/gone.py" test_config start
  = (Ok (PyDict [("status", PyStr "error");
                 ("message",
                  PyStr "Error running tests: [Errno 2] No such file or directory: '/tmp/gone.py'")]),
     start).
Proof.
  apply (unreadable_code_file_gives_error SUPPORTED_LANGUAGES hangs live "python"
           "/tmp/gone.py" test_config start
           (Exn FileNotFoundError
              "[Errno 2] No such file or directory: '/tmp/gone.py'") start);
    reflexivity.
Defined.

(** ** The limits of the interpreter *)


Lemma length_append a b :
  String.length (a ++ b) = String.length a + String.length b.
Proof. induction a as [|c a IH]; [reflexivity|]. cbn. rewrite IH. reflexivity. Qed.












(* ------------------------------------------------------------------------- *)
(** * Further properties of the client *)
(* ------------------------------------------------------------------------- *)

Section Client.
Variable w : World.

(** What is left of the time allowed, at state [s]. *)
Let left_over (start t : Z) (s : State) : Z := (t * HZ - (now s - start))%Z.

Lemma wait_loop_never_starves n self job start t ci : forall s,
  (left_over start t s <= Z.of_nat n * Z.max 1 (ci * HZ + 1))%Z ->
  fst (wait_loop w n self job start t ci s) <> Ok None.
Proof.
  unfold left_over.
  induction n as [|n IH]; intros s B.
  - cbn. unfold bind, time_time, ret, note.
    destruct (Z.ltb_spec (now s - start) (t * HZ)); [lia|]. cbn. discriminate.
  - cbn.
    destruct (Z.ltb_spec (now s - start) (t * HZ)).
    2:{ unfold bind, note, ret. cbn. discriminate. }
    unfold bind at 1. unfold send at 1. cbn.
    destruct (on_read_namespaced_job_status w _ _ _) as [st|e]; cbn; [|discriminate].
    destruct (positive_count (succeeded st)).
    { unfold bind. destruct (_get_pod_logs_for_job _ _ _ _) as [[l|e] s1]; cbn;
        discriminate. }
    destruct (positive_count (failed st)).
    { unfold bind. destruct (_get_pod_logs_for_job _ _ _ _) as [[l|e] s1]; cbn;
        discriminate. }
    unfold bind at 1. unfold time_sleep.
    destruct (Z.ltb_spec ci 0); [cbn; discriminate|].
    apply IH. cbn [now]. unfold HZ in *. nia.
Qed.

(** The rounds that [wait_for_job_completion] allows its polling loop are
    never used up: the loop ends with the state of the job, with an
    exception or at the deadline. *)
Lemma polling_ends_within_its_rounds self job t ci s :
  fst (wait_loop w (rounds t ci) self job (now s) t ci s) <> Ok None.
Proof.
  apply wait_loop_never_starves. unfold left_over, rounds.
  set (step := Z.max 1 (ci * HZ + 1)).
  assert (0 < step)%Z by (unfold step; lia).
  replace (t * HZ - (now s - now s))%Z with (t * HZ)%Z by lia.
  rewrite Nat2Z.inj_add. cbn [Z.of_nat Pos.of_succ_nat].
  destruct (Z.le_gt_cases 0 (t * HZ)) as [P|N].
  - rewrite Z2Nat.id by (apply Z.div_pos; lia).
    pose proof (Z.mul_succ_div_gt (t * HZ) step ltac:(lia)). lia.
  - pose proof (Z2Nat.id (Z.max 0 (t * HZ / step))). lia.
Qed.

Lemma wait_loop_hanging n self job start t ci :
  keeps_running w -> (0 <= ci)%Z ->
  forall s,
    (left_over start t s <= Z.of_nat n * Z.max 1 (ci * HZ + 1))%Z ->
    exists s',
      wait_loop w n self job start t ci s = (Ok (Some (false, TIMEOUT_LOGS)), s')
      /\ calls s' = DeadlineElapsed job :: calls s
      /\ (t * HZ <= now s' - start)%Z
      /\ (now s <= now s')%Z.
Proof.
  unfold left_over. intros K Hci.
  induction n as [|n IH]; intros s B.
  - cbn. unfold bind, time_time, ret, note.
    destruct (Z.ltb_spec (now s - start) (t * HZ)); [lia|]. cbn.
    eexists. split; [reflexivity|]. cbn. repeat split; lia.
  - cbn.
    destruct (Z.ltb_spec (now s - start) (t * HZ)).
    2:{ unfold bind, note, ret. cbn. eexists. split; [reflexivity|].
        cbn. repeat split; lia. }
    unfold bind at 1. unfold send at 1. cbn.
    destruct (K (List.length (requests s)) job (namespace self)) as (st & -> & -> & ->).
    unfold bind at 1. unfold time_sleep.
    destruct (Z.ltb_spec ci 0); [lia|].
    match goal with |- context [wait_loop w n self job start t ci ?s1] =>
      destruct (IH s1) as (s' & E & C & T & N) end.
    { cbn [now]. unfold HZ in *. nia. }
    exists s'. split; [exact E|]. cbn in C, N. repeat split; try assumption.
    unfold HZ in *. nia.
Qed.

(** X7.  Against a job that is still running at every poll, a live client's
    [wait_for_job_completion] returns [(False, "Timeout waiting for job
    completion")], for any timeout and any interval that is not negative;
    it leaves through the deadline exit, not before [timeout_seconds] have
    passed, and raises nothing. *)
Theorem hanging_job_times_out self job t ci s :
  mock_mode self = false ->
  keeps_running w ->
  (0 <= ci)%Z ->
  exists s',
    wait_for_job_completion w self job t ci s = (Ok (false, TIMEOUT_LOGS), s')
    /\ calls s'
       = Returned (wait_for_job_completion_call job) (RPair false TIMEOUT_LOGS)
         :: DeadlineElapsed job
         :: Called (wait_for_job_completion_call job) :: calls s
    /\ (now s + t * HZ <= now s')%Z.
Proof.
  intros Hm K Hci.
  unfold wait_for_job_completion, method. rewrite Hm.
  unfold bind at 1. unfold note at 1.
  unfold try_except. unfold bind at 1. unfold bind at 1. unfold time_time at 1.
  unfold bind at 1. cbn [now].
  match goal with |- context [wait_loop w ?n self job ?st t ci ?s0] =>
    destruct (wait_loop_hanging n self job st t ci K Hci s0) as (s1 & E & C & T & _)
  end.
  { unfold left_over, rounds. cbn [now].
    set (step := Z.max 1 (ci * HZ + 1)).
    assert (0 < step)%Z by (unfold step; lia).
    replace (t * HZ - (now s - now s))%Z with (t * HZ)%Z by lia.
    rewrite Nat2Z.inj_add. cbn [Z.of_nat Pos.of_succ_nat].
    destruct (Z.le_gt_cases 0 (t * HZ)) as [P|N].
    - rewrite Z2Nat.id by (apply Z.div_pos; lia).
      pose proof (Z.mul_succ_div_gt (t * HZ) step ltac:(lia)). lia.
    - pose proof (Z2Nat.id (Z.max 0 (t * HZ / step))). lia. }
  rewrite E. unfold ret, bind, note. cbn.
  eexists. split; [reflexivity|]. cbn. rewrite C. cbn.
  split; [reflexivity|]. cbn in T. lia.
Qed.

Lemma wait_loop_deadline n self job start t ci : forall s r s',
  wait_loop w n self job start t ci s = (r, s') ->
  calls s' = DeadlineElapsed job :: calls s ->
  (t * HZ <= now s' - start)%Z.
Proof.
  induction n as [|n IH]; intros s r s'.
  - cbn. unfold bind, time_time, ret, note.
    destruct (Z.ltb_spec (now s - start) (t * HZ)).
    + intros [= <- <-] C. exfalso. revert C. clear.
      intros C. apply (f_equal (@List.length event)) in C. cbn in C. lia.
    + cbn. intros [= <- <-] _. cbn. lia.
  - cbn.
    destruct (Z.ltb_spec (now s - start) (t * HZ)).
    2:{ unfold bind, note, ret. cbn. intros [= <- <-] _. cbn. lia. }
    assert (X : forall l : list event, l <> DeadlineElapsed job :: l).
    { intros l C. apply (f_equal (@List.length event)) in C. cbn in C. lia. }
    unfold bind at 1. unfold send at 1. cbn.
    destruct (on_read_namespaced_job_status w _ _ _) as [st|e]; cbn.
    2:{ intros [= <- <-] C. cbn in C. exfalso. exact (X _ C). }
    destruct (positive_count (succeeded st)).
    { unfold bind. destruct (_get_pod_logs_for_job _ _ _ _) as [[l|e] s1] eqn:E;
        apply get_pod_logs_frame in E; cbn in E; destruct E as (E1 & _);
        intros [= <- <-] C; rewrite E1 in C; exfalso; exact (X _ C). }
    destruct (positive_count (failed st)).
    { unfold bind. destruct (_get_pod_logs_for_job _ _ _ _) as [[l|e] s1] eqn:E;
        apply get_pod_logs_frame in E; cbn in E; destruct E as (E1 & _);
        intros [= <- <-] C; rewrite E1 in C; exfalso; exact (X _ C). }
    unfold bind at 1. unfold time_sleep.
    destruct (ci <? 0)%Z.
    { intros [= <- <-] C. cbn in C. exfalso. exact (X _ C). }
    intros W C. exact (IH _ _ _ W C).
Qed.

(** X8.  Whenever [wait_for_job_completion] leaves through its deadline
    exit, at least [timeout_seconds] have passed since it was called. *)
Theorem deadline_is_not_early self job t ci s r s' new :
  wait_for_job_completion w self job t ci s = (r, s') ->
  calls s' = (new ++ calls s)%list ->
  In (DeadlineElapsed job) new ->
  (now s + t * HZ <= now s')%Z.
Proof.
  unfold wait_for_job_completion, method.
  unfold bind at 1. unfold note at 1.
  destruct (mock_mode self).
  - unfold try_except, bind, time_sleep, ret, note. cbn.
    intros [= <- <-]. cbn. intros C.
    change (?a :: ?b :: calls s) with ([a; b] ++ calls s)%list in C.
    apply new_events_unique in C. subst new.
    intros [H|[H|[]]]; discriminate.
  - unfold try_except. unfold bind at 1. unfold bind at 1. unfold time_time at 1.
    unfold bind at 1. cbn [now].
    match goal with |- context [wait_loop w ?n self job ?st t ci ?s0] =>
      destruct (wait_loop w n self job st t ci s0) as [[[[b l]|]|e] s1] eqn:E;
      pose proof (wait_loop_deadline _ _ _ _ _ _ _ _ _ E) as D;
      apply wait_loop_frame in E; cbn in E; destruct E as (_ & _ & E3) end;
      unfold ret, bind, note, raise; cbn; intros [= <- <-]; cbn;
      (destruct E3 as [E3|[E3 E4]];
       [rewrite E3; intros C;
        change (?a :: ?b :: calls s) with ([a; b] ++ calls s)%list in C;
        apply new_events_unique in C; subst new;
        intros [H|[H|[]]]; discriminate
       |intros _ _; specialize (D E3); cbn in D; lia]).
Qed.

End Client.

Lemma deadline_is_not_early_witness :
  (now start + 300 * HZ
   <= now (snd (wait_for_job_completion hangs live the_job 300 5 start)))%Z.
Proof.
  apply (deadline_is_not_early hangs live the_job 300 5 start
           (fst (wait_for_job_completion hangs live the_job 300 5 start))
           (snd (wait_for_job_completion hangs live the_job 300 5 start))
           (calls (snd (wait_for_job_completion hangs live the_job 300 5 start)))).
  - vm_compute. reflexivity.
  - vm_compute. reflexivity.
  - vm_compute. right. left. reflexivity.
Defined.

Lemma hanging_job_times_out_witness :
  exists s',
    wait_for_job_completion hangs live the_job 300 5 start
    = (Ok (false, TIMEOUT_LOGS), s')
    /\ calls s'
       = Returned (wait_for_job_completion_call the_job) (RPair false TIMEOUT_LOGS)
         :: DeadlineElapsed the_job
         :: Called (wait_for_job_completion_call the_job) :: calls start
    /\ (now start + 300 * HZ <= now s')%Z.
Proof.
  apply (hanging_job_times_out hangs live the_job 300 5 start).
  - reflexivity.
  - intros n name ns. exists running. repeat split.
  - lia.
Defined.

Section Requests.
Variable w : World.

(** X9.  [_get_pod_logs_for_job] never raises [ApiException]: a failure of
    the cluster to list the pods or to hand out the log comes back as text.
    A live client lists the pods under the label of the job; with no pod it
    returns "No pods found for the job", and otherwise it reads the log of
    the first pod and of no other. *)
Theorem pod_logs_of_the_first_pod self job s r s' :
  mock_mode self = false ->
  _get_pod_logs_for_job w self job s = (r, s') ->
  let n := List.length (requests s) in
  let listing := list_namespaced_pod (namespace self) ("app=" ++ job) in
  (forall e, r = Raise e -> is_ApiException e = false)
  /\ match on_list_namespaced_pod w n (namespace self) ("app=" ++ job) with
     | Ok [] =>
         r = Ok "No pods found for the job" /\ requests s' = listing :: requests s
     | Ok (pod :: _) =>
         requests s'
         = read_namespaced_pod_log pod (namespace self) :: listing :: requests s
         /\ (forall text,
                on_read_namespaced_pod_log w (S n) pod (namespace self) = Ok text ->
                r = Ok text)
     | Raise e =>
         requests s' = listing :: requests s
         /\ (is_ApiException e = true ->
             r = Ok ("Error retrieving logs: " ++ exn_str e))
     end.
Proof.
  intros Hm. unfold _get_pod_logs_for_job. rewrite Hm.
  unfold try_except, bind, send, ret, raise. cbn.
  destruct (on_list_namespaced_pod w _ _ _) as [[|pod l]|e]; cbn.
  - intros [= <- <-]. split; [discriminate|]. split; reflexivity.
  - destruct (on_read_namespaced_pod_log w _ _ _) as [text|e] eqn:L; cbn.
    + intros [= <- <-]. split; [discriminate|]. split; [reflexivity|].
      intros text' [= ->]. reflexivity.
    + destruct (is_ApiException e) eqn:A; intros [= <- <-].
      * split; [discriminate|]. split; [reflexivity|]. discriminate.
      * split; [intros e' [= <-]; exact A|]. split; [reflexivity|]. discriminate.
  - destruct (is_ApiException e) eqn:A; intros [= <- <-].
    + split; [discriminate|]. split; reflexivity.
    + split; [intros e' [= <-]; exact A|]. split; [reflexivity|]. discriminate.
Qed.

(** X10.  [delete_config_map] never raises [ApiException]; a live client
    sends the one request to delete the named ConfigMap, a mock client
    sends none. *)
Theorem reclaim_swallows_api_errors self name s r s' :
  delete_config_map w self name s = (r, s') ->
  (forall e, r = Raise e -> is_ApiException e = false)
  /\ requests s'
     = if mock_mode self then requests s
       else delete_namespaced_config_map name (namespace self) :: requests s.
Proof.
  unfold delete_config_map, method, bind, try_except, note, ret, raise, send.
  cbn. destruct (mock_mode self); cbn.
  - intros [= <- <-]. split; [discriminate|reflexivity].
  - destruct (on_delete_namespaced_config_map w _ _ _) as [[]|e]; cbn.
    + intros [= <- <-]. split; [discriminate|reflexivity].
    + destruct (is_ApiException e) eqn:A; cbn; intros [= <- <-];
        (split; [|reflexivity]).
      * discriminate.
      * intros e' [= <-]. exact A.
Qed.

(** X11.  A live client's [create_job] that returns has sent one request:
    a Job under the returned name, which is the given name, a hyphen and a
    short id; with one container of the given image and command, no
    restart, no retry, 300 seconds to live after it finished and the given
    deadline; its pods carry the label under which
    [_get_pod_logs_for_job] looks for them. *)
Theorem create_job_request self name img cmd env vm vols t s job_name s' :
  mock_mode self = false ->
  create_job w self name img cmd env vm vols t s = (Ok job_name, s') ->
  job_name = name ++ "-" ++ short_id w (drawn s)
  /\ exists body,
       requests s' = create_namespaced_job (namespace self) body :: requests s
       /\ metadata_name body = job_name
       /\ template_labels body = [("app", job_name)]
       /\ map container_image (containers body) = [img]
       /\ map container_command (containers body) = [cmd]
       /\ restart_policy body = "Never"
       /\ backoff_limit body = 0%Z
       /\ ttl_seconds_after_finished body = 300%Z
       /\ active_deadline_seconds body = t
       /\ forall s1,
            exists rest,
              requests (snd (_get_pod_logs_for_job w self job_name s1))
              = (rest ++ list_namespaced_pod (namespace self) ("app=" ++ job_name)
                         :: requests s1)%list.
Proof.
  intros Hm. unfold create_job, method, bind, try_except, note, short_uuid, ret, raise.
  cbn. rewrite Hm. unfold send. cbn.
  destruct (on_create_namespaced_job w _ _ _) as [[]|e]; cbn; [|discriminate].
  intros [= <- <-]. split; [reflexivity|].
  eexists. split; [reflexivity|]. cbn. repeat (split; [reflexivity|]).
  intros s1. unfold _get_pod_logs_for_job. rewrite Hm.
  unfold try_except, bind, send, ret, raise. cbn.
  destruct (on_list_namespaced_pod w _ _ _) as [[|pod l]|e]; cbn.
  - exists []. reflexivity.
  - destruct (on_read_namespaced_pod_log w _ _ _) as [text|e]; cbn;
      [|destruct (is_ApiException e)]; eexists [_]; reflexivity.
  - destruct (is_ApiException e); exists []; reflexivity.
Qed.

(** X12.  A client that [__init__] leaves in live mode has reached the
    cluster: it was not asked for mock mode, and its one request, to list
    the namespaces, was answered. *)
Theorem live_client_has_connected flag s c s' :
  k8s_client.init w flag s = (Ok c, s') ->
  mock_mode c = false ->
  flag = false
  /\ on_list_namespace w (List.length (requests s)) = Ok tt
  /\ requests s' = list_namespace :: requests s
  /\ namespace c = environ_get w "K8S_NAMESPACE" "default".
Proof.
  unfold k8s_client.init.
  assert (K : forall ns,
             connect w ns s = (Ok c, s') -> mock_mode c = false ->
             on_list_namespace w (List.length (requests s)) = Ok tt
             /\ requests s' = list_namespace :: requests s
             /\ namespace c = ns).
  { intros ns. unfold connect, _test_connection, try_except, bind, send, ret. cbn.
    destruct (on_list_namespace w _) as [[]|e]; intros [= <- <-]; cbn;
      [auto|discriminate]. }
  destruct flag; cbn [orb].
  { intros [= <- <-]. discriminate. }
  destruct (existsb _ _).
  { intros [= <- <-]. discriminate. }
  destruct (load_incluster_config w).
  - intros H M. split; [reflexivity|]. exact (K _ H M).
  - destruct (load_kube_config w).
    + intros H M. split; [reflexivity|]. exact (K _ H M).
    + intros [= <- <-]. discriminate.
    + discriminate.
  - discriminate.
Qed.

(** X13.  [__init__] raises only what the loading of a configuration
    raises besides [ConfigException]; and when it is asked for mock mode, by
    its argument or by K8S_MOCK_MODE being "true", "1" or "yes" in any case
    of letters, it sends nothing and yields the mock client of the
    namespace "mock-namespace". *)
Theorem init_falls_back_to_mock flag s :
  (flag = true
   \/ In (lower (environ_get w "K8S_MOCK_MODE" "")) ["true"; "1"; "yes"]
   \/ (load_incluster_config w = ConfigException
       /\ load_kube_config w = ConfigException)) ->
  k8s_client.init w flag s
  = (Ok {| mock_mode := true; namespace := "mock-namespace" |}, s).
Proof.
  unfold k8s_client.init. intros [-> | [H | [H1 H2]]].
  - reflexivity.
  - assert (E : existsb (String.eqb (lower (environ_get w "K8S_MOCK_MODE" "")))
                  ["true"; "1"; "yes"] = true).
    { apply existsb_exists. eexists. split; [exact H|]. apply String.eqb_refl. }
    rewrite E, orb_true_r. reflexivity.
  - destruct (flag || _); [reflexivity|]. rewrite H1, H2. reflexivity.
Qed.

Lemma is_connected_cases self s :
  exists b s',
    is_connected w self s = (Ok b, s')
    /\ (b = true <->
        mock_mode self = false
        /\ on_list_namespace w (List.length (requests s)) = Ok tt)
    /\ (mock_mode self = true -> s' = s).
Proof.
  unfold is_connected, _test_connection, try_except, bind, send, ret.
  destruct (mock_mode self); cbn.
  - exists false, s. split; [reflexivity|]. split; [|reflexivity].
    split; [discriminate|]. intros [H _]. discriminate.
  - destruct (on_list_namespace w _) as [[]|e]; cbn;
      eexists; eexists; (split; [reflexivity|]); (split; [|discriminate]).
    + split; auto.
    + split; [discriminate|]. intros [_ H]. discriminate.
Qed.

(** X14.  [is_connected] never raises.  It answers [True] exactly for a
    live client whose request to list the namespaces is answered; a mock
    client is told [False] without a request. *)
Theorem is_connected_spec self s :
  exists b s',
    is_connected w self s = (Ok b, s')
    /\ (b = true <->
        mock_mode self = false
        /\ on_list_namespace w (List.length (requests s)) = Ok tt)
    /\ (mock_mode self = true -> s' = s).
Proof. apply is_connected_cases. Qed.
End Requests.

Lemma pod_logs_of_the_first_pod_witness :
  fst (_get_pod_logs_for_job (succeeds "1 passed") live the_job start) = Ok "1 passed"
  /\ requests (snd (_get_pod_logs_for_job (succeeds "1 passed") live the_job start))
     = [read_namespaced_pod_log "pod-1" "default";
        list_namespaced_pod "default" ("app=" ++ the_job)].
Proof.
  destruct (pod_logs_of_the_first_pod (succeeds "1 passed") live the_job start
              (fst (_get_pod_logs_for_job (succeeds "1 passed") live the_job start))
              (snd (_get_pod_logs_for_job (succeeds "1 passed") live the_job start)))
    as [_ [R T]].
  - reflexivity.
  - vm_compute. reflexivity.
  - split; [apply T; reflexivity|exact R].
Defined.

Lemma reclaim_swallows_api_errors_witness :
  (forall e,
      fst (delete_config_map rejects_job live the_bundle start) = Raise e ->
      is_ApiException e = false)
  /\ requests (snd (delete_config_map rejects_job live the_bundle start))
     = [delete_namespaced_config_map the_bundle "default"].
Proof.
  apply (reclaim_swallows_api_errors rejects_job live the_bundle start).
  vm_compute. reflexivity.
Defined.

Lemma create_job_request_witness :
  exists body,
    requests (snd (create_job hangs live "python-test-1b9d6bcd" "img" ["true"]
                     None None None 120 start))
    = [create_namespaced_job "default" body]
    /\ metadata_name body = "python-test-1b9d6bcd-1b9d6bcd"
    /\ template_labels body = [("app", "python-test-1b9d6bcd-1b9d6bcd")]
    /\ restart_policy body = "Never"
    /\ backoff_limit body = 0%Z.
Proof.
  destruct (create_job_request hangs live "python-test-1b9d6bcd" "img" ["true"]
              None None None 120 start "python-test-1b9d6bcd-1b9d6bcd"
              (snd (create_job hangs live "python-test-1b9d6bcd" "img" ["true"]
                      None None None 120 start)))
    as [_ (body & R & N & L & _ & _ & P & B & _)].
  - reflexivity.
  - vm_compute. reflexivity.
  - exists body. auto.
Defined.

Lemma live_client_has_connected_witness :
  false = false
  /\ on_list_namespace hangs (List.length (requests start)) = Ok tt
  /\ requests (snd (k8s_client.init hangs false start)) = list_namespace :: requests start
  /\ namespace live = environ_get hangs "K8S_NAMESPACE" "default".
Proof.
  apply (live_client_has_connected hangs false start live
           (snd (k8s_client.init hangs false start))).
  - vm_compute. reflexivity.
  - reflexivity.
Defined.

Lemma init_falls_back_to_mock_witness :
  k8s_client.init hangs true start = (Ok mock, start).
Proof.
  apply (init_falls_back_to_mock hangs true start). left. reflexivity.
Defined.

(* ------------------------------------------------------------------------- *)
(** * Properties of utils.py *)
(* ------------------------------------------------------------------------- *)

Lemma prefix_char c s :
  prefix (String c "") s = match s with
                           | String b _ => Ascii.eqb c b
                           | EmptyString => false
                           end.
Proof.
  destruct s as [|b s]; [reflexivity|]. cbn.
  destruct (ascii_dec c b) as [->|N].
  - rewrite Ascii.eqb_refl. destruct s; reflexivity.
  - symmetry. apply Ascii.eqb_neq. exact N.
Qed.

Lemma find_char_absent c s :
  contains_char c s = false -> index 0 (String c "") s = None.
Proof.
  induction s as [|b s IH]; [reflexivity|].
  cbn [contains_char]. intros H. apply orb_false_elim in H. destruct H as [H1 H2].
  cbn [index]. rewrite prefix_char, H1, (IH H2). reflexivity.
Qed.

Lemma find_char_first c pre rest :
  contains_char c pre = false ->
  index 0 (String c "") (pre ++ String c rest) = Some (String.length pre).
Proof.
  induction pre as [|b pre IH]; intros H.
  - cbn [String.append index]. rewrite prefix_char, Ascii.eqb_refl. reflexivity.
  - cbn [contains_char] in H. apply orb_false_elim in H. destruct H as [H1 H2].
    cbn [String.append index]. rewrite prefix_char, H1, (IH H2). reflexivity.
Qed.

Lemma rfind_char_absent c s : forall i last,
  contains_char c s = false -> utils.rfind_from i last (String c "") s = last.
Proof.
  induction s as [|b s IH]; intros i last H; [reflexivity|].
  cbn [contains_char] in H. apply orb_false_elim in H. destruct H as [H1 H2].
  cbn [utils.rfind_from]. rewrite prefix_char, H1. apply IH, H2.
Qed.

Lemma rfind_char_last c pre post : forall i last,
  contains_char c post = false ->
  utils.rfind_from i last (String c "") (pre ++ String c post)
  = Z.of_nat (i + String.length pre).
Proof.
  induction pre as [|b pre IH]; intros i last H.
  - cbn [String.append utils.rfind_from]. rewrite prefix_char, Ascii.eqb_refl.
    rewrite (rfind_char_absent _ _ _ _ H). cbn. f_equal. lia.
  - cbn [String.append utils.rfind_from]. rewrite (IH _ _ H). cbn. f_equal. lia.
Qed.

Lemma drop_app a b : drop (String.length a) (a ++ b) = b.
Proof. induction a as [|c a IH]; [destruct b; reflexivity|exact IH]. Qed.

Lemma take_app a b : take (String.length a) (a ++ b) = a.
Proof.
  induction a as [|c a IH]; [destruct b; reflexivity|]. cbn. rewrite IH. reflexivity.
Qed.


(** A document that begins with a brace decodes, if it decodes, to a dict. *)
Lemma brace_doc_is_dict ip t v :
  json.loads ip (String "{" t) = Ok v -> exists d, v = PyDict d.
Proof.
  intros L. apply loads_ok in L. destruct L as (rest & D & _).
  unfold json.raw_decode in D.
  change (json.skip_ws (String "{" t)) with (String "{" t) in D.
  exact (brace_scans_to_dict _ _ _ _ _ _ D).
Qed.

(** X15.  [parse_test_results] returns a dict for every output, and never
    raises. *)
Theorem parse_test_results_is_a_dict ip output :
  exists d, utils.parse_test_results ip output = PyDict d.
Proof.
  unfold utils.parse_test_results.
  destruct ((find output "{" >=? 0)%Z && (utils.rfind output "}" >? find output "{")%Z)
    eqn:G; [|eauto].
  apply andb_prop in G. destruct G as [G1 G2].
  destruct (json.loads _ _) as [v|e] eqn:L.
  - revert L. unfold utils.slice, find in *.
    destruct (index 0 "{" output) as [i|] eqn:I; [|cbn in G1; discriminate].
    pose proof (index_drop _ _ _ I) as P.
    rewrite Nat2Z.id.
    revert P. destruct (drop i output) as [|c rest]; intros P; [discriminate|].
    rewrite prefix_char in P. apply Ascii.eqb_eq in P. subst c.
    destruct (Z.to_nat (utils.rfind output "}" + 1 - Z.of_nat i)) as [|n] eqn:N.
    { apply Z.gtb_lt in G2. lia. }
    cbn [take]. apply brace_doc_is_dict.
  - destruct (is_JSONDecodeError e); eauto.
Qed.

(** X16.  [parse_test_results] reads the text from the first opening brace
    to the last closing brace and ignores what stands before and after: the
    result is what that text decodes to.  When decoding raises a
    [JSONDecodeError], it is the "error" dict with the message "Failed to
    parse JSON results"; when it raises another exception [e], the "error"
    dict with the message "Error parsing results: " and the text of [e]; in
    both cases with the whole output as raw output. *)
Theorem parse_test_results_ignores_surroundings ip pre mid post :
  contains_char "{" pre = false ->
  contains_char "}" post = false ->
  let doc := String "{" (mid ++ "}") in
  let output := pre ++ doc ++ post in
  utils.parse_test_results ip output
  = match json.loads ip doc with
    | Ok results => results
    | Raise e =>
        PyDict [("status", PyStr "error");
                ("message",
                 PyStr (if is_JSONDecodeError e
                        then "Failed to parse JSON results"
                        else "Error parsing results: " ++ exn_str e));
                ("raw_output", PyStr output)]
    end.
Proof.
  intros Hpre Hpost doc output.
  unfold utils.parse_test_results, find, utils.rfind.
  assert (F : index 0 "{" output = Some (String.length pre)).
  { unfold output, doc. cbn [String.append]. apply find_char_first, Hpre. }
  assert (R : utils.rfind_from 0 (-1) "}" output
              = Z.of_nat (String.length pre + String.length doc - 1)).
  { unfold output, doc.
    replace (pre ++ String "{" (mid ++ "}") ++ post)
      with ((pre ++ String "{" mid) ++ String "}" post).
    - rewrite (rfind_char_last _ _ _ _ _ Hpost). f_equal.
      rewrite !length_append. cbn. rewrite length_append. cbn. lia.
    - rewrite !string_app_assoc. cbn. rewrite string_app_assoc. reflexivity. }
  rewrite F, R.
  assert (L : (1 <= String.length doc)%nat) by (cbn; lia).
  destruct (Z.geb_spec (Z.of_nat (String.length pre)) 0); [|lia].
  destruct (Z.gtb_spec (Z.of_nat (String.length pre + String.length doc - 1))
              (Z.of_nat (String.length pre))) as [G|G].
  2:{ unfold doc in G. cbn in G. rewrite length_append in G. cbn in G. lia. }
  cbn [andb]. unfold utils.slice.
  rewrite Nat2Z.id.
  replace (Z.to_nat (Z.of_nat (String.length pre + String.length doc - 1) + 1
                     - Z.of_nat (String.length pre)))
    with (String.length doc) by lia.
  unfold output. rewrite drop_app, take_app.
  destruct (json.loads ip doc) as [v|e] eqn:D; [reflexivity|].
  destruct (is_JSONDecodeError e); reflexivity.
Qed.

Lemma parse_test_results_ignores_surroundings_witness :
  utils.parse_test_results cpython logs_with_trailer = embedded_result.
Proof.
  apply (parse_test_results_ignores_surroundings cpython
           (String.append "collected 1 item" (String "010" ""))
           embedded_body
           (String "010" "1 passed in 0.01s")).
  - reflexivity.
  - reflexivity.
Defined.

(** X17.  An output with no opening brace gives the "error" dict that says
    that no JSON results were found, with the output as raw output. *)
Theorem parse_test_results_without_brace ip output :
  contains_char "{" output = false ->
  utils.parse_test_results ip output
  = PyDict [("status", PyStr "error");
            ("message", PyStr "No JSON results found in output");
            ("raw_output", PyStr output)].
Proof.
  intros H. unfold utils.parse_test_results, find.
  rewrite (find_char_absent _ _ H). reflexivity.
Qed.

Lemma parse_test_results_without_brace_witness :
  utils.parse_test_results cpython "1 passed in 0.01s"
  = PyDict [("status", PyStr "error");
            ("message", PyStr "No JSON results found in output");
            ("raw_output", PyStr "1 passed in 0.01s")].
Proof.
  apply (parse_test_results_without_brace cpython "1 passed in 0.01s"). reflexivity.
Defined.

(* ------------------------------------------------------------------------- *)
(** * Properties of app.py *)
(* ------------------------------------------------------------------------- *)

Lemma dict_get_set_same {V} (d : list (string * V)) k v :
  dict_get (dict_set d k v) k = Some v.
Proof.
  induction d as [|[k' v'] d IH]; cbn.
  - rewrite String.eqb_refl. reflexivity.
  - destruct (String.eqb k k') eqn:E; cbn; rewrite E; [reflexivity|exact IH].
Qed.

Lemma run_tests_returns table w k8s language path cfg s :
  dict_has table language = true ->
  exists v s', run_tests table w k8s language path cfg s = (Ok v, s').
Proof.
  intros H.
  destruct (run_tests_cases table w k8s language path cfg s)
    as [[H' _] | [[e R] | (lc & code & v & s' & new & _ & _ & R & _)]].
  - congruence.
  - eauto.
  - eauto.
Qed.

Section Route.
Variable table : registry.
Variable w : World.
Variable k8s : K8sClient.

(** X19.  The route turns an unsupported language away with status 400
    and the list of the supported ones, whatever was uploaded; the state is
    untouched, so nothing was saved and the client was not called. *)
Theorem route_rejects_unsupported_language language uploads s :
  dict_has table language = false ->
  app.run_tests table w k8s language uploads s
  = (Ok (PyDict [("error", PyStr ("Unsupported language: " ++ language));
                 ("supported_languages", PyList (map PyStr (keys table)))],
         400%Z), s).
Proof. intros H. unfold app.run_tests. rewrite H. reflexivity. Qed.

(** X20.  For a supported language, a request that lacks the code file or
    the test configuration is answered with status 400 and "Missing
    required files"; the state is untouched. *)
Theorem route_rejects_missing_files language uploads s :
  dict_has table language = true ->
  app.code_file uploads = None \/ app.test_config uploads = None ->
  app.run_tests table w k8s language uploads s
  = (Ok (PyDict [("error", PyStr "Missing required files");
                 ("required", PyList [PyStr "code_file"; PyStr "test_config"])],
         400%Z), s).
Proof.
  intros H M. unfold app.run_tests. rewrite H. cbn [negb].
  destruct M as [M|M]; rewrite M; [|destruct (app.code_file uploads)]; reflexivity.
Qed.

Section Saved.
Variables (language : string) (code config : app.FileStorage) (s : State).

Let dir := mkdtemp w (files s).
Let code_path := app.path_join dir (secure_filename w (app.filename code)).
Let config_path := app.path_join dir (secure_filename w (app.filename config)).
Let saved := uploads_saved code_path config_path code config s.

Hypothesis Hlang : dict_has table language = true.
Hypothesis Hcode : app.ends_with_slash code_path = false.
Hypothesis Hconfig : app.ends_with_slash config_path = false.

Lemma route_after_saving :
  app.run_tests table w k8s language
    {| app.code_file := Some code; app.test_config := Some config |} s
  = let '(r, s') :=
      try_except
        (text <- (fun s0 =>
                    (match decode w (app.stream config) with
                     | inl text => Ok (universal_newlines text)
                     | inr msg => Raise (Exn UnicodeDecodeError msg)
                     end, s0)) ;;
         test_config <- json_loads (interp w) text ;;
         if negb (utils.validate_test_config test_config language) then
           ret (PyDict [("error", PyStr "Invalid test configuration")], 400%Z)
         else
           result <- run_tests table w k8s language code_path test_config ;;
           ret (app.jsonify result))
        (fun e =>
           if is_JSONDecodeError e then
             ret (PyDict [("error", PyStr "Invalid JSON in test configuration")],
                  400%Z)
           else
             ret (PyDict [("error", PyStr ("Error running tests: " ++ exn_str e))],
                  500%Z)) saved in
    (r, left_directory dir s').
Proof.
  unfold app.run_tests. rewrite Hlang. cbn [negb app.code_file app.test_config].
  unfold app.with_temporary_directory.
  fold dir. fold code_path. fold config_path.
  unfold app.save. rewrite Hcode, Hconfig.
  unfold bind at 1. unfold write_file at 1.
  unfold bind at 1. unfold write_file at 1. cbn [files now drawn requests calls].
  unfold try_except. unfold bind at 1. unfold open_read.
  cbn [files]. rewrite dict_get_set_same.
  unfold bind at 3.
  destruct (decode w (app.stream config)); reflexivity.
Qed.

(** X21.  When the uploaded configuration reads as a text that is not
    JSON, the route answers with status 400 and "Invalid JSON in test
    configuration"; the client is not called and no request is sent. *)
Theorem route_rejects_invalid_json text e :
  decode w (app.stream config) = inl text ->
  json.loads (interp w) (universal_newlines text) = Raise e ->
  is_JSONDecodeError e = true ->
  app.run_tests table w k8s language
    {| app.code_file := Some code; app.test_config := Some config |} s
  = (Ok (PyDict [("error", PyStr "Invalid JSON in test configuration")], 400%Z),
     left_directory dir saved).
Proof.
  intros T L J. rewrite route_after_saving.
  unfold try_except, bind, json_loads. rewrite T, L, J. reflexivity.
Qed.

(** X22.  When the configuration reads as JSON and [validate_test_config]
    refuses it, the route answers with status 400 and "Invalid test
    configuration"; the client is not called and no request is sent. *)
Theorem route_rejects_invalid_config text test_config :
  decode w (app.stream config) = inl text ->
  json.loads (interp w) (universal_newlines text) = Ok test_config ->
  utils.validate_test_config test_config language = false ->
  app.run_tests table w k8s language
    {| app.code_file := Some code; app.test_config := Some config |} s
  = (Ok (PyDict [("error", PyStr "Invalid test configuration")], 400%Z),
     left_directory dir saved).
Proof.
  intros T L V. rewrite route_after_saving.
  unfold try_except, bind, json_loads. rewrite T, L, V. reflexivity.
Qed.

(** X23.  When the configuration reads as JSON and is valid, the route
    answers with status 200 and, as body, the result of
    [RunnerService.run_tests] on the saved code file and the decoded
    configuration, whatever the status of that result; afterwards the
    temporary directory is gone. *)
Theorem route_returns_the_result text test_config :
  decode w (app.stream config) = inl text ->
  json.loads (interp w) (universal_newlines text) = Ok test_config ->
  utils.validate_test_config test_config language = true ->
  exists result s',
    run_tests table w k8s language code_path test_config saved = (Ok result, s')
    /\ app.run_tests table w k8s language
         {| app.code_file := Some code; app.test_config := Some config |} s
       = (Ok (result, 200%Z), left_directory dir s').
Proof.
  intros T L V.
  destruct (run_tests_returns table w k8s language code_path test_config saved Hlang)
    as (v & s' & R).
  exists v, s'. split; [exact R|].
  rewrite route_after_saving.
  unfold try_except, json_loads. unfold bind at 1. rewrite T.
  unfold bind at 1. rewrite L, V. cbn [negb].
  unfold bind. rewrite R. reflexivity.
Qed.

End Saved.

(** X24.  [health_check] answers with status 500 exactly when the client
    is live and the cluster does not answer; otherwise with status 200.  The
    body tells the three cases apart. *)
Theorem health_check_spec s :
  exists body code s',
    app.health_check table w k8s s = (Ok (body, code), s')
    /\ (code = 500%Z <->
        mock_mode k8s = false
        /\ on_list_namespace w (List.length (requests s)) <> Ok tt)
    /\ (code = 200%Z \/ code = 500%Z)
    /\ item body "kubernetes_client"
       = Some (PyStr (if mock_mode k8s then "ok (mock mode)"
                      else if (code =? 200)%Z then "ok" else "error")).
Proof.
  unfold app.health_check. unfold bind.
  destruct (is_connected_cases w k8s s) as (b & s' & R & B & _).
  rewrite R. destruct B as [B1 B2].
  destruct (mock_mode k8s) eqn:M.
  - destruct b.
    + destruct (B1 eq_refl). discriminate.
    + cbn. do 3 eexists. split; [reflexivity|]. split; [|split; [auto|reflexivity]].
      split; [discriminate|]. intros [H _]. discriminate.
  - destruct b; cbn; do 3 eexists; (split; [reflexivity|]);
      (split; [|split; [auto|reflexivity]]).
    + split; [discriminate|]. intros [_ H]. destruct (B1 eq_refl) as [_ H']. congruence.
    + split; [|reflexivity]. intros _. split; [reflexivity|].
      intros H. assert (false = true) by (apply B2; auto). discriminate.
Qed.

(** X25.  Without K8S_MOCK_MODE in the environment the application builds
    a mock client, and sends nothing to do so. *)
Theorem app_starts_in_mock_mode s :
  environ w "K8S_MOCK_MODE" = None ->
  app.startup w s = (Ok {| mock_mode := true; namespace := "mock-namespace" |}, s).
Proof.
  intros E. unfold app.startup, environ_get. rewrite E. reflexivity.
Qed.
End Route.

Lemma route_rejects_unsupported_language_witness :
  app.run_tests SUPPORTED_LANGUAGES hangs live "ruby"
    {| app.code_file := Some code_upload; app.test_config := Some config_upload |}
    no_files
  = (Ok (PyDict [("error", PyStr ("Unsupported language: " ++ "ruby"));
                 ("supported_languages",
                  PyList (map PyStr (keys SUPPORTED_LANGUAGES)))],
         400%Z), no_files).
Proof.
  apply (route_rejects_unsupported_language SUPPORTED_LANGUAGES hangs live "ruby").
  reflexivity.
Defined.

Lemma route_rejects_missing_files_witness :
  app.run_tests SUPPORTED_LANGUAGES hangs live "python"
    {| app.code_file := Some code_upload; app.test_config := None |} no_files
  = (Ok (PyDict [("error", PyStr "Missing required files");
                 ("required", PyList [PyStr "code_file"; PyStr "test_config"])],
         400%Z), no_files).
Proof.
  apply (route_rejects_missing_files SUPPORTED_LANGUAGES hangs live "python").
  - reflexivity.
  - right. reflexivity.
Defined.

Lemma route_rejects_invalid_json_witness :
  fst (app.run_tests SUPPORTED_LANGUAGES hangs live "python"
         {| app.code_file := Some code_upload;
            app.test_config := Some broken_upload |} no_files)
  = Ok (PyDict [("error", PyStr "Invalid JSON in test configuration")], 400%Z).
Proof.
  rewrite (route_rejects_invalid_json SUPPORTED_LANGUAGES hangs live "python"
             code_upload broken_upload no_files eq_refl eq_refl eq_refl
             "version: 1"
             (Exn JSONDecodeError "Expecting value: line 1 column 1 (char 0)")).
  - reflexivity.
  - reflexivity.
  - vm_compute. reflexivity.
  - reflexivity.
Defined.

Lemma route_rejects_invalid_config_witness :
  fst (app.run_tests SUPPORTED_LANGUAGES hangs live "python"
         {| app.code_file := Some code_upload;
            app.test_config := Some incomplete_upload |} no_files)
  = Ok (PyDict [("error", PyStr "Invalid test configuration")], 400%Z).
Proof.
  rewrite (route_rejects_invalid_config SUPPORTED_LANGUAGES hangs live "python"
             code_upload incomplete_upload no_files eq_refl eq_refl eq_refl
             incomplete_text (PyDict [("version", PyInt 1)])).
  - reflexivity.
  - reflexivity.
  - vm_compute. reflexivity.
  - reflexivity.
Defined.

Lemma route_returns_the_result_witness :
  exists result s',
    run_tests SUPPORTED_LANGUAGES hangs mock "python"
      "/tmp/tmpk3v9x2ab/solution.py" test_config
      (uploads_saved "/tmp/tmpk3v9x2ab/solution.py"
         "/tmp/tmpk3v9x2ab/test_config.json" code_upload config_upload no_files)
    = (Ok result, s')
    /\ app.run_tests SUPPORTED_LANGUAGES hangs mock "python"
         {| app.code_file := Some code_upload;
            app.test_config := Some config_upload |} no_files
       = (Ok (result, 200%Z), left_directory "/tmp/tmpk3v9x2ab" s').
Proof.
  apply (route_returns_the_result SUPPORTED_LANGUAGES hangs mock "python"
           code_upload config_upload no_files eq_refl eq_refl eq_refl
           config_text test_config).
  - reflexivity.
  - vm_compute. reflexivity.
  - reflexivity.
Defined.


Lemma app_starts_in_mock_mode_witness :
  app.startup hangs no_files = (Ok mock, no_files).
Proof. apply (app_starts_in_mock_mode hangs no_files). reflexivity. Defined.

(* ------------------------------------------------------------------------- *)
(** * What is staged and what is launched *)
(* ------------------------------------------------------------------------- *)

(** X26.  The bundle that [run_tests] stages holds two files: under the
    name "solution." and the extension of the language, the text that
    reading the code file has given (decoded, with its line ends
    translated); and under the name "test_config.json" the test
    configuration as [json.dumps] writes it. *)
Theorem bundle_holds_code_and_config
    table w k8s language path cfg s r s' new name data :
  run_tests table w k8s language path cfg s = (r, s') ->
  calls s' = (new ++ calls s)%list ->
  In (Called (create_config_map_call name data)) new ->
  exists lc code,
    dict_get table language = Some lc
    /\ open_read w path s = (Ok code, s)
    /\ data = [("solution." ++ file_extension lc, code);
               ("test_config.json", json.dumps (interp w) cfg)].
Proof.
  intros R C H.
  destruct (run_tests_cases table w k8s language path cfg s)
    as [[_ E] | [[e E] | (lc & code & v & s1 & new1 & Hlc & Hf & E & C1 & S)]];
    rewrite E in R; injection R as <- <-.
  - rewrite <- (app_nil_l (calls s)) in C at 1. apply new_events_unique in C.
    subst new. destruct H.
  - rewrite <- (app_nil_l (calls s)) in C at 1. apply new_events_unique in C.
    subst new. destruct H.
  - rewrite C1 in C. apply new_events_unique in C. subst new1.
    exists lc, code. split; [exact Hlc|]. split; [exact Hf|].
    assert (D : data_of w lc code cfg
                = [("solution." ++ file_extension lc, code);
                   ("test_config.json", json.dumps (interp w) cfg)]) by reflexivity.
    rewrite <- D.
    inversion S; subst; clear S;
      repeat match goal with
             | R : reclaim_events _ _ |- _ => destruct R as [-> | [? ->]]
             end;
      cbn in H;
      repeat match goal with
             | H : _ \/ _ |- _ => destruct H as [H | H]
             | H : False |- _ => destruct H
             | H : @eq event _ _ |- _ =>
                 first [discriminate H | injection H as; subst; reflexivity]
             end.
Qed.

Lemma bundle_holds_code_and_config_witness :
  exists lc code,
    dict_get SUPPORTED_LANGUAGES "python" = Some lc
    /\ open_read hangs crlf_path crlf_start = (Ok code, crlf_start)
    /\ [("solution.py", String.append "def hello():" (String "010" "    return 1"));
        ("test_config.json", config_text)]
       = [("solution." ++ file_extension lc, code);
          ("test_config.json", json.dumps (interp hangs) test_config)].
Proof.
  apply (bundle_holds_code_and_config SUPPORTED_LANGUAGES hangs mock "python"
           crlf_path test_config crlf_start
           (fst (run_tests SUPPORTED_LANGUAGES hangs mock "python" crlf_path
                   test_config crlf_start))
           (snd (run_tests SUPPORTED_LANGUAGES hangs mock "python" crlf_path
                   test_config crlf_start))
           (calls (snd (run_tests SUPPORTED_LANGUAGES hangs mock "python" crlf_path
                          test_config crlf_start)))
           "python-test-1b9d6bcd").
  - vm_compute. reflexivity.
  - vm_compute. reflexivity.
  - vm_compute. do 7 right. left. reflexivity.
Defined.

(** X27.  The job that [run_tests] launches runs the image of the language
    with a deadline of 120 seconds, and mounts, at /mnt/exercise, the
    bundle that [create_config_map] has just returned. *)
Theorem job_mounts_the_staged_bundle
    table w k8s language path cfg s r s' new name img cmd mounts volumes t :
  run_tests table w k8s language path cfg s = (r, s') ->
  calls s' = (new ++ calls s)%list ->
  In (Called (create_job_call name img cmd mounts volumes t)) new ->
  exists lc stage bundle,
    dict_get table language = Some lc
    /\ img = image lc
    /\ t = 120%Z
    /\ mounts = [{| mount_name := "test-files"; mount_path := "/mnt/exercise" |}]
    /\ volumes = [{| volume_name := "test-files"; config_map_name := bundle |}]
    /\ In (Returned stage (RStr bundle)) new
    /\ exists staged_name data, stage = create_config_map_call staged_name data.
Proof.
  intros R C H.
  destruct (run_tests_events _ _ _ _ _ _ _ _ _ _ R C) as [-> | (lc & code & v & -> & Hlc & S)].
  - destruct H.
  - exists lc.
    inversion S; subst; clear S;
      repeat match goal with
             | R : reclaim_events _ _ |- _ => destruct R as [-> | [? ->]]
             end;
      cbn in H;
      repeat match goal with
             | H : _ \/ _ |- _ => destruct H as [H | H]
             | H : False |- _ => destruct H
             | H : @eq event _ _ |- _ => first [discriminate H | injection H as; subst]
             end;
      (eexists; eexists; split; [exact Hlc|];
       do 4 (split; [reflexivity|]);
       split; [cbn; auto 10|unfold stage_call; eauto]).
Qed.

Lemma job_mounts_the_staged_bundle_witness :
  exists lc stage bundle,
    dict_get SUPPORTED_LANGUAGES "python" = Some lc
    /\ "exercism/python-test-runner:latest" = image lc
    /\ 120%Z = 120%Z
    /\ [{| mount_name := "test-files"; mount_path := "/mnt/exercise" |}]
       = [{| mount_name := "test-files"; mount_path := "/mnt/exercise" |}]
    /\ [{| volume_name := "test-files"; config_map_name := the_bundle |}]
       = [{| volume_name := "test-files"; config_map_name := bundle |}]
    /\ In (Returned stage (RStr bundle)) (calls (snd (run rejects_job live "python")))
    /\ exists staged_name data, stage = create_config_map_call staged_name data.
Proof.
  apply (job_mounts_the_staged_bundle SUPPORTED_LANGUAGES rejects_job live "python"
           solution_path test_config start
           (fst (run rejects_job live "python")) (snd (run rejects_job live "python"))
           (calls (snd (run rejects_job live "python")))
           "python-test-1b9d6bcd" _ (command_of python_lc)).
  - vm_compute. reflexivity.
  - vm_compute. reflexivity.
  - vm_compute. right. left. reflexivity.
Defined.
